(** * QR attendance backend: token issuance, redemption and the attendance ledger

    Shallow embedding of the QR-session attendance protocol of the backend:

    - [controllers/qrController.js]: [generateQR], [generateTeacherSelfQR],
      [scanTeacherQR], [scanQR], and after them [scanTeacherAttendanceQR]
      and [testTeacherScan];
    - [controllers/attendanceController.js]: [markAttendance], and after it
      the reports [getMyAttendance], [getClassAttendance],
      [getDailySummary] and [getInstitutionReport];
    - [models/Attendance.js]: the [AttendanceSchema].

    Conventions of the embedding.

    - A JavaScript [Date] and the result of [Date.now()] are a number of
      milliseconds since the epoch, in [Z].
    - A JavaScript [Number] is a double.  An integer is kept in [Z]; the
      hours of [workHours] are the binary64 quotient (module [Double], on
      the primitive floats), whose exact value [toFixed] rounds; for the
      minutes since issuance the exact rational stands in, module [Double]
      redoes the computation in binary64, and the two are shown to agree
      over the life of a token.
    - An object property that may be [undefined] is an [option]; the
      truthiness tests of the source ([!x], [x || y]) are written out.
    - The [Attendance] collection is a list of documents in insertion order;
      the position of a document stands for its [_id].
    - An [async] handler is a function from the request, the clock and the
      collection to the response and the new collection; a request reads the
      clock once.  Module [Readings] gives each reading of the clock on
      which the age of a token depends an instant of its own.
    - The zone of the server is at a constant offset from UTC, so that a
      local day has 24 hours; a change to or from daylight saving time is
      not modelled. *)

From Stdlib Require Import ZArith QArith Qround Qabs Lia Lqa.
From Stdlib Require PrimFloat Uint63.
From Stdlib Require FloatOps SpecFloat FloatAxioms.
From stdpp Require Import base decidable option list strings relations.

(** ** JavaScript numbers and dates *)

Module Js.

Open Scope Z_scope.

(** [x > y] on numbers. *)
Definition gt (x y : Q) : bool := negb (Qle_bool x y).

(** [Math.floor]. *)
Definition floor (x : Q) : Z := Qfloor x.

(** [x.toFixed(2)], for the exact value [x] of the double it is called on:
    the integer [n] for which [n / 100 - x] is as close to zero as possible,
    the larger one on a tie; a negative [x] is handled on its magnitude and
    the sign put back.  The decimal string the method returns is the numeral
    [n / 100] with two fraction digits, so the result is kept as [n]. *)
Definition toFixed2 (x : Q) : Z :=
  if Qle_bool 0 x
  then Qfloor (x * inject_Z 100 + (1 # 2))
  else - Qfloor ((- x) * inject_Z 100 + (1 # 2)).

(** [parseFloat] of a string written by [toFixed(2)]. *)
Definition parseFloat (hundredths : Z) : Q := inject_Z hundredths / inject_Z 100.

(** [s] is truthy: defined and not the empty string. *)
Definition truthy (s : option string) : bool :=
  match s with
  | Some s => negb (String.eqb s "")
  | None => false
  end.

(** [a || b] on optional strings. *)
Definition or_else (a b : option string) : option string :=
  if truthy a then a else b.

(** [a || d] on an optional string with a string default. *)
Definition str_or (a : option string) (d : string) : string :=
  match a with
  | Some s => if String.eqb s "" then d else s
  | None => d
  end.

(** [n || k] on an optional number with a number default. *)
Definition num_or (n : option Z) (k : Z) : Z :=
  match n with
  | Some v => if Z.eqb v 0 then k else v
  | None => k
  end.

(** [d.setHours(0, 0, 0, 0)]: local midnight of the day of [now], for a zone
    whose offset from UTC is [tz] milliseconds. *)
Definition setHours0 (tz now : Z) : Z := now - (now + tz) mod 86400000.

End Js.

(** ** The QR payload *)

(** The object signed into a QR token.  [generateQR] sets the class fields and
    no [type]; [generateTeacherSelfQR] sets [type] and [purpose] and no class
    field. *)
Module Payload.

Record t := {
  sessionId : string;
  teacherId : string;
  teacherName : string;
  subject : option string;
  class : option string;
  section : option string;
  period : option Z;
  institutionCode : option string;
  timestamp : Z;
  type : option string;
  purpose : option string
}.

End Payload.

(** ** The token library *)

(** [jsonwebtoken] is a dependency of the backend, not part of it.  Its
    contract, as the handlers use it (a string secret, no options, HS256 the
    default):

    - [jwt.sign(payload, secret, { expiresIn })] adds [iat], which is
      [Math.floor(Date.now() / 1000)], and [exp = iat + expiresIn] with
      [expiresIn] in seconds, and signs the claims;
    - [jwt.verify(token, secret)] makes its checks in this order and throws
      at the first that fails: an empty token, [JsonWebTokenError] with
      message [jwt must be provided]; a token that does not split into three
      parts at its dots, [JsonWebTokenError] with message [jwt malformed];
      three parts that [jws.decode] does not decode, [JsonWebTokenError]
      with message [invalid token], or, when it is the payload that is not
      JSON under a header of type JWT, the [SyntaxError] of [JSON.parse] as
      it is; an empty third part, [JsonWebTokenError] with message
      [jwt signature is required]; a header that names another algorithm
      than the keyed hashes, [JsonWebTokenError] with message
      [invalid algorithm]; a signature that does not match,
      [JsonWebTokenError] with message [invalid signature]; and only then
      [TokenExpiredError] when [Math.floor(Date.now() / 1000) >= exp].
      Otherwise it returns the claims.

    The keyed hash is a parameter: nothing below depends on which function it
    is. *)
Module Jwt.

Open Scope Z_scope.

Record Claims := {
  payload : Payload.t;
  iat : Z;
  exp : Z
}.

(** What is wrong with three parts that [jwt.verify] refuses before it
    looks at their signature: [jws.decode] does not decode them; their
    payload is not JSON under a header of type JWT; their third part is
    empty; their header names no keyed hash. *)
Inductive Defect :=
| NotDecoded
| PayloadNotJson
| NoSignature
| WrongAlgorithm.

(** A token string, as [jwt.verify] reads it: the compact form of a header
    for a keyed hash, the JSON of claims and a signature that is not empty;
    or another string, with what is wrong with it if its parts are three. *)
Inductive Token :=
| Compact (claims : Claims) (signature : string)
| Other (raw : string) (defect : Defect).

(** What [jwt.verify] throws, by [error.name]. *)
Inductive Error :=
| JsonWebTokenError (message : string)
| TokenExpiredError
| SyntaxError.

(** [!qrToken] is false. *)
Definition present (t : option Token) : option Token :=
  match t with
  | Some (Other "" _) => None
  | other => other
  end.

(** ["5m"] and ["2m"], in seconds. *)
Definition minutes (n : Z) : Z := n * 60.

(** The number of dots of a string: [raw.split('.')] has one part more. *)
Fixpoint dots (raw : string) : nat :=
  match raw with
  | EmptyString => O
  | String c rest => if String.eqb (String c "") "." then S (dots rest) else dots rest
  end.

(** The error for a string that is not the compact form of signed claims. *)
Definition refused (raw : string) (defect : Defect) : Error :=
  if String.eqb raw "" then JsonWebTokenError "jwt must be provided"
  else if negb (Nat.eqb (S (dots raw)) 3) then JsonWebTokenError "jwt malformed"
  else match defect with
       | NotDecoded => JsonWebTokenError "invalid token"
       | PayloadNotJson => SyntaxError
       | NoSignature => JsonWebTokenError "jwt signature is required"
       | WrongAlgorithm => JsonWebTokenError "invalid algorithm"
       end.

Section Codec.

Variable hmac : string -> Claims -> string.

Definition sign (p : Payload.t) (secret : string) (expiresIn : Z) (now : Z) : Token :=
  let iat := now / 1000 in
  let c := {| payload := p; iat := iat; exp := iat + expiresIn |} in
  Compact c (hmac secret c).

Definition verify (t : Token) (secret : string) (now : Z) : Claims + Error :=
  match t with
  | Other raw defect => inr (refused raw defect)
  | Compact c s =>
      if negb (String.eqb s (hmac secret c))
      then inr (JsonWebTokenError "invalid signature")
      else if exp c <=? now / 1000
           then inr TokenExpiredError
           else inl c
  end.

(** [jwt.verify] returns rather than throws. *)
Definition accepts (t : Token) (secret : string) (now : Z) : bool :=
  match verify t secret now with
  | inl _ => true
  | inr _ => false
  end.

End Codec.

(** The [iat] and [exp] claims of a token, in seconds. *)
Definition window (t : Token) : option (Z * Z) :=
  match t with
  | Compact c _ => Some (iat c, exp c)
  | Other _ _ => None
  end.

End Jwt.

(** ** Numbers in binary64 *)

Module Double.

Open Scope Z_scope.

(** An integer from 0 to 2^53 as a double. *)
Definition ofZ (z : Z) : PrimFloat.float := PrimFloat.of_uint63 (Uint63.of_Z z).

(** An integer of either sign as a double. *)
Definition ofInteger (z : Z) : PrimFloat.float :=
  if z <? 0 then PrimFloat.opp (ofZ (- z)) else ofZ z.

(** The number a double stands for: [m * 2^e] with its sign for a finite
    double, zero for a zero.  The quotients below are finite. *)
Definition value (x : PrimFloat.float) : Q :=
  match FloatOps.Prim2SF x with
  | SpecFloat.S754_finite s m e =>
      let magnitude :=
        match e with
        | Zneg k => (Z.pos m # 2 ^ k)%Q
        | _ => inject_Z (Z.pos m * 2 ^ e)
        end in
      if s then (- magnitude)%Q else magnitude
  | _ => 0%Q
  end.

(** [(currentTime - checkIn) / (1000 * 60 * 60)]: the difference of two
    dates is an integer, the division is rounded. *)
Definition hours (checkIn currentTime : Z) : PrimFloat.float :=
  PrimFloat.div (ofInteger (currentTime - checkIn)) (ofZ (1000 * 60 * 60)).

(** [elapsed / 1000 / 60] with both divisions rounded. *)
Definition minutes (elapsed : Z) : PrimFloat.float :=
  PrimFloat.div (PrimFloat.div (ofZ elapsed) (ofZ 1000)) (ofZ 60).

(** [(currentTime - qrTime) / 1000 / 60]. *)
Definition timeDifference (currentTime qrTime : Z) : PrimFloat.float :=
  minutes (currentTime - qrTime).

(** [x > y]. *)
Definition gt (x y : PrimFloat.float) : bool := PrimFloat.ltb y x.

(** [k] is [Math.floor(x)]: the integer with [k <= x < k + 1]. *)
Definition isFloor (k : Z) (x : PrimFloat.float) : bool :=
  PrimFloat.leb (ofZ k) x && PrimFloat.ltb x (ofZ (k + 1)).

(** The checks on the [fuel] instants from [elapsed] on: the floor of the
    minutes is [k], they exceed one minute as [late] says, and they do not
    exceed five. *)
Fixpoint minuteRow (fuel : nat) (elapsed : Z) (k : Z) (late : bool) : bool :=
  match fuel with
  | O => true
  | S n =>
      let td := minutes elapsed in
      isFloor k td
      && Bool.eqb (gt td (ofZ 1)) late
      && negb (gt td (ofZ 5))
      && minuteRow n (elapsed + 1) k late
  end.

End Double.

(** ** The attendance schema *)

Module Attendance.

Open Scope Z_scope.

Inductive AttendanceType := student | teacher.

Inductive Status := present | absent | late | half_day | on_leave.

#[global] Instance type_eq_dec : EqDecision AttendanceType.
Proof. solve_decision. Defined.

#[global] Instance status_eq_dec : EqDecision Status.
Proof. solve_decision. Defined.

(** A document of the collection.  The paths the schema marks [required]
    without the possibility of a default are optional here, so that
    validation has something to reject.  [location] is never written by
    the handlers below and is left out. *)
Record t := {
  studentId : option string;
  teacherId : option string;
  attendanceType : AttendanceType;
  subject : option string;
  institutionCode : option string;
  sessionId : option string;
  status : Status;
  date : Z;
  scanTime : Z;
  teacherCheckIn : option Z;
  teacherCheckOut : option Z;
  workHours : Q;
  markedBy : string;
  remarks : string;
  class : option string;
  section : option string;
  period : Z;
  lateMinutes : Z;
  rollNumber : option string;
  createdAt : Z
}.

(** The schema defaults. *)
Definition default_attendanceType : AttendanceType := student.
Definition default_status : Status := present.
Definition default_date (tz now : Z) : Z := Js.setHours0 tz now.
Definition default_scanTime (now : Z) : Z := now.
Definition default_workHours : Q := 0%Q.
Definition default_markedBy : string := "system".
Definition default_remarks : string := "".
Definition default_period : Z := 1.
Definition default_lateMinutes : Z := 0.
Definition default_createdAt (now : Z) : Z := now.

(** Validation on [save]: [teacherId], [institutionCode] and [sessionId] are
    required, and a required string must not be empty. *)
Definition validate (d : t) : bool :=
  match teacherId d with Some _ => true | None => false end
  && Js.truthy (institutionCode d)
  && Js.truthy (sessionId d).

(** [Attendance.findOne(filter)]: the first document that satisfies the
    filter, with its position. *)
Definition findOne (filter : t -> bool) (coll : list t) : option (nat * t) :=
  list_find (fun d => filter d = true) coll.

(** [doc.save()] on a new document: validation, then insertion at the end.
    No index of the schema is unique, so nothing else is checked. *)
Definition insertNew (d : t) (coll : list t) : option (nat * list t) :=
  if validate d then Some (length coll, coll ++ [d]) else None.

(** [doc.save()] on a document read from the collection at position [i]. *)
Definition saveAt (i : nat) (d : t) (coll : list t) : option (list t) :=
  if validate d then Some (<[i := d]> coll) else None.

End Attendance.

(** ** The directory collections *)

Module Teacher.
Record t := {
  name : string;
  teacherId : option string;
  department : option string;
  institutionCode : option string
}.
End Teacher.

Module Student.
Record t := {
  name : string;
  rollNo : option string;
  section : option string
}.
End Student.

(** ** Responses *)

(** What a handler can catch: an error of the token library, a validation
    error of [save], or a [TypeError] on a property of [undefined]. *)
Inductive Exn :=
| JwtExn (e : Jwt.Error)
| ValidationError
| TypeError.

(** The [data] (or [error]) member of a JSON response. *)
Inductive Data :=
| NoData
| ErrorMessage (error : Exn)
| QrData (qrToken : Jwt.Token) (sessionId expiresIn : string)
    (subject class section : option string) (period : option Z) (teacher : string)
| TeacherQrData (qrToken : Jwt.Token) (sessionId expiresIn : string)
    (name : string) (teacherId department : option string)
| CheckInData (teacherName checkInTime date : string) (attendanceId : nat) (action : string)
| CheckOutData (teacherName checkInTime checkOutTime : string) (workHours : Q)
    (date : string) (attendanceId : nat) (action : string)
| ScanData (attendanceId : nat) (subject class : option string) (teacher : string) (timestamp : Z)
| MarkData (attendanceId : nat) (studentName : string) (rollNo subject class : option string)
    (teacher : string) (status : Attendance.Status) (scanTime : string) (lateMinutes : Z).

Record Response := {
  code : Z;
  success : bool;
  message : string;
  data : Data
}.

(** [res.status(code).json({ success, message, data })]. *)
Definition json (code : Z) (success : bool) (message : string) (data : Data) : Response :=
  {| code := code; success := success; message := message; data := data |}.

(** The [data.qrToken] of a response. *)
Definition issuedToken (r : Response) : option Jwt.Token :=
  match data r with
  | QrData qrToken _ _ _ _ _ _ _ => Some qrToken
  | TeacherQrData qrToken _ _ _ _ _ => Some qrToken
  | _ => None
  end.

(** A handler between its reads of the collection and its [await doc.save()]:
    it has answered already, or it holds the document it is about to save
    together with its answers for a save that succeeds and one that throws. *)
Inductive Pending :=
| Done (r : Response)
| SaveNew (doc : Attendance.t) (saved : nat -> Response) (thrown : Exn -> Response)
| SaveAt (i : nat) (doc : Attendance.t) (saved : Response) (thrown : Exn -> Response).

(** The [await doc.save()] and what follows it. *)
Definition commit (p : Pending) (coll : list Attendance.t) : Response * list Attendance.t :=
  match p with
  | Done r => (r, coll)
  | SaveNew doc saved thrown =>
      match Attendance.insertNew doc coll with
      | Some (id, coll') => (saved id, coll')
      | None => (thrown ValidationError, coll)
      end
  | SaveAt i doc saved thrown =>
      match Attendance.saveAt i doc coll with
      | Some coll' => (saved, coll')
      | None => (thrown ValidationError, coll)
      end
  end.

(** ** The controllers *)

(** The filter [{ sessionId, studentId }] that both controllers pass to
    [Attendance.findOne]. *)
Definition sessionStudent (sessionId studentId : string) (d : Attendance.t) : bool :=
  bool_decide (Attendance.sessionId d = Some sessionId)
  && bool_decide (Attendance.studentId d = Some studentId).

(** *** controllers/qrController.js *)

Module qrController.

Section Handlers.

Open Scope Z_scope.

(** [process.env.JWT_SECRET] and the keyed hash of the token library. *)
Variable JWT_SECRET : string.
Variable hmac : string -> Jwt.Claims -> string.

(** The offset of the server's zone. *)
Variable tz : Z.

(** [Teacher.findById]. *)
Variable Teacher_findById : string -> option Teacher.t.

(** [Date.prototype.toLocaleTimeString], [Date.prototype.toDateString] and
    the conversion of a number inside a template literal. *)
Variable toLocaleTimeString : Z -> string.
Variable toDateString : Z -> string.
Variable numberToString : Q -> string.

(** **** generateQR *)

Definition classPayload (sessionId teacherId : string) (teacher : Teacher.t)
    (subject className section : option string) (period : option Z)
    (institutionCode : option string) (now : Z) : Payload.t :=
  {| Payload.sessionId := sessionId;
     Payload.teacherId := teacherId;
     Payload.teacherName := Teacher.name teacher;
     Payload.subject := subject;
     Payload.class := className;
     Payload.section := Some (Js.str_or section "");
     Payload.period := Some (Js.num_or period 1);
     Payload.institutionCode := institutionCode;
     Payload.timestamp := now;
     Payload.type := None;
     Payload.purpose := None |}.

(** [sessionId] is the value [generateSessionId()] draws. *)
Definition generateQR (subject className section : option string) (period : option Z)
    (teacherId : string) (institutionCode : option string)
    (sessionId : string) (now : Z) : Response :=
  if negb (Js.truthy subject) || negb (Js.truthy className)
  then json 400 false "Subject and Class are required" NoData
  else
    match Teacher_findById teacherId with
    | None => json 404 false "Teacher not found" NoData
    | Some teacher =>
        let qrPayload :=
          classPayload sessionId teacherId teacher subject className section period
            institutionCode now in
        let qrToken := Jwt.sign hmac qrPayload JWT_SECRET (Jwt.minutes 5) now in
        json 200 true "QR Code generated successfully"
          (QrData qrToken sessionId "5 minutes" subject className section period
             (Teacher.name teacher))
    end.

(** **** generateTeacherSelfQR *)

Definition teacherPayload (sessionId teacherId : string) (teacher : Teacher.t)
    (institutionCode : option string) (now : Z) : Payload.t :=
  {| Payload.sessionId := sessionId;
     Payload.teacherId := teacherId;
     Payload.teacherName := Teacher.name teacher;
     Payload.subject := None;
     Payload.class := None;
     Payload.section := None;
     Payload.period := None;
     Payload.institutionCode := institutionCode;
     Payload.timestamp := now;
     Payload.type := Some "teacher_attendance";
     Payload.purpose := Some "check_in" |}.

Definition generateTeacherSelfQR (teacherId : string) (institutionCode : option string)
    (sessionId : string) (now : Z) : Response :=
  match Teacher_findById teacherId with
  | None => json 404 false "Teacher not found" NoData
  | Some teacher =>
      let qrPayload := teacherPayload sessionId teacherId teacher institutionCode now in
      let qrToken := Jwt.sign hmac qrPayload JWT_SECRET (Jwt.minutes 2) now in
      json 200 true "Teacher Attendance QR Generated"
        (TeacherQrData qrToken sessionId "2 minutes"
           (Teacher.name teacher) (Teacher.teacherId teacher) (Teacher.department teacher))
  end.

(** **** scanTeacherQR *)

(** The filter [{ teacherId, date: { $gte: today }, attendanceType: 'teacher' }]. *)
Definition teacherToday (teacherId : string) (today : Z) (d : Attendance.t) : bool :=
  bool_decide (Attendance.teacherId d = Some teacherId)
  && (today <=? Attendance.date d)
  && bool_decide (Attendance.attendanceType d = Attendance.teacher).

Definition checkInDoc (decoded : Payload.t) (teacher : Teacher.t) (user : option string)
    (today currentTime : Z) : Attendance.t :=
  {| Attendance.studentId := None;
     Attendance.teacherId := Some (Payload.teacherId decoded);
     Attendance.attendanceType := Attendance.teacher;
     Attendance.subject := None;
     Attendance.institutionCode :=
       Js.or_else (Payload.institutionCode decoded) (Teacher.institutionCode teacher);
     Attendance.sessionId := Some (Payload.sessionId decoded);
     Attendance.status := Attendance.present;
     Attendance.date := today;
     Attendance.scanTime := currentTime;
     Attendance.teacherCheckIn := Some currentTime;
     Attendance.teacherCheckOut := None;
     Attendance.workHours := Attendance.default_workHours;
     Attendance.markedBy := Js.str_or user "qr_scanner";
     Attendance.remarks := "Checked in at " +:+ toLocaleTimeString currentTime;
     Attendance.class := None;
     Attendance.section := None;
     Attendance.period := Attendance.default_period;
     Attendance.lateMinutes := Attendance.default_lateMinutes;
     Attendance.rollNumber := None;
     Attendance.createdAt := Attendance.default_createdAt currentTime |}.

(** [(currentTime - teacherCheckIn) / (1000 * 60 * 60)], a double, then
    [parseFloat(workHours.toFixed(2))]. *)
Definition workHoursOf (checkIn currentTime : Z) : Q :=
  let workHours := Double.hours checkIn currentTime in
  Js.parseFloat (Js.toFixed2 (Double.value workHours)).

(** The assignments to [existingAttendance] on check-out. *)
Definition checkOutDoc (existing : Attendance.t) (currentTime : Z) : Attendance.t :=
  let remarks := "Checked out at " +:+ toLocaleTimeString currentTime in
  let workHours :=
    match Attendance.teacherCheckIn existing with
    | Some checkIn => workHoursOf checkIn currentTime
    | None => Attendance.workHours existing
    end in
  {| Attendance.studentId := Attendance.studentId existing;
     Attendance.teacherId := Attendance.teacherId existing;
     Attendance.attendanceType := Attendance.attendanceType existing;
     Attendance.subject := Attendance.subject existing;
     Attendance.institutionCode := Attendance.institutionCode existing;
     Attendance.sessionId := Attendance.sessionId existing;
     Attendance.status := Attendance.status existing;
     Attendance.date := Attendance.date existing;
     Attendance.scanTime := currentTime;
     Attendance.teacherCheckIn := Attendance.teacherCheckIn existing;
     Attendance.teacherCheckOut := Some currentTime;
     Attendance.workHours := workHours;
     Attendance.markedBy := Attendance.markedBy existing;
     Attendance.remarks :=
       match Attendance.teacherCheckIn existing with
       | Some _ => remarks +:+ " | Worked: " +:+ numberToString workHours +:+ " hours"
       | None => remarks
       end;
     Attendance.class := Attendance.class existing;
     Attendance.section := Attendance.section existing;
     Attendance.period := Attendance.period existing;
     Attendance.lateMinutes := Attendance.lateMinutes existing;
     Attendance.rollNumber := Attendance.rollNumber existing;
     Attendance.createdAt := Attendance.createdAt existing |}.

Definition failedScan (error : Exn) : Response :=
  json 500 false "Failed to process QR scan" (ErrorMessage error).

(** The handler up to its [save]. *)
Definition scanTeacherQR_read (qrToken : option Jwt.Token) (user : option string)
    (now : Z) (coll : list Attendance.t) : Pending :=
  match Jwt.present qrToken with
  | None => Done (json 400 false "QR token is required" NoData)
  | Some qrToken =>
      match Jwt.verify hmac qrToken JWT_SECRET now with
      | inr jwtError => Done (json 401 false "Invalid or expired QR code" NoData)
      | inl claims =>
          let decoded := Jwt.payload claims in
          if negb (bool_decide (Payload.type decoded = Some "teacher_attendance"))
          then Done (json 400 false "This QR is not for teacher attendance" NoData)
          else
            match Teacher_findById (Payload.teacherId decoded) with
            | None => Done (json 404 false "Teacher not found" NoData)
            | Some teacher =>
                let today := Js.setHours0 tz now in
                let currentTime := now in
                match Attendance.findOne
                        (teacherToday (Payload.teacherId decoded) today) coll with
                | None =>
                    SaveNew (checkInDoc decoded teacher user today currentTime)
                      (fun _id =>
                         json 200 true "✅ Teacher check-in successful!"
                           (CheckInData (Teacher.name teacher)
                              (toLocaleTimeString currentTime) (toDateString today)
                              _id "check_in"))
                      failedScan
                | Some (_id, existingAttendance) =>
                    match Attendance.teacherCheckOut existingAttendance with
                    | None =>
                        let updated := checkOutDoc existingAttendance currentTime in
                        SaveAt _id updated
                          match Attendance.teacherCheckIn updated with
                          | Some checkIn =>
                              json 200 false "✅ Teacher check-out successful!"
                                (CheckOutData (Teacher.name teacher)
                                   (toLocaleTimeString checkIn)
                                   (toLocaleTimeString currentTime)
                                   (Attendance.workHours updated)
                                   (toDateString today) _id "check_out")
                          | None => failedScan TypeError
                          end
                          failedScan
                    | Some _ =>
                        Done (json 400 false "Attendance already completed for today" NoData)
                    end
                end
            end
      end
  end.

Definition scanTeacherQR (qrToken : option Jwt.Token) (user : option string)
    (now : Z) (coll : list Attendance.t) : Response * list Attendance.t :=
  commit (scanTeacherQR_read qrToken user now coll) coll.

(** **** scanQR *)

(** [markedAt] is not a path of the schema and is not stored. *)
Definition scanDoc (decoded : Payload.t) (studentId : string) (now : Z) : Attendance.t :=
  {| Attendance.studentId := Some studentId;
     Attendance.teacherId := Some (Payload.teacherId decoded);
     Attendance.attendanceType := Attendance.default_attendanceType;
     Attendance.subject := Payload.subject decoded;
     Attendance.institutionCode := Payload.institutionCode decoded;
     Attendance.sessionId := Some (Payload.sessionId decoded);
     Attendance.status := Attendance.present;
     Attendance.date := Attendance.default_date tz now;
     Attendance.scanTime := Attendance.default_scanTime now;
     Attendance.teacherCheckIn := None;
     Attendance.teacherCheckOut := None;
     Attendance.workHours := Attendance.default_workHours;
     Attendance.markedBy := Attendance.default_markedBy;
     Attendance.remarks := Attendance.default_remarks;
     Attendance.class := Payload.class decoded;
     Attendance.section := Payload.section decoded;
     Attendance.period := default Attendance.default_period (Payload.period decoded);
     Attendance.lateMinutes := Attendance.default_lateMinutes;
     Attendance.rollNumber := None;
     Attendance.createdAt := Attendance.default_createdAt now |}.

(** The [catch] block of [scanQR], by [error.name]. *)
Definition scanQR_catch (error : Exn) : Response :=
  match error with
  | JwtExn (Jwt.JsonWebTokenError _) => json 400 false "Invalid QR code" NoData
  | JwtExn Jwt.TokenExpiredError => json 400 false "QR code has expired" NoData
  | _ => json 500 false "Failed to scan QR code" (ErrorMessage error)
  end.

Definition scanQR_read (qrToken : option Jwt.Token) (studentId : string)
    (now : Z) (coll : list Attendance.t) : Pending :=
  match Jwt.present qrToken with
  | None => Done (json 400 false "QR token is required" NoData)
  | Some qrToken =>
      match Jwt.verify hmac qrToken JWT_SECRET now with
      | inr error => Done (scanQR_catch (JwtExn error))
      | inl claims =>
          let decoded := Jwt.payload claims in
          if now >? Payload.timestamp decoded + 5 * 60 * 1000
          then Done (json 400 false "QR code has expired" NoData)
          else
            match Attendance.findOne
                    (sessionStudent (Payload.sessionId decoded) studentId) coll with
            | Some existingAttendance =>
                Done (json 400 false "Attendance already marked for this session" NoData)
            | None =>
                SaveNew (scanDoc decoded studentId now)
                  (fun _id =>
                     json 200 true "Attendance marked successfully"
                       (ScanData _id (Payload.subject decoded) (Payload.class decoded)
                          (Payload.teacherName decoded) now))
                  scanQR_catch
            end
      end
  end.

Definition scanQR (qrToken : option Jwt.Token) (studentId : string)
    (now : Z) (coll : list Attendance.t) : Response * list Attendance.t :=
  commit (scanQR_read qrToken studentId now coll) coll.

End Handlers.

End qrController.

(** *** controllers/attendanceController.js *)

Module attendanceController.

Section Handlers.

Open Scope Z_scope.

Variable JWT_SECRET : string.
Variable hmac : string -> Jwt.Claims -> string.

(** [Teacher.findById] and [Student.findById]. *)
Variable Teacher_findById : string -> option Teacher.t.
Variable Student_findById : string -> option Student.t.

Variable toLocaleTimeString : Z -> string.
Variable numberToString : Q -> string.

(** **** markAttendance *)

(** [(currentTime - qrTime) / 1000 / 60], in minutes. *)
Definition timeDifference (currentTime qrTime : Z) : Q :=
  (inject_Z (currentTime - qrTime) / inject_Z 1000 / inject_Z 60)%Q.

(** [timeDifference > 1]. *)
Definition isLate (timeDifference : Q) : bool := Js.gt timeDifference (inject_Z 1).

(** [isLate ? Math.floor(timeDifference) : 0]. *)
Definition lateMinutes (timeDifference : Q) : Z :=
  if isLate timeDifference then Js.floor timeDifference else 0.

Definition markDoc (decoded : Payload.t) (studentId : string) (student : Student.t)
    (timeDifference : Q) (now : Z) : Attendance.t :=
  let isLate := isLate timeDifference in
  let lateMinutes := lateMinutes timeDifference in
  {| Attendance.studentId := Some studentId;
     Attendance.teacherId := Some (Payload.teacherId decoded);
     Attendance.attendanceType := Attendance.default_attendanceType;
     Attendance.subject := Payload.subject decoded;
     Attendance.institutionCode := Payload.institutionCode decoded;
     Attendance.sessionId := Some (Payload.sessionId decoded);
     Attendance.status := if isLate then Attendance.late else Attendance.present;
     Attendance.date := now;
     Attendance.scanTime := now;
     Attendance.teacherCheckIn := None;
     Attendance.teacherCheckOut := None;
     Attendance.workHours := Attendance.default_workHours;
     Attendance.markedBy := Attendance.default_markedBy;
     Attendance.remarks :=
       if isLate
       then "Late by " +:+ numberToString (inject_Z lateMinutes) +:+ " minutes"
       else "On time";
     Attendance.class := Payload.class decoded;
     Attendance.section :=
       Some (Js.str_or (Js.or_else (Payload.section decoded) (Student.section student)) "");
     Attendance.period := Js.num_or (Payload.period decoded) 1;
     Attendance.lateMinutes := lateMinutes;
     Attendance.rollNumber := Student.rollNo student;
     Attendance.createdAt := Attendance.default_createdAt now |}.

Definition markAttendance_read (qrToken : option Jwt.Token) (studentId : string)
    (now : Z) (coll : list Attendance.t) : Pending :=
  match Jwt.present qrToken with
  | None => Done (json 400 false "QR token is required" NoData)
  | Some qrToken =>
      match Jwt.verify hmac qrToken JWT_SECRET now with
      | inr jwtError =>
          Done (json 401 false
                  "QR code expired or invalid. Please ask teacher for a new one." NoData)
      | inl claims =>
          let decoded := Jwt.payload claims in
          let currentTime := now in
          let qrTime := Payload.timestamp decoded in
          let timeDifference := timeDifference currentTime qrTime in
          if Js.gt timeDifference (inject_Z 5)
          then Done (json 401 false
                       "QR code has expired. Please ask teacher for a new one." NoData)
          else
            match Attendance.findOne
                    (sessionStudent (Payload.sessionId decoded) studentId) coll with
            | Some existingAttendance =>
                Done (json 400 false "Attendance already marked for this class" NoData)
            | None =>
                match Student_findById studentId with
                | None => Done (json 404 false "Student not found" NoData)
                | Some student =>
                    match Teacher_findById (Payload.teacherId decoded) with
                    | None => Done (json 404 false "Teacher not found" NoData)
                    | Some teacher =>
                        let isLate := isLate timeDifference in
                        let lateMinutes := lateMinutes timeDifference in
                        SaveNew (markDoc decoded studentId student timeDifference now)
                          (fun _id =>
                             json 200 true
                               (if isLate
                                then "Attendance marked (Late by "
                                     +:+ numberToString (inject_Z lateMinutes)
                                     +:+ " minutes)"
                                else "Attendance marked successfully")
                               (MarkData _id (Student.name student)
                                  (Student.rollNo student) (Payload.subject decoded)
                                  (Payload.class decoded) (Teacher.name teacher)
                                  (if isLate then Attendance.late else Attendance.present)
                                  (toLocaleTimeString now) lateMinutes))
                          (fun error =>
                             json 500 false "Failed to mark attendance" (ErrorMessage error))
                    end
                end
            end
      end
  end.

Definition markAttendance (qrToken : option Jwt.Token) (studentId : string)
    (now : Z) (coll : list Attendance.t) : Response * list Attendance.t :=
  commit (markAttendance_read qrToken studentId now coll) coll.

End Handlers.

End attendanceController.

(** ** The routes that write attendance *)

Module Routes.

Section Server.

Open Scope Z_scope.

Variable JWT_SECRET : string.
Variable hmac : string -> Jwt.Claims -> string.
Variable tz : Z.
Variable Teacher_findById : string -> option Teacher.t.
Variable Student_findById : string -> option Student.t.
Variable toLocaleTimeString : Z -> string.
Variable toDateString : Z -> string.
Variable numberToString : Q -> string.

(** [POST /scan], [POST /mark] and [POST /teacher/scan], with the request
    members the handlers read. *)
Inductive Request :=
| PostScan (qrToken : option Jwt.Token) (studentId : string)
| PostMark (qrToken : option Jwt.Token) (studentId : string)
| PostTeacherScan (qrToken : option Jwt.Token) (user : option string).

Definition read (req : Request) (now : Z) (coll : list Attendance.t) : Pending :=
  match req with
  | PostScan qrToken studentId =>
      qrController.scanQR_read JWT_SECRET hmac tz qrToken studentId now coll
  | PostMark qrToken studentId =>
      attendanceController.markAttendance_read JWT_SECRET hmac
        Teacher_findById Student_findById toLocaleTimeString numberToString
        qrToken studentId now coll
  | PostTeacherScan qrToken user =>
      qrController.scanTeacherQR_read JWT_SECRET hmac tz Teacher_findById
        toLocaleTimeString toDateString numberToString qrToken user now coll
  end.

(** A request served from its first line to its response with no other
    request in between. *)
Definition handle (req : Request) (now : Z) (coll : list Attendance.t)
    : Response * list Attendance.t :=
  commit (read req now coll) coll.

(** The collections the server reaches from an empty one when it serves one
    request at a time. *)
Inductive sequential : list Attendance.t -> Prop :=
| sequential_empty : sequential []
| sequential_handle coll req now :
    sequential coll -> sequential (snd (handle req now coll)).

(** The same with the clock in view: [served t coll] when [coll] is reached
    with every request served at or before [t] and the clock never running
    backwards. *)
Inductive served : Z -> list Attendance.t -> Prop :=
| served_empty t : served t []
| served_handle t coll req now :
    served t coll -> t <= now -> served now (snd (handle req now coll)).

(** Requests served one after the other, each at the time of its clock. *)
Fixpoint serve (reqs : list (Request * Z)) (coll : list Attendance.t)
    : list Response * list Attendance.t :=
  match reqs with
  | [] => ([], coll)
  | (req, now) :: rest =>
      let (r, coll1) := handle req now coll in
      let (rs, coll2) := serve rest coll1 in
      (r :: rs, coll2)
  end.

(** The payload a handler works on when [qrToken] passes its first two
    checks at [now]. *)
Definition decodeAt (qrToken : option Jwt.Token) (now : Z) : option Payload.t :=
  match Jwt.present qrToken with
  | Some t =>
      match Jwt.verify hmac t JWT_SECRET now with
      | inl claims => Some (Jwt.payload claims)
      | inr _ => None
      end
  | None => None
  end.

(** [scanTeacherQR] accepts [qrToken] at [now] as a teacher-attendance token
    of [teacherId], and [now] falls on the day that starts at [today]. *)
Definition teacherScanOn (teacherId : string) (today : Z)
    (qrToken : option Jwt.Token) (now : Z) : bool :=
  match decodeAt qrToken now with
  | Some decoded =>
      bool_decide (Payload.type decoded = Some "teacher_attendance")
      && String.eqb (Payload.teacherId decoded) teacherId
      && (Js.setHours0 tz now =? today)
  | None => false
  end.

(** The server with requests in flight: the collection, and the handlers
    that have done their reads and wait for their [save]. *)
Record Server := {
  collection : list Attendance.t;
  inflight : list Pending
}.

(** One step of the event loop: a request runs up to its [save], or the
    [save] of a waiting handler runs. *)
Inductive step : Server -> Server -> Prop :=
| step_read s req now :
    step s {| collection := collection s;
              inflight := read req now (collection s) :: inflight s |}
| step_save s before p after :
    inflight s = before ++ p :: after ->
    step s {| collection := snd (commit p (collection s));
              inflight := before ++ after |}.

(** The collections the event loop reaches from an empty one. *)
Definition interleaved (coll : list Attendance.t) : Prop :=
  exists s, rtc step {| collection := []; inflight := [] |} s /\ collection s = coll.

End Server.

End Routes.

Import qrController attendanceController Routes.

(** The two routes on which a student redeems a class token. *)
Inductive StudentRoute := ViaScan | ViaMark.

Definition studentRequest (route : StudentRoute) (qrToken : option Jwt.Token)
    (studentId : string) : Request :=
  match route with
  | ViaScan => PostScan qrToken studentId
  | ViaMark => PostMark qrToken studentId
  end.

(** The outcome the specification calls [DuplicateSession], per route. *)
Definition duplicateSession (req : Request) : Response :=
  match req with
  | PostScan _ _ => json 400 false "Attendance already marked for this session" NoData
  | PostMark _ _ => json 400 false "Attendance already marked for this class" NoData
  | PostTeacherScan _ _ => json 400 false "Attendance already completed for today" NoData
  end.

(** The outcome the specification calls [AlreadyCompleted]. *)
Definition alreadyCompleted : Response :=
  json 400 false "Attendance already completed for today" NoData.

(** A teacher document has what a check-out needs: a [teacherCheckIn], and
    the required paths. *)
Definition checkOutReady (d : Attendance.t) : bool :=
  match Attendance.attendanceType d with
  | Attendance.teacher =>
      match Attendance.teacherCheckIn d with Some _ => true | None => false end
      && Attendance.validate d
  | Attendance.student => true
  end.

(** A teacher document is dated [t] or earlier. *)
Definition datedBy (t : Z) (d : Attendance.t) : bool :=
  match Attendance.attendanceType d with
  | Attendance.teacher => (Attendance.date d <=? t)%Z
  | Attendance.student => true
  end.

(** The number of documents under the key [(sessionId, studentId)]. *)
Definition keyCount (sessionId studentId : string) (coll : list Attendance.t) : nat :=
  length (List.filter (sessionStudent sessionId studentId) coll).

(** The number of teacher documents of [teacherId] dated [today] or later. *)
Definition todayCount (teacherId : string) (today : Z) (coll : list Attendance.t) : nat :=
  length (List.filter (qrController.teacherToday teacherId today) coll).

(** ** A small installation *)

(** One teacher, one student and a stand-in for the keyed hash, to run the
    handlers on. *)
Module Demo.

Open Scope Z_scope.

Definition secret : string := "change-me".

Definition hmac (secret : string) (c : Jwt.Claims) : string :=
  secret +:+ "/" +:+ Payload.sessionId (Jwt.payload c).

Definition tz : Z := 19800000.

Definition asha : Teacher.t :=
  {| Teacher.name := "Asha";
     Teacher.teacherId := Some "T-01";
     Teacher.department := Some "Mathematics";
     Teacher.institutionCode := Some "INST01" |}.

Definition ravi : Student.t :=
  {| Student.name := "Ravi";
     Student.rollNo := Some "17";
     Student.section := Some "A" |}.

Definition teachers (id : string) : option Teacher.t :=
  if String.eqb id "teacher-1" then Some asha else None.

Definition students (id : string) : option Student.t :=
  if String.eqb id "student-1" then Some ravi else None.

Definition clockText (t : Z) : string := "clock".
Definition dayText (t : Z) : string := "day".
Definition numberText (x : Q) : string := "number".

(** 09:00:00 local time of some day, in milliseconds. *)
Definition nine : Z := 1000 * 86400000 - tz + 9 * 3600000.

(** The payload of a Math class of 10A, period 2. *)
Definition mathClass (now : Z) : Payload.t :=
  classPayload "a1b2" "teacher-1" asha (Some "Math") (Some "10A") None (Some 2)
    (Some "INST01") now.

Definition classToken (now : Z) : Jwt.Token :=
  Jwt.sign hmac (mathClass now) secret (Jwt.minutes 5) now.

Definition selfToken (sessionId : string) (now : Z) : Jwt.Token :=
  Jwt.sign hmac (teacherPayload sessionId "teacher-1" asha (Some "INST01") now)
    secret (Jwt.minutes 2) now.

(** A token signed with another secret. *)
Definition forgedToken (now : Z) : Jwt.Token :=
  Jwt.sign hmac (teacherPayload "f00d" "teacher-1" asha (Some "INST01") now)
    "guess" (Jwt.minutes 2) now.

Definition scanTeacherQR := scanTeacherQR secret hmac tz teachers clockText dayText numberText.
Definition scanQR := scanQR secret hmac tz.
Definition markAttendance := markAttendance secret hmac teachers students clockText numberText.
Definition handle := handle secret hmac tz teachers students clockText dayText numberText.
Definition interleaved :=
  interleaved secret hmac tz teachers students clockText dayText numberText.
Definition read := read secret hmac tz teachers students clockText dayText numberText.
Definition decodeAt := decodeAt secret hmac.
Definition generateQR := generateQR secret hmac teachers.

(** Local midnight of the day of [nine], and 09:30:00 of that day. *)
Definition midnight : Z := nine - 9 * 3600000.
Definition halfPastNine : Z := nine + 30 * 60000.

(** The teacher's tokens of the morning, of 09:29:59 and of the evening, and
    the token of the 09:00 class. *)
Definition morning : option Jwt.Token := Some (selfToken "s1" nine).
Definition halfPast : option Jwt.Token := Some (selfToken "s2" (halfPastNine - 1000)).
Definition evening : option Jwt.Token := Some (selfToken "s3" (nine + 8 * 3600000)).
Definition classQr : option Jwt.Token := Some (classToken nine).

(** The payloads inside [halfPast] and [morning], and the document of the
    check-in at 09:00:00. *)
Definition halfPastPayload : Payload.t :=
  teacherPayload "s2" "teacher-1" asha (Some "INST01") (halfPastNine - 1000).
Definition morningPayload : Payload.t :=
  teacherPayload "s1" "teacher-1" asha (Some "INST01") nine.
Definition checkedInAtNine : Attendance.t :=
  checkInDoc clockText morningPayload asha None midnight nine.

End Demo.

(** ** The exports of the controllers outside the token protocol *)

(** The responses of the handlers below; each handler has its own type of
    [data]. *)
Module Reply.

Record t (D : Type) := make {
  code : Z;
  success : bool;
  message : string;
  data : D
}.

Arguments make {D} _ _ _ _.
Arguments code {D} _.
Arguments success {D} _.
Arguments message {D} _.
Arguments data {D} _.

End Reply.

(** [Math.round] and the percentages of the reports, in binary64. *)
Module JsMath.

Open Scope Z_scope.

(** The number a finite double stands for. *)
Definition value (s : bool) (m : positive) (e : Z) : Q :=
  let magnitude := (inject_Z (Z.pos m) * Qpower (2 # 1) e)%Q in
  if s then (- magnitude)%Q else magnitude.

(** [Math.round(x)]: the integer nearest to [x], the larger one on a tie;
    [NaN] and the infinities have none. *)
Definition round (x : PrimFloat.float) : option Z :=
  match FloatOps.Prim2SF x with
  | SpecFloat.S754_zero _ => Some 0
  | SpecFloat.S754_finite s m e => Some (Qfloor (value s m e + (1 # 2)))
  | SpecFloat.S754_infinity _ => None
  | SpecFloat.S754_nan => None
  end.

(** [Math.round((part / whole) * 100)], both operations rounded. *)
Definition percentage (part whole : Z) : option Z :=
  round (PrimFloat.mul (PrimFloat.div (Double.ofZ part) (Double.ofZ whole)) (Double.ofZ 100)).

End JsMath.

(** *** controllers/qrController.js, continued *)

(** The [data] of [scanTeacherAttendanceQR] and [testTeacherScan]. *)
Inductive TeacherData :=
| Nothing
| Thrown (error : Exn)
| CheckedIn (teacherName : string) (teacherId : option string) (checkInTime date : string)
    (attendanceId : nat) (status : string)
| CheckedOut (teacherName checkInTime checkOutTime : string) (workHours : Q)
    (date : string) (attendanceId : nat)
| TestScan (attendanceId : nat) (teacherName time date : string).

Module qrControllerMore.

Section Handlers.

Open Scope Z_scope.

Variable JWT_SECRET : string.
Variable hmac : string -> Jwt.Claims -> string.
Variable tz : Z.
Variable Teacher_findById : string -> option Teacher.t.
Variable toLocaleTimeString : Z -> string.
Variable toDateString : Z -> string.
Variable numberToString : Q -> string.

(** **** scanTeacherAttendanceQR *)

(** The filter [{ teacherId, date: { $gte: today } }]: no [attendanceType]. *)
Definition teacherSince (teacherId : string) (today : Z) (d : Attendance.t) : bool :=
  bool_decide (Attendance.teacherId d = Some teacherId)
  && (today <=? Attendance.date d).

(** The document of a first scan.  [attendanceType] is not given and takes
    the schema default; [teacherStatus] is not a path of the schema and is
    not stored. *)
Definition qrCheckInDoc (decoded : Payload.t) (teacher : Teacher.t)
    (today currentTime : Z) : Attendance.t :=
  {| Attendance.studentId := None;
     Attendance.teacherId := Some (Payload.teacherId decoded);
     Attendance.attendanceType := Attendance.default_attendanceType;
     Attendance.subject := Some "Teacher Attendance";
     Attendance.institutionCode :=
       Js.or_else (Payload.institutionCode decoded) (Teacher.institutionCode teacher);
     Attendance.sessionId :=
       Some (Js.str_or (Some (Payload.sessionId decoded))
               ("teacher_" +:+ numberToString (inject_Z currentTime)));
     Attendance.status := Attendance.present;
     Attendance.date := today;
     Attendance.scanTime := Attendance.default_scanTime currentTime;
     Attendance.teacherCheckIn := Some currentTime;
     Attendance.teacherCheckOut := None;
     Attendance.workHours := Attendance.default_workHours;
     Attendance.markedBy := Attendance.default_markedBy;
     Attendance.remarks :=
       "Checked in at " +:+ toLocaleTimeString currentTime +:+ " via QR scan";
     Attendance.class := None;
     Attendance.section := None;
     Attendance.period := Attendance.default_period;
     Attendance.lateMinutes := Attendance.default_lateMinutes;
     Attendance.rollNumber := None;
     Attendance.createdAt := currentTime |}.

(** The assignments to [existingAttendance] on check-out.  [workHours] is
    assigned the string of [toFixed(2)], which the schema casts to the
    number it writes; [scanTime] is left as it is. *)
Definition qrCheckOutDoc (existing : Attendance.t) (currentTime : Z) : Attendance.t :=
  let remarks := "Checked out at " +:+ toLocaleTimeString currentTime in
  let workHours :=
    match Attendance.teacherCheckIn existing with
    | Some checkIn => workHoursOf checkIn currentTime
    | None => Attendance.workHours existing
    end in
  {| Attendance.studentId := Attendance.studentId existing;
     Attendance.teacherId := Attendance.teacherId existing;
     Attendance.attendanceType := Attendance.attendanceType existing;
     Attendance.subject := Attendance.subject existing;
     Attendance.institutionCode := Attendance.institutionCode existing;
     Attendance.sessionId := Attendance.sessionId existing;
     Attendance.status := Attendance.status existing;
     Attendance.date := Attendance.date existing;
     Attendance.scanTime := Attendance.scanTime existing;
     Attendance.teacherCheckIn := Attendance.teacherCheckIn existing;
     Attendance.teacherCheckOut := Some currentTime;
     Attendance.workHours := workHours;
     Attendance.markedBy := Attendance.markedBy existing;
     Attendance.remarks :=
       match Attendance.teacherCheckIn existing with
       | Some _ => remarks +:+ " | Worked: " +:+ numberToString workHours +:+ " hours"
       | None => remarks
       end;
     Attendance.class := Attendance.class existing;
     Attendance.section := Attendance.section existing;
     Attendance.period := Attendance.period existing;
     Attendance.lateMinutes := Attendance.lateMinutes existing;
     Attendance.rollNumber := Attendance.rollNumber existing;
     Attendance.createdAt := Attendance.createdAt existing |}.

Definition failedQrScan (error : Exn) : Reply.t TeacherData :=
  Reply.make 500 false "Failed to process QR scan" (Thrown error).

Definition scanTeacherAttendanceQR (qrToken : option Jwt.Token) (now : Z)
    (coll : list Attendance.t) : Reply.t TeacherData * list Attendance.t :=
  match Jwt.present qrToken with
  | None => (Reply.make 400 false "QR token is required" Nothing, coll)
  | Some qrToken =>
      match Jwt.verify hmac qrToken JWT_SECRET now with
      | inr jwtError => (Reply.make 401 false "Invalid or expired QR code" Nothing, coll)
      | inl claims =>
          let decoded := Jwt.payload claims in
          if String.eqb (Payload.teacherId decoded) ""
          then (Reply.make 400 false "This QR is not for teacher attendance" Nothing, coll)
          else
            match Teacher_findById (Payload.teacherId decoded) with
            | None => (Reply.make 404 false "Teacher not found" Nothing, coll)
            | Some teacher =>
                let today := Js.setHours0 tz now in
                let currentTime := now in
                match Attendance.findOne
                        (teacherSince (Payload.teacherId decoded) today) coll with
                | None =>
                    let attendance := qrCheckInDoc decoded teacher today currentTime in
                    match Attendance.insertNew attendance coll with
                    | Some (_id, coll') =>
                        (Reply.make 200 true "✅ Teacher check-in successful!"
                           (CheckedIn (Teacher.name teacher) (Teacher.teacherId teacher)
                              (toLocaleTimeString currentTime) (toDateString today)
                              _id "present"),
                         coll')
                    | None => (failedQrScan ValidationError, coll)
                    end
                | Some (_id, existingAttendance) =>
                    match Attendance.teacherCheckOut existingAttendance with
                    | None =>
                        let updated := qrCheckOutDoc existingAttendance currentTime in
                        match Attendance.saveAt _id updated coll with
                        | Some coll' =>
                            (match Attendance.teacherCheckIn updated with
                             | Some checkIn =>
                                 Reply.make 200 true "✅ Teacher check-out successful!"
                                   (CheckedOut (Teacher.name teacher)
                                      (toLocaleTimeString checkIn)
                                      (toLocaleTimeString currentTime)
                                      (Attendance.workHours updated)
                                      (toDateString today) _id)
                             | None => failedQrScan TypeError
                             end,
                             coll')
                        | None => (failedQrScan ValidationError, coll)
                        end
                    | Some _ =>
                        (Reply.make 400 false "Attendance already completed for today"
                           Nothing, coll)
                    end
                end
            end
      end
  end.

(** **** testTeacherScan *)

(** The file assigns [exports.testTeacherScan] twice; the second assignment
    is the handler the module exports, and the one below. *)
Definition testDoc (teacherId : string) (teacher : Teacher.t) (today now : Z)
    : Attendance.t :=
  {| Attendance.studentId := None;
     Attendance.teacherId := Some teacherId;
     Attendance.attendanceType := Attendance.default_attendanceType;
     Attendance.subject := Some "Teacher Attendance";
     Attendance.institutionCode := Teacher.institutionCode teacher;
     Attendance.sessionId := Some ("test_" +:+ numberToString (inject_Z now));
     Attendance.status := Attendance.present;
     Attendance.date := today;
     Attendance.scanTime := Attendance.default_scanTime now;
     Attendance.teacherCheckIn := None;
     Attendance.teacherCheckOut := None;
     Attendance.workHours := Attendance.default_workHours;
     Attendance.markedBy := Attendance.default_markedBy;
     Attendance.remarks := "Test scan attendance";
     Attendance.class := None;
     Attendance.section := None;
     Attendance.period := Attendance.default_period;
     Attendance.lateMinutes := Attendance.default_lateMinutes;
     Attendance.rollNumber := None;
     Attendance.createdAt := now |}.

Definition testTeacherScan (teacherId : option string) (now : Z)
    (coll : list Attendance.t) : Reply.t TeacherData * list Attendance.t :=
  match teacherId with
  | Some teacherId =>
      if String.eqb teacherId ""
      then (Reply.make 400 false "Teacher ID is required" Nothing, coll)
      else
        match Teacher_findById teacherId with
        | None => (Reply.make 404 false "Teacher not found" Nothing, coll)
        | Some teacher =>
            let today := Js.setHours0 tz now in
            let attendance := testDoc teacherId teacher today now in
            match Attendance.insertNew attendance coll with
            | Some (_id, coll') =>
                (Reply.make 200 true "✅ Test scan successful! Attendance stored."
                   (TestScan _id (Teacher.name teacher) (toLocaleTimeString now)
                      (toDateString today)),
                 coll')
            | None =>
                (Reply.make 500 false "Test scan failed" (Thrown ValidationError), coll)
            end
        end
  | None => (Reply.make 400 false "Teacher ID is required" Nothing, coll)
  end.

End Handlers.

End qrControllerMore.

(** *** controllers/attendanceController.js, the reports *)

Module attendanceReports.

(** [data] of [getMyAttendance]; a record comes with the [name] of its
    populated teacher. *)
Module MyAttendance.
Record t := {
  attendance : list (Attendance.t * option string);
  totalClasses : Z;
  presentCount : Z;
  lateCount : Z
}.
End MyAttendance.

(** [data.statistics] of [getClassAttendance]. *)
Module Statistics.
Record t := {
  totalStudents : Z;
  present : Z;
  late : Z;
  absent : Z;
  attendancePercentage : option Z
}.
End Statistics.

(** [data] of [getClassAttendance]; a record comes with its populated
    student. *)
Module ClassAttendance.
Record t := {
  attendance : list (Attendance.t * option (string * Student.t));
  statistics : Statistics.t
}.
End ClassAttendance.

(** An entry of [data.summary] of [getDailySummary]. *)
Module Item.
Record t := {
  subject : option string;
  period : Z;
  class : option string;
  totalStudents : Z;
  present : Z;
  late : Z;
  absent : Z
}.
End Item.

(** [data] of [getDailySummary]. *)
Module DailySummary.
Record t := {
  date : string;
  summary : list Item.t;
  totalClasses : Z;
  overallAttendance : option Z
}.
End DailySummary.

(** [data.statistics] and [data] of [getInstitutionReport]; a record comes
    with the [name] of its populated teacher and with its populated
    student. *)
Module Counts.
Record t := {
  present : Z;
  late : Z;
  absent : Z
}.
End Counts.

Module InstitutionReport.
Record t := {
  totalRecords : Z;
  totalClasses : Z;
  totalStudents : Z;
  overallAttendance : option Z;
  statistics : Counts.t;
  recentAttendance : list (Attendance.t * option string * option (string * Student.t))
}.
End InstitutionReport.

Section Handlers.

Open Scope Z_scope.

Variable tz : Z.
Variable Teacher_findById : string -> option Teacher.t.
Variable Student_findById : string -> option Student.t.
Variable toDateString : Z -> string.
Variable numberToString : Q -> string.

(** [cursor.sort]: the documents in the order of the comparison; the order
    of documents that compare alike is the store's choice. *)
Variable sort : (Attendance.t -> Attendance.t -> bool) -> list Attendance.t -> list Attendance.t.

(** [Attendance.find(query)]. *)
Definition find (query : Attendance.t -> bool) (coll : list Attendance.t) : list Attendance.t :=
  List.filter query coll.

(** [attendance.filter(a => a.status === status).length]. *)
Definition countStatus (status : Attendance.Status) (attendance : list Attendance.t) : Z :=
  Z.of_nat (length (List.filter (fun a => bool_decide (Attendance.status a = status)) attendance)).

(** [populate('teacherId', 'name')] and [populate('studentId', 'name rollNo')]. *)
Definition populateTeacher (a : Attendance.t) : option string :=
  Teacher.name <$> (Attendance.teacherId a ≫= Teacher_findById).

Definition populateStudent (a : Attendance.t) : option (string * Student.t) :=
  Attendance.studentId a ≫= fun id => pair id <$> Student_findById id.

(** **** getMyAttendance *)

(** The query [{ studentId, date: { $gte: today } }]. *)
Definition studentSince (studentId : string) (today : Z) (d : Attendance.t) : bool :=
  bool_decide (Attendance.studentId d = Some studentId)
  && (today <=? Attendance.date d).

(** [{ scanTime: -1 }] and [{ scanTime: 1 }]. *)
Definition scanTimeDescending (a b : Attendance.t) : bool :=
  Attendance.scanTime b <=? Attendance.scanTime a.

Definition scanTimeAscending (a b : Attendance.t) : bool :=
  Attendance.scanTime a <=? Attendance.scanTime b.

(** Nothing between [try] and [catch] throws, so the handler has the one
    answer. *)
Definition getMyAttendance (studentId : string) (now : Z) (coll : list Attendance.t)
    : Reply.t (option MyAttendance.t) :=
  let today := Js.setHours0 tz now in
  let attendance := sort scanTimeDescending (find (studentSince studentId today) coll) in
  Reply.make 200 true "Attendance records fetched"
    (Some {| MyAttendance.attendance := map (fun a => (a, populateTeacher a)) attendance;
             MyAttendance.totalClasses := Z.of_nat (length attendance);
             MyAttendance.presentCount := countStatus Attendance.present attendance;
             MyAttendance.lateCount := countStatus Attendance.late attendance |}).

(** **** getClassAttendance *)

(** The query built from [req.user.id] and [req.query]: [date] is the
    instant [new Date(date)] parses from a [date] member that is present. *)
Definition classQuery (teacherId : string) (date : option Z) (subject className : option string)
    (d : Attendance.t) : bool :=
  bool_decide (Attendance.teacherId d = Some teacherId)
  && match date with
     | Some date => Attendance.date d =? Js.setHours0 tz date
     | None => true
     end
  && (if Js.truthy subject then bool_decide (Attendance.subject d = subject) else true)
  && (if Js.truthy className then bool_decide (Attendance.class d = className) else true).

(** [a.studentId.toString()] on every record: the method is called on the
    populated student, which is [null] when the record has no [studentId] or
    the student is gone.  Two populated students print alike exactly when
    they have one [_id]. *)
Definition studentStrings (attendance : list Attendance.t) : option (list string) :=
  mapM (fun a => fst <$> populateStudent a) attendance.

Definition getClassAttendance (teacherId : string) (date : option Z)
    (subject className : option string) (coll : list Attendance.t)
    : Reply.t (option ClassAttendance.t) :=
  let attendance :=
    sort scanTimeAscending (find (classQuery teacherId date subject className) coll) in
  match studentStrings attendance with
  | None => Reply.make 500 false "Failed to fetch class attendance" None
  | Some strings =>
      let totalStudents := Z.of_nat (length (remove_dups strings)) in
      let presentCount := countStatus Attendance.present attendance in
      let lateCount := countStatus Attendance.late attendance in
      let absentCount := totalStudents - (presentCount + lateCount) in
      Reply.make 200 true "Class attendance fetched"
        (Some {| ClassAttendance.attendance :=
                   map (fun a => (a, populateStudent a)) attendance;
                 ClassAttendance.statistics :=
                   {| Statistics.totalStudents := totalStudents;
                      Statistics.present := presentCount;
                      Statistics.late := lateCount;
                      Statistics.absent := absentCount;
                      Statistics.attendancePercentage :=
                        if 0 <? totalStudents
                        then JsMath.percentage (presentCount + lateCount) totalStudents
                        else Some 0 |} |})
  end.

(** **** getDailySummary *)

(** The query [{ teacherId, date: { $gte: filterDate } }] is [teacherSince]
    of [scanTeacherAttendanceQR]. *)

(** [{ period: 1, scanTime: 1 }]. *)
Definition periodThenScanTime (a b : Attendance.t) : bool :=
  (Attendance.period a <? Attendance.period b)
  || ((Attendance.period a =? Attendance.period b)
      && (Attendance.scanTime a <=? Attendance.scanTime b)).

(** The template [`${record.subject}_${record.period}`]. *)
Definition summaryKey (record : Attendance.t) : string :=
  default "undefined" (Attendance.subject record)
  +:+ "_" +:+ numberToString (inject_Z (Attendance.period record)).

(** One more record in an entry. *)
Definition tally (record : Attendance.t) (item : Item.t) : Item.t :=
  {| Item.subject := Item.subject item;
     Item.period := Item.period item;
     Item.class := Item.class item;
     Item.totalStudents := Item.totalStudents item + 1;
     Item.present :=
       Item.present item
       + (if bool_decide (Attendance.status record = Attendance.present) then 1 else 0);
     Item.late :=
       Item.late item
       + (if bool_decide (Attendance.status record = Attendance.late) then 1 else 0);
     Item.absent := Item.absent item |}.

Definition newItem (record : Attendance.t) : Item.t :=
  {| Item.subject := Attendance.subject record;
     Item.period := Attendance.period record;
     Item.class := Attendance.class record;
     Item.totalStudents := 0;
     Item.present := 0;
     Item.late := 0;
     Item.absent := 0 |}.

(** [summary[key]] after one more record under [key]; a new key goes to the
    end of the object. *)
Fixpoint tallyUnder (key : string) (record : Attendance.t) (summary : list (string * Item.t))
    : list (string * Item.t) :=
  match summary with
  | [] => [(key, tally record (newItem record))]
  | (k, item) :: rest =>
      if String.eqb k key
      then (k, tally record item) :: rest
      else (k, item) :: tallyUnder key record rest
  end.

(** The body of [attendance.forEach]. *)
Definition summarize (attendance : list Attendance.t) : list (string * Item.t) :=
  fold_left (fun summary record => tallyUnder (summaryKey record) record summary)
    attendance [].

(** [item.absent = item.totalStudents - (item.present + item.late)]. *)
Definition withAbsent (item : Item.t) : Item.t :=
  {| Item.subject := Item.subject item;
     Item.period := Item.period item;
     Item.class := Item.class item;
     Item.totalStudents := Item.totalStudents item;
     Item.present := Item.present item;
     Item.late := Item.late item;
     Item.absent := Item.totalStudents item - (Item.present item + Item.late item) |}.

(** [date] is the instant parsed from [req.query.date], when it is there. *)
Definition getDailySummary (teacherId : string) (date : option Z) (now : Z)
    (coll : list Attendance.t) : Reply.t (option DailySummary.t) :=
  let filterDate := Js.setHours0 tz (default now date) in
  let attendance :=
    sort periodThenScanTime (find (qrControllerMore.teacherSince teacherId filterDate) coll) in
  let summary := map (fun entry => withAbsent (snd entry)) (summarize attendance) in
  let notAbsent :=
    Z.of_nat (length (List.filter
                        (fun a => negb (bool_decide (Attendance.status a = Attendance.absent)))
                        attendance)) in
  let total := Z.of_nat (length attendance) in
  Reply.make 200 true "Daily summary fetched"
    (Some {| DailySummary.date := toDateString filterDate;
             DailySummary.summary := summary;
             DailySummary.totalClasses := Z.of_nat (length summary);
             DailySummary.overallAttendance :=
               if 0 <? total then JsMath.percentage notAbsent total else Some 0 |}).

(** **** getInstitutionReport *)

(** The query built from [req.user.institutionCode] and [req.query]: the
    range is there when both [startDate] and [endDate] are, as the instants
    [new Date] parses from them, the second moved to the last millisecond
    of its day by [setHours(23, 59, 59, 999)]. *)
Definition institutionQuery (institutionCode : string) (range : option (Z * Z))
    (d : Attendance.t) : bool :=
  bool_decide (Attendance.institutionCode d = Some institutionCode)
  && match range with
     | Some (startDate, endDate) =>
         (startDate <=? Attendance.date d)
         && (Attendance.date d <=? Js.setHours0 tz endDate + 86399999)
     | None => true
     end.

(** [{ date: -1 }]. *)
Definition dateDescending (a b : Attendance.t) : bool :=
  Attendance.date b <=? Attendance.date a.

(** The template [`${a.subject}_${a.date.toDateString()}_${a.period}`]. *)
Definition classKey (a : Attendance.t) : string :=
  default "undefined" (Attendance.subject a)
  +:+ "_" +:+ toDateString (Attendance.date a)
  +:+ "_" +:+ numberToString (inject_Z (Attendance.period a)).

(** [a.studentId._id.toString()] on every record throws as
    [a.studentId.toString()] does, and is the same string for the same
    student: [studentStrings]. *)
Definition getInstitutionReport (institutionCode : string) (range : option (Z * Z))
    (coll : list Attendance.t) : Reply.t (option InstitutionReport.t) :=
  let attendance := sort dateDescending (find (institutionQuery institutionCode range) coll) in
  let totalClasses := Z.of_nat (length (remove_dups (map classKey attendance))) in
  match studentStrings attendance with
  | None => Reply.make 500 false "Failed to generate institution report" None
  | Some strings =>
      let totalStudents := Z.of_nat (length (remove_dups strings)) in
      let presentCount := countStatus Attendance.present attendance in
      let lateCount := countStatus Attendance.late attendance in
      let total := Z.of_nat (length attendance) in
      Reply.make 200 true "Institution report generated"
        (Some {| InstitutionReport.totalRecords := total;
                 InstitutionReport.totalClasses := totalClasses;
                 InstitutionReport.totalStudents := totalStudents;
                 InstitutionReport.overallAttendance :=
                   if 0 <? total
                   then JsMath.percentage (presentCount + lateCount) total
                   else Some 0;
                 InstitutionReport.statistics :=
                   {| Counts.present := presentCount;
                      Counts.late := lateCount;
                      Counts.absent := total - (presentCount + lateCount) |};
                 InstitutionReport.recentAttendance :=
                   take 50 (map (fun a => (a, populateTeacher a, populateStudent a))
                              attendance) |})
  end.

End Handlers.

End attendanceReports.

(** ** The readings of the clock *)

(** The handlers above take one instant for a request.  The source reads
    the clock more than once in a request: [generateQR] for the [timestamp]
    of the payload and then, inside [jwt.sign], for [iat]; [markAttendance]
    inside [jwt.verify] and then for its [currentTime].  Here each of these
    readings has its own instant. *)
Module Readings.

Section Handlers.

Open Scope Z_scope.

Variable JWT_SECRET : string.
Variable hmac : string -> Jwt.Claims -> string.
Variable Teacher_findById : string -> option Teacher.t.

(** [generateQR], with [Date.now()] read at [now] and the clock of
    [jwt.sign] at [signedAt]. *)
Definition generateQR (subject className section : option string) (period : option Z)
    (teacherId : string) (institutionCode : option string)
    (sessionId : string) (now signedAt : Z) : Response :=
  if negb (Js.truthy subject) || negb (Js.truthy className)
  then json 400 false "Subject and Class are required" NoData
  else
    match Teacher_findById teacherId with
    | None => json 404 false "Teacher not found" NoData
    | Some teacher =>
        let qrPayload :=
          classPayload sessionId teacherId teacher subject className section period
            institutionCode now in
        let qrToken := Jwt.sign hmac qrPayload JWT_SECRET (Jwt.minutes 5) signedAt in
        json 200 true "QR Code generated successfully"
          (QrData qrToken sessionId "5 minutes" subject className section period
             (Teacher.name teacher))
    end.

(** [markAttendance] up to its check of the age of the token, with the
    clock of [jwt.verify] at [verifiedAt] and [currentTime = Date.now()]
    after it: the answer, or the payload the handler goes on with. *)
Definition markAttendance_token (qrToken : option Jwt.Token)
    (verifiedAt currentTime : Z) : Response + Payload.t :=
  match Jwt.present qrToken with
  | None => inl (json 400 false "QR token is required" NoData)
  | Some qrToken =>
      match Jwt.verify hmac qrToken JWT_SECRET verifiedAt with
      | inr jwtError =>
          inl (json 401 false
                 "QR code expired or invalid. Please ask teacher for a new one." NoData)
      | inl claims =>
          let decoded := Jwt.payload claims in
          let qrTime := Payload.timestamp decoded in
          let timeDifference := timeDifference currentTime qrTime in
          if Js.gt timeDifference (inject_Z 5)
          then inl (json 401 false
                      "QR code has expired. Please ask teacher for a new one." NoData)
          else inr decoded
      end
  end.

End Handlers.

End Readings.

(** ** What a request appends *)

Section Appended.

Open Scope Z_scope.

Variable tz : Z.
Variable toLocaleTimeString : Z -> string.
Variable numberToString : Q -> string.

(** The documents the three routes build for their [save] at [now]:
    [scanQR] for any payload and student, [markAttendance] for a payload at
    most five minutes old, [scanTeacherQR] for its check-in. *)
Inductive appended (now : Z) : Attendance.t -> Prop :=
| appended_scan decoded studentId :
    appended now (qrController.scanDoc tz decoded studentId now)
| appended_mark decoded studentId student :
    now - Payload.timestamp decoded <= 5 * 60000 ->
    appended now
      (attendanceController.markDoc numberToString decoded studentId student
         (attendanceController.timeDifference now (Payload.timestamp decoded)) now)
| appended_check_in decoded teacher user :
    appended now
      (qrController.checkInDoc toLocaleTimeString decoded teacher user
         (Js.setHours0 tz now) now).

End Appended.

(** A document as the three routes leave it: valid, [present] or [late],
    [late] exactly with at least one late minute and never more than five;
    a student document with its student and nothing of a teacher's day, a
    teacher document with its check-in and nothing of a class. *)
Definition wellFormed (d : Attendance.t) : Prop :=
  (Attendance.validate d = true /\
   (Attendance.status d = Attendance.present \/ Attendance.status d = Attendance.late) /\
   (Attendance.status d = Attendance.late <-> 1 <= Attendance.lateMinutes d) /\
   0 <= Attendance.lateMinutes d <= 5 /\
   match Attendance.attendanceType d with
   | Attendance.student =>
       (exists studentId, Attendance.studentId d = Some studentId) /\
       Attendance.teacherCheckIn d = None /\
       Attendance.teacherCheckOut d = None /\
       Attendance.workHours d = 0%Q
   | Attendance.teacher =>
       Attendance.studentId d = None /\
       Attendance.subject d = None /\
       Attendance.status d = Attendance.present /\
       exists checkIn, Attendance.teacherCheckIn d = Some checkIn
   end)%Z.

(** The sum of a count over the entries of a daily summary. *)
Definition sumOver (count : attendanceReports.Item.t -> Z)
    (summary : list attendanceReports.Item.t) : Z :=
  foldr (fun item sum => (count item + sum)%Z) 0%Z summary.

(** An entry of a daily summary counts at least one record, and no more
    [present] and [late] ones together than records. *)
Definition entryOk (item : attendanceReports.Item.t) : Prop :=
  (1 <= attendanceReports.Item.totalStudents item /\
   0 <= attendanceReports.Item.present item /\
   0 <= attendanceReports.Item.late item /\
   attendanceReports.Item.present item + attendanceReports.Item.late item
     <= attendanceReports.Item.totalStudents item)%Z.

(** ** The installation, continued *)

Module DemoMore.

Open Scope Z_scope.

(** Insertion sort, for [cursor.sort]. *)
Fixpoint insertSorted (le : Attendance.t -> Attendance.t -> bool) (a : Attendance.t)
    (sorted : list Attendance.t) : list Attendance.t :=
  match sorted with
  | [] => [a]
  | b :: rest => if le a b then a :: b :: rest else b :: insertSorted le a rest
  end.

Definition sort (le : Attendance.t -> Attendance.t -> bool) (l : list Attendance.t)
    : list Attendance.t :=
  foldr (insertSorted le) [] l.

Definition scanTeacherAttendanceQR :=
  qrControllerMore.scanTeacherAttendanceQR Demo.secret Demo.hmac Demo.tz Demo.teachers
    Demo.clockText Demo.dayText Demo.numberText.
Definition testTeacherScan :=
  qrControllerMore.testTeacherScan Demo.tz Demo.teachers Demo.clockText Demo.dayText
    Demo.numberText.
Definition getMyAttendance :=
  attendanceReports.getMyAttendance Demo.tz Demo.teachers sort.
Definition getClassAttendance :=
  attendanceReports.getClassAttendance Demo.tz Demo.students sort.
Definition getDailySummary :=
  attendanceReports.getDailySummary Demo.tz Demo.dayText Demo.numberText sort.
Definition getInstitutionReport :=
  attendanceReports.getInstitutionReport Demo.tz Demo.teachers Demo.students
    Demo.dayText Demo.numberText sort.


(** The document of a redemption on [/mark] at 09:01:00.001, the check-out
    at 09:30:00 of the check-in at 09:00:00, 09:00:00 of the next day with
    the teacher's token of that morning, and the payload of the evening's
    token. *)
Definition lateDoc : Attendance.t :=
  markDoc Demo.numberText (Demo.mathClass Demo.nine) "student-1" Demo.ravi
    (timeDifference (Demo.nine + 60001) Demo.nine) (Demo.nine + 60001).
Definition checkedOutAtHalfPast : Attendance.t :=
  checkOutDoc Demo.clockText Demo.numberText Demo.checkedInAtNine Demo.halfPastNine.
Definition nextDay : Z := Demo.nine + 86400000.
Definition nextMorning : option Jwt.Token := Some (Demo.selfToken "s4" nextDay).
Definition eveningPayload : Payload.t :=
  teacherPayload "s3" "teacher-1" Demo.asha (Some "INST01") (Demo.nine + 8 * 3600000).

(** The collections after the scan of a class token at 09:00:45 and after
    the teacher's check-in at 09:00:00. *)
Definition afterScan : list Attendance.t :=
  snd (Demo.handle (PostScan Demo.classQr "student-1") (Demo.nine + 45000) []).
Definition afterCheckIn : list Attendance.t :=
  snd (Demo.handle (PostTeacherScan Demo.morning None) Demo.nine []).

End DemoMore.

(** * Properties *)

(** ** Numbers *)

Section Numbers.

Open Scope Z_scope.

Lemma timeDifference_gt (now ts : Z) (k : positive) :
  Js.gt (timeDifference now ts) (inject_Z (Z.pos k)) = (Z.pos k * 60000 <? now - ts).
Proof.
  unfold timeDifference, Js.gt.
  destruct (Z.ltb_spec (Z.pos k * 60000) (now - ts)) as [H|H].
  - apply negb_true_iff, not_true_iff_false. rewrite Qle_bool_iff.
    unfold Qle, Qdiv, Qmult, Qinv, inject_Z; simpl. lia.
  - apply negb_false_iff. rewrite Qle_bool_iff.
    unfold Qle, Qdiv, Qmult, Qinv, inject_Z; simpl. lia.
Qed.

Lemma isLate_elapsed (now ts : Z) :
  isLate (timeDifference now ts) = (60000 <? now - ts).
Proof. unfold isLate. now rewrite (timeDifference_gt now ts 1). Qed.

Lemma timeDifference_floor (now ts : Z) :
  Js.floor (timeDifference now ts) = (now - ts) / 60000.
Proof.
  unfold Js.floor, timeDifference, Qdiv, Qmult, Qinv, inject_Z, Qfloor; simpl.
  f_equal. lia.
Qed.

Lemma lateMinutes_elapsed (now ts : Z) :
  lateMinutes (timeDifference now ts) =
  if 60000 <? now - ts then (now - ts) / 60000 else 0.
Proof.
  unfold lateMinutes. now rewrite isLate_elapsed, timeDifference_floor.
Qed.

(** *** The hours worked, in binary64 *)

Section Binary64.

Import SpecFloat FloatOps.

Lemma digits2_size p : digits2_pos p = Pos.size p.
Proof. induction p as [p IH|p IH|]; simpl; now rewrite ?IH. Qed.

(** A positive number of [d] binary digits lies between [2^(d-1)] and [2^d]. *)
Lemma digits2_bounds p :
  2 ^ (Z.pos (digits2_pos p) - 1) <= Z.pos p < 2 ^ Z.pos (digits2_pos p).
Proof.
  rewrite digits2_size.
  pose proof (Pos.size_gt p) as Hgt. pose proof (Pos.size_le p) as Hle.
  apply Pos2Z.pos_lt_pos in Hgt. apply Pos2Z.pos_le_pos in Hle.
  rewrite Pos2Z.inj_pow in Hgt, Hle. change (Z.pos 2) with 2 in *.
  change (Z.pos p~0) with (2 * Z.pos p) in Hle.
  split; [|exact Hgt].
  replace (2 ^ Z.pos (Pos.size p)) with (2 * 2 ^ (Z.pos (Pos.size p) - 1)) in Hle.
  - lia.
  - rewrite <- Z.pow_succ_r by lia. f_equal. lia.
Qed.

Lemma digits2_unique p d :
  2 ^ (d - 1) <= Z.pos p < 2 ^ d -> Z.pos (digits2_pos p) = d.
Proof.
  intros [Hlo Hhi]. pose proof (digits2_bounds p) as [Hlo' Hhi'].
  set (d' := Z.pos (digits2_pos p)) in *.
  assert (0 < d') by (subst d'; lia).
  assert (Hd : 0 < d).
  { destruct (Z.lt_trichotomy d 0) as [Hneg|[->|Hpos]]; [| |assumption].
    - rewrite Z.pow_neg_r in Hhi by assumption. lia.
    - simpl in Hhi. lia. }
  destruct (Z.lt_trichotomy d' d) as [Hlt|[Heq|Hgt]]; [|assumption|].
  - assert (2 ^ d' <= 2 ^ (d - 1)) by (apply Z.pow_le_mono_r; lia). lia.
  - assert (2 ^ d <= 2 ^ (d' - 1)) by (apply Z.pow_le_mono_r; lia). lia.
Qed.

Lemma iter_xO p k : Z.pos (Pos.iter xO p k) = Z.pos p * 2 ^ Z.pos k.
Proof.
  induction k as [|k IH] using Pos.peano_ind.
  - simpl. lia.
  - rewrite Pos.iter_succ, Pos2Z.inj_xO, IH, Pos2Z.inj_succ, Z.pow_succ_r by lia. lia.
Qed.

(** Rounding a mantissa of 53 or 54 digits. *)

Lemma fexp_normal e : emin <= e - 53 -> fexp prec emax e = e - 53.
Proof. unfold fexp, emin, prec, emax. lia. Qed.

Lemma shr_fexp_53 m e l :
  Z.pos (digits2_pos m) = 53 -> SpecFloat.emin prec emax <= e ->
  shr_fexp prec emax (Z.pos m) e l = (shr_record_of_loc (Z.pos m) l, e).
Proof.
  intros Hd He. unfold shr_fexp. cbn [Zdigits2]. rewrite Hd, fexp_normal by lia.
  replace (53 + e - 53 - e) with 0 by lia. reflexivity.
Qed.

Lemma shr_fexp_54 m e l :
  Z.pos (digits2_pos m) = 54 -> SpecFloat.emin prec emax <= e + 1 ->
  shr_fexp prec emax (Z.pos m) e l = (shr_1 (shr_record_of_loc (Z.pos m) l), e + 1).
Proof.
  intros Hd He. unfold shr_fexp. cbn [Zdigits2]. rewrite Hd, fexp_normal by lia.
  replace (54 + e - 53 - e) with 1 by lia. reflexivity.
Qed.

Lemma shr_m_shr_1 m l :
  shr_m (shr_1 (shr_record_of_loc (Z.pos m) l)) = Z.pos m / 2.
Proof.
  assert (H : forall r s, shr_m (shr_1 (Build_shr_record (Z.pos m) r s)) = Z.pos m / 2).
  { intros r s. destruct m as [m|m|]; cbn.
    - rewrite Pos2Z.inj_xI. apply Z.div_unique with 1; lia.
    - rewrite Pos2Z.inj_xO. apply Z.div_unique with 0; lia.
    - reflexivity. }
  destruct l as [|[| |]]; apply H.
Qed.

Lemma shr_m_of_loc m l : shr_m (shr_record_of_loc m l) = m.
Proof. now destruct l as [|[| |]]. Qed.

Lemma round_nearest_even_range m l :
  round_nearest_even m l = m \/ round_nearest_even m l = m + 1.
Proof.
  destruct l as [|[| |]]; cbn; auto. destruct (Z.even m); auto.
Qed.

(** One alignment of a mantissa [m] of 53 or 54 digits to 53 digits halves
    it when it has 54. *)
Lemma shr_fexp_aligned m e l :
  2 ^ 52 <= Z.pos m < 2 ^ 54 -> SpecFloat.emin prec emax <= e ->
  exists mrs k,
    shr_fexp prec emax (Z.pos m) e l = (mrs, e + k) /\
    k = (if Z.pos m <? 2 ^ 53 then 0 else 1) /\
    shr_m mrs = Z.pos m / 2 ^ k.
Proof.
  intros Hm He.
  destruct (Z.ltb_spec (Z.pos m) (2 ^ 53)) as [Hlt|Hge].
  - exists (shr_record_of_loc (Z.pos m) l), 0.
    rewrite shr_fexp_53, Z.add_0_r by (try apply digits2_unique; lia).
    rewrite shr_m_of_loc, Z.pow_0_r, Z.div_1_r. repeat split; lia.
  - exists (shr_1 (shr_record_of_loc (Z.pos m) l)), 1.
    rewrite shr_fexp_54 by (try apply digits2_unique; lia).
    rewrite shr_m_shr_1. repeat split; lia.
Qed.

(** The mantissa an alignment leaves has 53 digits and is at most one unit
    of the old mantissa below it. *)
Lemma aligned_mantissa m k :
  2 ^ 52 <= m < 2 ^ 54 -> k = (if m <? 2 ^ 53 then 0 else 1) ->
  2 ^ 52 <= m / 2 ^ k < 2 ^ 53 /\ m - 1 <= m / 2 ^ k * 2 ^ k <= m /\ 0 <= k <= 1.
Proof.
  change (2 ^ 52) with 4503599627370496.
  change (2 ^ 53) with 9007199254740992.
  change (2 ^ 54) with 18014398509481984.
  intros Hm ->. destruct (Z.ltb_spec m 9007199254740992) as [Hlt|Hge].
  - rewrite Z.pow_0_r, Z.div_1_r. lia.
  - change (2 ^ 1) with 2.
    pose proof (Z.div_mod m 2 ltac:(lia)).
    pose proof (Z.mod_pos_bound m 2 ltac:(lia)). lia.
Qed.

(** What [binary_round_aux] returns for a mantissa [q] of 53 or 54 digits
    is a finite double within three units of [q], whatever the location. *)
Lemma binary_round_aux_near s q e l :
  2 ^ 52 <= Z.pos q < 2 ^ 54 ->
  SpecFloat.emin prec emax <= e -> e + 2 <= emax - prec ->
  exists mf k,
    binary_round_aux prec emax s (Z.pos q) e l = S754_finite s mf (e + k) /\
    0 <= k <= 2 /\
    Z.pos q - 3 <= Z.pos mf * 2 ^ k <= Z.pos q + 2.
Proof.
  intros Hq He Hmax. unfold binary_round_aux.
  destruct (shr_fexp_aligned q e l Hq He) as (mrs1 & k1 & -> & Hk1 & Hm1).
  destruct (aligned_mantissa _ _ Hq Hk1) as (Hdigits1 & Hnear1 & Hrange1).
  rewrite <- Hm1 in Hdigits1, Hnear1. clear Hk1 Hm1.
  set (M := round_nearest_even (shr_m mrs1) (loc_of_shr_record mrs1)).
  assert (HM : M = shr_m mrs1 \/ M = shr_m mrs1 + 1) by apply round_nearest_even_range.
  assert (HMpos : 2 ^ 52 <= M < 2 ^ 54).
  { change (2 ^ 52) with 4503599627370496 in *.
    change (2 ^ 53) with 9007199254740992 in *.
    change (2 ^ 54) with 18014398509481984 in *. lia. }
  clearbody M.
  destruct M as [|M|M]; try (change (2 ^ 52) with 4503599627370496 in *; lia).
  destruct (shr_fexp_aligned M (e + k1) loc_Exact HMpos ltac:(lia))
    as (mrs2 & k2 & -> & Hk2 & Hm2).
  destruct (aligned_mantissa _ _ HMpos Hk2) as (Hdigits2 & Hnear2 & Hrange2).
  rewrite <- Hm2 in Hdigits2, Hnear2. clear Hk2 Hm2.
  destruct (shr_m mrs2) as [|mf|mf];
    try (change (2 ^ 52) with 4503599627370496 in *; lia).
  replace (e + k1 + k2 <=? emax - prec) with true by (symmetry; apply Z.leb_le; lia).
  exists mf, (k1 + k2). split; [now rewrite Z.add_assoc|]. split; [lia|].
  rewrite Z.pow_add_r by lia.
  assert (Hk1 : k1 = 0 \/ k1 = 1) by lia.
  assert (Hk2 : k2 = 0 \/ k2 = 1) by lia.
  destruct Hk1 as [->| ->], Hk2 as [->| ->];
    rewrite ?Z.pow_0_r in *; change (2 ^ 1) with 2 in *; lia.
Qed.

Lemma binary_round_aux_exact s m e :
  2 ^ 52 <= Z.pos m < 2 ^ 53 ->
  SpecFloat.emin prec emax <= e <= emax - prec ->
  binary_round_aux prec emax s (Z.pos m) e loc_Exact = S754_finite s m e.
Proof.
  intros Hm He. unfold binary_round_aux.
  rewrite shr_fexp_53 by (try apply digits2_unique; lia).
  cbn [shr_record_of_loc shr_m loc_of_shr_record round_nearest_even].
  rewrite shr_fexp_53 by (try apply digits2_unique; lia).
  cbn [shr_record_of_loc shr_m].
  now replace (e <=? emax - prec) with true by (symmetry; apply Z.leb_le; lia).
Qed.

(** Integers and their quotients. *)

(** A positive integer below [2^53] is a double, with a mantissa of 53
    digits. *)
Lemma Prim2SF_ofZ z :
  0 < z < 2 ^ 53 ->
  exists m e,
    Prim2SF (Double.ofZ z) = S754_finite false m e /\
    2 ^ 52 <= Z.pos m < 2 ^ 53 /\ -52 <= e <= 0 /\ Z.pos m = z * 2 ^ (- e).
Proof.
  intros Hz. unfold Double.ofZ.
  rewrite FloatAxioms.of_uint63_spec, Uint63.of_Z_spec.
  rewrite Z.mod_small
    by (change Uint63Axioms.wB with 9223372036854775808;
        change (2 ^ 53) with 9007199254740992 in Hz; lia).
  destruct z as [|p|p]; try lia. unfold binary_normalize, binary_round.
  pose proof (digits2_bounds p) as Hd.
  set (d := Z.pos (digits2_pos p)) in *.
  assert (Hd53 : 1 <= d <= 53).
  { split; [subst d; lia|].
    destruct (Z_le_gt_dec d 53) as [Hle|Hgt]; [assumption|exfalso].
    assert (2 ^ 53 <= 2 ^ (d - 1)) by (apply Z.pow_le_mono_r; lia). lia. }
  rewrite Z.add_0_r, fexp_normal by (unfold SpecFloat.emin, prec, emax; lia).
  unfold shl_align. rewrite Z.sub_0_r.
  destruct (d - 53) as [|k|k] eqn:Hk; try lia.
  - exists p, 0. assert (d = 53) as Hd' by lia. rewrite Hd' in Hd.
    change (53 - 1) with 52 in Hd.
    rewrite binary_round_aux_exact by (unfold SpecFloat.emin, prec, emax; lia).
    rewrite Z.pow_0_r. repeat split; lia.
  - exists (Pos.iter xO p k), (Z.neg k).
    assert (Hm : Z.pos (Pos.iter xO p k) = Z.pos p * 2 ^ (53 - d)).
    { rewrite iter_xO. do 2 f_equal. lia. }
    assert (Hbounds : 2 ^ 52 <= Z.pos p * 2 ^ (53 - d) < 2 ^ 53).
    { assert (Hu : 2 ^ d = 2 * 2 ^ (d - 1)).
      { rewrite <- Z.pow_succ_r by lia. f_equal. lia. }
      assert (Hut : 2 ^ (d - 1) * 2 ^ (53 - d) = 2 ^ 52).
      { rewrite <- Z.pow_add_r by lia. f_equal. lia. }
      assert (0 < 2 ^ (53 - d)) by (apply Z.pow_pos_nonneg; lia).
      change (2 ^ 53) with (2 * 2 ^ 52). rewrite <- Hut.
      generalize dependent (2 ^ (53 - d)). generalize dependent (2 ^ (d - 1)).
      intros u Hd Hu t _ Ht. nia. }
    rewrite binary_round_aux_exact
      by (rewrite ?Hm; unfold SpecFloat.emin, prec, emax; lia).
    rewrite Hm. replace (- Z.neg k) with (53 - d) by lia. repeat split; lia.
Qed.

(** The quotient of two doubles with mantissas of 53 digits is a double
    within three units of the integer quotient of the mantissas, taken with
    53 more digits. *)
Lemma SFdiv_near m1 e1 m2 e2 :
  2 ^ 52 <= Z.pos m1 < 2 ^ 53 -> 2 ^ 52 <= Z.pos m2 < 2 ^ 53 ->
  -900 <= e1 - e2 <= 900 ->
  exists mf k,
    SFdiv prec emax (S754_finite false m1 e1) (S754_finite false m2 e2)
      = S754_finite false mf (e1 - e2 - 53 + k) /\
    0 <= k <= 2 /\
    Z.pos m1 * 2 ^ 53 / Z.pos m2 - 3 <= Z.pos mf * 2 ^ k
      <= Z.pos m1 * 2 ^ 53 / Z.pos m2 + 2.
Proof.
  intros H1 H2 He. unfold SFdiv, SFdiv_core_binary. cbn [Zdigits2 xorb].
  rewrite (digits2_unique m1 53), (digits2_unique m2 53) by (change (53 - 1) with 52; lia).
  replace (53 + e1 - (53 + e2)) with (e1 - e2) by lia.
  rewrite fexp_normal by (unfold SpecFloat.emin, prec, emax; lia).
  rewrite Z.min_l by lia.
  replace (e1 - e2 - (e1 - e2 - 53)) with 53 by lia.
  rewrite Z.shiftl_mul_pow2 by lia.
  set (q := Z.pos m1 * 2 ^ 53 / Z.pos m2).
  assert (Hq : 2 ^ 52 <= q < 2 ^ 54).
  { subst q. change (2 ^ 52) with 4503599627370496 in *.
    change (2 ^ 53) with 9007199254740992 in *.
    change (2 ^ 54) with 18014398509481984 in *.
    split.
    - apply Z.div_le_lower_bound; lia.
    - apply Z.div_lt_upper_bound; lia. }
  assert (Hdiv : Z.div_eucl (Z.pos m1 * 2 ^ 53) (Z.pos m2)
                 = (q, (Z.pos m1 * 2 ^ 53) mod Z.pos m2)).
  { subst q. unfold Z.div, Z.modulo.
    now destruct (Z.div_eucl (Z.pos m1 * 2 ^ 53) (Z.pos m2)). }
  rewrite Hdiv.
  destruct q as [|q|q]; try (change (2 ^ 52) with 4503599627370496 in *; lia).
  apply binary_round_aux_near; [assumption| |];
    unfold SpecFloat.emin, prec, emax; lia.
Qed.

(** With [P >= 2^24] binary places, a mantissa within three units of the
    integer quotient gives the hundredth nearest to the exact quotient. *)
Lemma nearest_hundredth ms q V P n :
  2 ^ 24 <= P ->
  3600000 * q <= ms * P < 3600000 * (q + 1) ->
  q - 3 <= V <= q + 2 ->
  2 * P * n <= 200 * V + P < 2 * P * (n + 1) ->
  -18000 <= ms - 36000 * n <= 18000.
Proof.
  change (2 ^ 24) with 16777216. intros HP Hq HV Hn.
  split.
  - destruct (Z_le_gt_dec (-18000) (ms - 36000 * n)) as [H|H]; [assumption|exfalso].
    assert ((ms - 36000 * n + 18001) * P <= 0) by nia. nia.
  - destruct (Z_le_gt_dec (ms - 36000 * n) 18000) as [H|H]; [assumption|exfalso].
    assert (0 <= (ms - 36000 * n - 18001) * P) by nia. nia.
Qed.

Lemma Prim2SF_hour :
  Prim2SF (Double.ofZ (1000 * 60 * 60)) = S754_finite false 7730941132800000 (-31).
Proof. vm_compute. reflexivity. Qed.

(** [toFixed(2)] of a positive double with [j] binary places. *)
Lemma toFixed2_places (m j : positive) :
  Js.toFixed2 (Z.pos m # 2 ^ j) = (200 * Z.pos m + 2 ^ Z.pos j) / (2 * 2 ^ Z.pos j).
Proof.
  unfold Js.toFixed2.
  replace (Qle_bool 0 (Z.pos m # 2 ^ j)) with true
    by (symmetry; apply Qle_bool_iff; unfold Qle; simpl; lia).
  unfold Qfloor, Qplus, Qmult, inject_Z. cbn [Qnum Qden].
  rewrite !Pos2Z.inj_mul, Pos2Z.inj_pow. f_equal; lia.
Qed.

(** The hundredths that [toFixed(2)] writes for the binary64 quotient of a
    duration by an hour are the hundredths nearest to the exact quotient:
    they are at most half a hundredth of an hour, 18 seconds, away. *)
Lemma hours_nearest (checkIn currentTime : Z) :
  0 <= currentTime - checkIn < 2 ^ 51 ->
  let n := Js.toFixed2 (Double.value (Double.hours checkIn currentTime)) in
  -18000 <= (currentTime - checkIn) - 36000 * n <= 18000.
Proof.
  intros Hrange. unfold Double.hours.
  generalize dependent (currentTime - checkIn). intros ms Hrange.
  destruct (Z.eq_dec ms 0) as [->|Hne]; [vm_compute; split; intro; discriminate|].
  unfold Double.ofInteger.
  replace (ms <? 0) with false by (symmetry; apply Z.ltb_ge; lia).
  change (2 ^ 51) with 2251799813685248 in Hrange.
  destruct (Prim2SF_ofZ ms) as (m1 & e1 & Hm1 & Hd1 & He1 & Hv1);
    [change (2 ^ 53) with 9007199254740992; lia|].
  assert (He2 : e1 <= -2).
  { destruct (Z_le_gt_dec e1 (-2)) as [H|H]; [assumption|exfalso].
    assert (H2 : 2 ^ (- e1) <= 2 ^ 1) by (apply Z.pow_le_mono_r; lia).
    change (2 ^ 1) with 2 in H2. change (2 ^ 52) with 4503599627370496 in Hd1.
    assert (0 < 2 ^ (- e1)) by (apply Z.pow_pos_nonneg; lia). nia. }
  unfold Double.value.
  rewrite FloatAxioms.div_spec, Hm1, Prim2SF_hour. unfold FloatAxioms.SF64div.
  destruct (SFdiv_near m1 e1 7730941132800000 (-31) Hd1)
    as (mf & k & -> & Hk & Hnear); [vm_compute; split; [intro; discriminate|reflexivity]|lia|].
  destruct (e1 - -31 - 53 + k) as [|j|j] eqn:Hj; try lia.
  cbv zeta. rewrite toFixed2_places.
  set (P := 2 ^ (22 - e1)).
  assert (HP : 2 ^ 24 <= P) by (apply Z.pow_le_mono_r; lia).
  assert (HPk : P = 2 ^ Z.pos j * 2 ^ k).
  { subst P. rewrite <- Z.pow_add_r by lia. f_equal. lia. }
  assert (Hquot : Z.pos m1 * 2 ^ 53 / 7730941132800000 = ms * P / 3600000).
  { rewrite Hv1. subst P.
    replace (22 - e1) with (- e1 + 22) by lia. rewrite Z.pow_add_r by lia.
    change 7730941132800000 with (3600000 * 2 ^ 31).
    replace (ms * 2 ^ (- e1) * 2 ^ 53) with (ms * (2 ^ (- e1) * 2 ^ 22) * 2 ^ 31)
      by (change (2 ^ 53) with (2 ^ 22 * 2 ^ 31); ring).
    apply Z.div_mul_cancel_r; lia. }
  rewrite Hquot in Hnear.
  pose proof (Z.div_mod (ms * P) 3600000 ltac:(lia)) as Hdiv.
  pose proof (Z.mod_pos_bound (ms * P) 3600000 ltac:(lia)) as Hmod.
  set (D := 2 ^ Z.pos j) in *.
  assert (HD : 0 < D) by (subst D; apply Z.pow_pos_nonneg; lia).
  pose proof (Z.div_mod (200 * Z.pos mf + D) (2 * D) ltac:(lia)) as Hdiv'.
  pose proof (Z.mod_pos_bound (200 * Z.pos mf + D) (2 * D) ltac:(lia)) as Hmod'.
  set (n := (200 * Z.pos mf + D) / (2 * D)) in *.
  assert (H2k : 0 < 2 ^ k) by (apply Z.pow_pos_nonneg; lia).
  apply (nearest_hundredth ms (ms * P / 3600000) (Z.pos mf * 2 ^ k) P n HP);
    [lia|lia|].
  rewrite HPk. clearbody n D. generalize dependent (2 ^ k). intros t. intros. nia.
Qed.

End Binary64.

(** *** Doubles *)

Lemma minuteRow_spec fuel elapsed k late :
  Double.minuteRow fuel elapsed k late = true ->
  forall len e, Z.of_nat fuel = len -> elapsed <= e < elapsed + len ->
    Double.isFloor k (Double.minutes e) = true /\
    Double.gt (Double.minutes e) (Double.ofZ 1) = late /\
    Double.gt (Double.minutes e) (Double.ofZ 5) = false.
Proof.
  intros H len e <-. revert elapsed H.
  induction fuel as [|n IH]; intros elapsed H He; [lia|].
  cbn [Double.minuteRow] in H. cbv zeta in H.
  apply andb_prop in H as [H Hrest]. apply andb_prop in H as [H H5].
  apply andb_prop in H as [Hfloor Hlate].
  destruct (Z.eq_dec e elapsed) as [->|Hne].
  - split; [assumption|]. split.
    + now apply Bool.eqb_prop.
    + now apply negb_true_iff.
  - apply (IH (elapsed + 1) Hrest). lia.
Qed.

(** The six minutes of a token's life, instant by instant. *)
Lemma minuteRows :
  Double.minuteRow (Z.to_nat 60000) 0 0 false = true /\
  Double.minuteRow (Z.to_nat 1) 60000 1 false = true /\
  Double.minuteRow (Z.to_nat 59999) 60001 1 true = true /\
  Double.minuteRow (Z.to_nat 60000) 120000 2 true = true /\
  Double.minuteRow (Z.to_nat 60000) 180000 3 true = true /\
  Double.minuteRow (Z.to_nat 60000) 240000 4 true = true /\
  Double.minuteRow (Z.to_nat 1) 300000 5 true = true.
Proof. vm_compute. repeat split. Qed.

(** Over the five minutes of a class token, the binary64 computation of
    [markAttendance] and its rational model agree on the expiry test, on
    [isLate] and on [Math.floor]. *)
Lemma doubles_agree (now ts : Z) :
  0 <= now - ts <= 5 * 60000 ->
  let td := timeDifference now ts in
  let td64 := Double.timeDifference now ts in
  Double.gt td64 (Double.ofZ 5) = Js.gt td (inject_Z 5) /\
  Double.gt td64 (Double.ofZ 1) = isLate td /\
  Double.isFloor (Js.floor td) td64 = true.
Proof.
  intros Hrange td td64. subst td td64. unfold Double.timeDifference.
  rewrite (timeDifference_gt now ts 5), isLate_elapsed, timeDifference_floor.
  destruct minuteRows as (R0 & R1 & R1' & R2 & R3 & R4 & R5).
  generalize dependent (now - ts). intros e Hrange.
  assert (Hrow : forall fuel start len k late,
    Double.minuteRow fuel start k late = true ->
    Z.of_nat fuel = len -> start = k * 60000 \/ (start = 60001 /\ k = 1) ->
    (if late then 60000 < start else start + len <= 60001) ->
    start <= e < start + len -> start + len <= (k + 1) * 60000 ->
    Double.gt (Double.minutes e) (Double.ofZ 5) = (5 * 60000 <? e) /\
    Double.gt (Double.minutes e) (Double.ofZ 1) = (60000 <? e) /\
    Double.isFloor (e / 60000) (Double.minutes e) = true).
  { intros fuel start len k late R Hlen Hstart Hlate He Hend.
    destruct (minuteRow_spec _ _ _ _ R len e Hlen He) as (Hf & Hl & H5).
    rewrite H5, Hl.
    replace (e / 60000) with k by (apply Z.div_unique with (e - k * 60000); lia).
    split; [symmetry; apply Z.ltb_ge; lia|]. split; [|assumption].
    destruct late; symmetry; [apply Z.ltb_lt|apply Z.ltb_ge]; lia. }
  assert (Hcases : 0 <= e < 60000 \/ e = 60000 \/ 60001 <= e < 120000 \/
                   120000 <= e < 180000 \/ 180000 <= e < 240000 \/
                   240000 <= e < 300000 \/ e = 300000) by lia.
  destruct Hcases as [H|[H|[H|[H|[H|[H|H]]]]]].
  - apply (Hrow _ 0 60000 0 false R0); try reflexivity; try lia; try (now left); try (now right).
  - apply (Hrow _ 60000 1 1 false R1); try reflexivity; try lia; try (now left); try (now right).
  - apply (Hrow _ 60001 59999 1 true R1'); try reflexivity; try lia; try (now left); try (now right).
  - apply (Hrow _ 120000 60000 2 true R2); try reflexivity; try lia; try (now left); try (now right).
  - apply (Hrow _ 180000 60000 3 true R3); try reflexivity; try lia; try (now left); try (now right).
  - apply (Hrow _ 240000 60000 4 true R4); try reflexivity; try lia; try (now left); try (now right).
  - apply (Hrow _ 300000 1 5 true R5); try reflexivity; try lia; try (now left); try (now right).
Qed.

End Numbers.

(** ** The collection *)

Section Collection.

Lemma findOne_None (filter : Attendance.t -> bool) (coll : list Attendance.t) :
  Attendance.findOne filter coll = None <-> List.filter filter coll = [].
Proof.
  unfold Attendance.findOne. rewrite list_find_None.
  induction coll as [|d coll IH]; simpl.
  - split; [reflexivity | constructor].
  - rewrite Forall_cons. destruct (filter d); split.
    + intros [H _]. now destruct H.
    + discriminate.
    + intros [_ H]. now apply IH.
    + intros H. split; [discriminate | now apply IH].
Qed.

Lemma findOne_Some (filter : Attendance.t -> bool) (coll : list Attendance.t) i d :
  Attendance.findOne filter coll = Some (i, d) ->
  coll !! i = Some d /\ filter d = true /\ (i < length coll)%nat.
Proof.
  unfold Attendance.findOne. intros H. apply list_find_Some in H as (Hi & Hd & _).
  split; [assumption | split; [assumption |]]. now apply lookup_lt_Some in Hi.
Qed.

(** The document saved last is the one found when no earlier one matches. *)
Lemma findOne_last (filter : Attendance.t -> bool) (coll : list Attendance.t) d :
  Attendance.findOne filter coll = None -> filter d = true ->
  Attendance.findOne filter (coll ++ [d]) = Some (length coll, d).
Proof.
  unfold Attendance.findOne. intros Hnone Hd.
  rewrite list_find_app_r by assumption. simpl.
  rewrite decide_True by assumption. reflexivity.
Qed.

Lemma insert_last (coll : list Attendance.t) (d d' : Attendance.t) :
  <[length coll := d']> (coll ++ [d]) = coll ++ [d'].
Proof.
  rewrite insert_app_r_alt by lia. now rewrite Nat.sub_diag.
Qed.

(** Replacing a document by one that the filter treats alike keeps the
    filtered length. *)
Lemma filter_insert_same (filter : Attendance.t -> bool) (coll : list Attendance.t) i d d' :
  coll !! i = Some d -> filter d' = filter d ->
  length (List.filter filter (<[i := d']> coll)) = length (List.filter filter coll).
Proof.
  revert i. induction coll as [|x coll IH]; intros [|i] Hi Hf; simpl in *;
    try discriminate.
  - injection Hi as ->. rewrite Hf. now destruct (filter d).
  - specialize (IH i Hi Hf). destruct (filter x); simpl; now rewrite IH.
Qed.

End Collection.

(** ** Teacher self-attendance *)

Section TeacherSelf.

Open Scope Z_scope.

Context (JWT_SECRET : string) (hmac : string -> Jwt.Claims -> string) (tz : Z)
  (Teacher_findById : string -> option Teacher.t)
  (Student_findById : string -> option Student.t)
  (toLocaleTimeString toDateString : Z -> string) (numberToString : Q -> string).

Local Abbreviation scanTeacherQR :=
  (scanTeacherQR JWT_SECRET hmac tz Teacher_findById
     toLocaleTimeString toDateString numberToString).
Local Abbreviation decodeAt := (decodeAt JWT_SECRET hmac).
Local Abbreviation checkInDoc := (checkInDoc toLocaleTimeString).
Local Abbreviation checkOutDoc := (checkOutDoc toLocaleTimeString numberToString).

(** The three branches of [scanTeacherQR] after the token, its [type] and
    the teacher have been accepted. *)
Lemma scanTeacherQR_branches qrToken user now coll decoded teacher :
  decodeAt qrToken now = Some decoded ->
  Payload.type decoded = Some "teacher_attendance" ->
  Teacher_findById (Payload.teacherId decoded) = Some teacher ->
  let today := Js.setHours0 tz now in
  scanTeacherQR qrToken user now coll =
  match Attendance.findOne (teacherToday (Payload.teacherId decoded) today) coll with
  | None =>
      let doc := checkInDoc decoded teacher user today now in
      if Attendance.validate doc
      then (json 200 true "✅ Teacher check-in successful!"
              (CheckInData (Teacher.name teacher) (toLocaleTimeString now)
                 (toDateString today) (length coll) "check_in"),
            coll ++ [doc])
      else (failedScan ValidationError, coll)
  | Some (i, existing) =>
      match Attendance.teacherCheckOut existing with
      | Some _ => (alreadyCompleted, coll)
      | None =>
          let doc := checkOutDoc existing now in
          if Attendance.validate doc
          then (match Attendance.teacherCheckIn existing with
                | Some checkIn =>
                    json 200 false "✅ Teacher check-out successful!"
                      (CheckOutData (Teacher.name teacher) (toLocaleTimeString checkIn)
                         (toLocaleTimeString now) (Attendance.workHours doc)
                         (toDateString today) i "check_out")
                | None => failedScan TypeError
                end,
                <[i := doc]> coll)
          else (failedScan ValidationError, coll)
      end
  end.
Proof.
  unfold Routes.decodeAt, qrController.scanTeacherQR, scanTeacherQR_read.
  destruct (Jwt.present qrToken) as [t|]; [|discriminate].
  destruct (Jwt.verify hmac t JWT_SECRET now) as [claims|e]; [|discriminate].
  intros [= <-] Htype Hteacher. rewrite Htype, Hteacher. simpl.
  destruct (Attendance.findOne _ coll) as [[i existing]|]; simpl.
  - destruct (Attendance.teacherCheckOut existing); simpl; [reflexivity|].
    unfold Attendance.saveAt. now destruct (Attendance.validate _).
  - unfold Attendance.insertNew. now destruct (Attendance.validate _).
Qed.

Lemma validate_checkOutDoc existing now :
  Attendance.validate (checkOutDoc existing now) = Attendance.validate existing.
Proof. reflexivity. Qed.

Lemma teacherToday_checkOutDoc teacherId today existing now :
  teacherToday teacherId today (checkOutDoc existing now) =
  teacherToday teacherId today existing.
Proof. reflexivity. Qed.

Lemma teacherToday_checkInDoc decoded teacher user today now :
  teacherToday (Payload.teacherId decoded) today
    (checkInDoc decoded teacher user today now) = true.
Proof.
  unfold teacherToday; simpl.
  rewrite !bool_decide_eq_true_2 by reflexivity. simpl.
  rewrite andb_true_r. apply Z.leb_refl.
Qed.

Local Abbreviation teacherScanOn := (teacherScanOn JWT_SECRET hmac tz).
Local Abbreviation serve :=
  (serve JWT_SECRET hmac tz Teacher_findById Student_findById
     toLocaleTimeString toDateString numberToString).

Lemma teacherScanOn_inv teacherId today qrToken now :
  teacherScanOn teacherId today qrToken now = true ->
  exists decoded,
    decodeAt qrToken now = Some decoded /\
    Payload.type decoded = Some "teacher_attendance" /\
    Payload.teacherId decoded = teacherId /\
    Js.setHours0 tz now = today.
Proof.
  unfold Routes.teacherScanOn.
  destruct (decodeAt qrToken now) as [decoded|]; [|discriminate].
  rewrite !andb_true_iff, bool_decide_eq_true, String.eqb_eq, Z.eqb_eq.
  intros [[Ht Hid] Hday]. now exists decoded.
Qed.

(** Once the day's document has its check-out, every further scan of the
    day is refused and writes nothing. *)
Lemma scans_after_check_out teacherId teacher today coll i existing checkOut later :
  Teacher_findById teacherId = Some teacher ->
  Attendance.findOne (teacherToday teacherId today) coll = Some (i, existing) ->
  Attendance.teacherCheckOut existing = Some checkOut ->
  Forall (fun '(q, _, t) => teacherScanOn teacherId today q t = true) later ->
  serve (map (fun '(q, u, t) => (PostTeacherScan q u, t)) later) coll =
  (map (fun _ => alreadyCompleted) later, coll).
Proof.
  intros Hteacher Hfind Hout. induction 1 as [|[[q u] t] later Hok _ IH]; [reflexivity|].
  apply teacherScanOn_inv in Hok as (decoded & Hdec & Htype & <- & <-).
  simpl. unfold handle, read. fold (scanTeacherQR q u t coll).
  rewrite (scanTeacherQR_branches _ _ _ _ _ _ Hdec Htype Hteacher).
  simpl. rewrite Hfind, Hout, IH. reflexivity.
Qed.

(** C1. For a teacher and a day on which the teacher has no attendance
    document yet, the scans of that day run through
    NONE -> CHECKED_IN -> CHECKED_OUT: the first scan appends one document
    with [teacherCheckIn] set and status [present] and answers with action
    [check_in]; the second scan rewrites that same document with
    [teacherCheckOut] and [workHours] and answers with action [check_out];
    every later scan of the day is answered with
    "Attendance already completed for today" and leaves the collection as
    it is, so the day keeps exactly one document. *)
Theorem teacher_day_state_machine teacherId teacher today coll q1 u1 t1 q2 u2 t2 later :
  Teacher_findById teacherId = Some teacher ->
  todayCount teacherId today coll = 0%nat ->
  teacherScanOn teacherId today q1 t1 = true ->
  code (fst (scanTeacherQR q1 u1 t1 coll)) <> 500 ->
  teacherScanOn teacherId today q2 t2 = true ->
  Forall (fun '(q, _, t) => teacherScanOn teacherId today q t = true) later ->
  let first := scanTeacherQR q1 u1 t1 coll in
  let second := scanTeacherQR q2 u2 t2 (snd first) in
  let rest := serve (map (fun '(q, u, t) => (PostTeacherScan q u, t)) later) (snd second) in
  exists checkedIn checkedOut,
    (* first scan *)
    fst first =
      json 200 true "✅ Teacher check-in successful!"
        (CheckInData (Teacher.name teacher) (toLocaleTimeString t1) (toDateString today)
           (length coll) "check_in") /\
    snd first = coll ++ [checkedIn] /\
    Attendance.teacherCheckIn checkedIn = Some t1 /\
    Attendance.teacherCheckOut checkedIn = None /\
    Attendance.status checkedIn = Attendance.present /\
    Attendance.date checkedIn = today /\
    todayCount teacherId today (snd first) = 1%nat /\
    (* second scan *)
    fst second =
      json 200 false "✅ Teacher check-out successful!"
        (CheckOutData (Teacher.name teacher) (toLocaleTimeString t1) (toLocaleTimeString t2)
           (workHoursOf t1 t2) (toDateString today) (length coll) "check_out") /\
    snd second = coll ++ [checkedOut] /\
    checkedOut = checkOutDoc checkedIn t2 /\
    Attendance.teacherCheckIn checkedOut = Some t1 /\
    Attendance.teacherCheckOut checkedOut = Some t2 /\
    Attendance.workHours checkedOut = workHoursOf t1 t2 /\
    todayCount teacherId today (snd second) = 1%nat /\
    (* every later scan *)
    fst rest = map (fun _ => alreadyCompleted) later /\
    snd rest = snd second.
Proof.
  intros Hteacher Hnone Hq1 Hsaved Hq2 Hlater first second rest.
  apply teacherScanOn_inv in Hq1 as (d1 & Hdec1 & Htype1 & Hid1 & Hday1).
  apply teacherScanOn_inv in Hq2 as (d2 & Hdec2 & Htype2 & Hid2 & Hday2).
  assert (Hfilter0 : List.filter (teacherToday teacherId today) coll = []).
  { unfold todayCount in Hnone. now apply length_zero_iff_nil. }
  assert (Hfind0 : Attendance.findOne (teacherToday teacherId today) coll = None).
  { now apply findOne_None. }
  set (checkedIn := checkInDoc d1 teacher u1 today t1).
  assert (Hmatch : teacherToday teacherId today checkedIn = true).
  { subst teacherId. apply teacherToday_checkInDoc. }
  (* first scan *)
  pose proof (scanTeacherQR_branches q1 u1 t1 coll d1 teacher Hdec1 Htype1) as E1.
  rewrite Hid1 in E1. specialize (E1 Hteacher). simpl in E1.
  rewrite Hday1, Hfind0 in E1. fold checkedIn in E1.
  destruct (Attendance.validate checkedIn) eqn:Hvalid;
    [|rewrite E1 in Hsaved; now destruct Hsaved].
  fold first in E1.
  (* second scan *)
  pose proof (scanTeacherQR_branches q2 u2 t2 (coll ++ [checkedIn]) d2 teacher
                Hdec2 Htype2) as E2.
  rewrite Hid2 in E2. specialize (E2 Hteacher). simpl in E2.
  rewrite Hday2, (findOne_last _ _ _ Hfind0 Hmatch) in E2.
  change (Attendance.teacherCheckOut checkedIn) with (@None Z) in E2.
  rewrite validate_checkOutDoc, Hvalid, insert_last in E2.
  change (Attendance.teacherCheckIn checkedIn) with (Some t1) in E2.
  assert (Hsecond : second = scanTeacherQR q2 u2 t2 (coll ++ [checkedIn])).
  { unfold second. now rewrite E1. }
  rewrite E2 in Hsecond.
  (* the rest of the day *)
  assert (Hrest : rest = (map (fun _ => alreadyCompleted) later,
                          coll ++ [checkOutDoc checkedIn t2])).
  { unfold rest. rewrite Hsecond. simpl.
    apply (scans_after_check_out teacherId teacher today _ (length coll)
             (checkOutDoc checkedIn t2) t2 later Hteacher); [|reflexivity|assumption].
    apply findOne_last; [assumption|]. now rewrite teacherToday_checkOutDoc. }
  clearbody rest second first. subst first second rest.
  exists checkedIn, (checkOutDoc checkedIn t2). simpl.
  unfold todayCount. rewrite !List.filter_app, Hfilter0. simpl.
  rewrite teacherToday_checkOutDoc, Hmatch. simpl.
  repeat split; reflexivity.
Qed.

(** C9. On every teacher check-out of [scanTeacherQR] (a document of the
    teacher for today exists and has no [teacherCheckOut]), the changes to
    the document ([teacherCheckOut], [workHours], [scanTime], [remarks]) are
    saved and the answer has HTTP status 200 and the message
    "Teacher check-out successful!" behind its check mark, yet its [success]
    flag is [false]. *)
Theorem check_out_reports_failure qrToken user now coll decoded teacher i existing checkIn :
  decodeAt qrToken now = Some decoded ->
  Payload.type decoded = Some "teacher_attendance" ->
  Teacher_findById (Payload.teacherId decoded) = Some teacher ->
  Attendance.findOne
    (teacherToday (Payload.teacherId decoded) (Js.setHours0 tz now)) coll
    = Some (i, existing) ->
  Attendance.teacherCheckOut existing = None ->
  Attendance.teacherCheckIn existing = Some checkIn ->
  Attendance.validate existing = true ->
  let response := fst (scanTeacherQR qrToken user now coll) in
  let coll' := snd (scanTeacherQR qrToken user now coll) in
  code response = 200 /\
  success response = false /\
  message response = "✅ Teacher check-out successful!" /\
  data response =
    CheckOutData (Teacher.name teacher) (toLocaleTimeString checkIn)
      (toLocaleTimeString now) (workHoursOf checkIn now)
      (toDateString (Js.setHours0 tz now)) i "check_out" /\
  exists updated,
    coll !! i = Some existing /\
    coll' = <[i := updated]> coll /\
    coll' !! i = Some updated /\
    Attendance.teacherCheckOut updated = Some now /\
    Attendance.workHours updated = workHoursOf checkIn now /\
    Attendance.scanTime updated = now /\
    Attendance.remarks updated =
      "Checked out at " +:+ toLocaleTimeString now +:+ " | Worked: "
      +:+ numberToString (workHoursOf checkIn now) +:+ " hours".
Proof.
  intros Hdec Htype Hteacher Hfind Hout Hin Hvalid response coll'.
  pose proof (scanTeacherQR_branches qrToken user now coll decoded teacher
                Hdec Htype Hteacher) as E.
  simpl in E. rewrite Hfind, Hout, validate_checkOutDoc, Hvalid, Hin in E.
  subst response coll'. rewrite E. simpl.
  apply findOne_Some in Hfind as (Hi & _ & Hlt).
  do 4 (split; [reflexivity|]).
  exists (checkOutDoc existing now).
  split; [assumption|]. split; [reflexivity|].
  split; [now apply list_lookup_insert_eq|].
  unfold qrController.checkOutDoc. rewrite Hin. simpl. repeat split.
Qed.

(** C7, as the code has it.  On every teacher check-out, the stored
    [workHours] is the binary64 quotient of the time since [teacherCheckIn]
    by an hour, written by [toFixed(2)] and read back: a whole number of
    hundredths, and the one nearest to the exact hours, at most half a
    hundredth of an hour (18 s) away.  Unless the exact hours lie half-way
    between two hundredths, that is the exact hours rounded to two decimals;
    half-way, the double decides which of the two it is.  Thirty minutes, as
    from 09:00:00 to 09:30:00, give 0.50. *)
Theorem workHours_two_decimals qrToken user now coll decoded teacher i existing checkIn :
  decodeAt qrToken now = Some decoded ->
  Payload.type decoded = Some "teacher_attendance" ->
  Teacher_findById (Payload.teacherId decoded) = Some teacher ->
  Attendance.findOne
    (teacherToday (Payload.teacherId decoded) (Js.setHours0 tz now)) coll
    = Some (i, existing) ->
  Attendance.teacherCheckOut existing = None ->
  Attendance.teacherCheckIn existing = Some checkIn ->
  Attendance.validate existing = true ->
  0 <= now - checkIn < 2 ^ 51 ->
  exists stored,
    snd (scanTeacherQR qrToken user now coll) !! i = Some stored /\
    Attendance.teacherCheckIn stored = Some checkIn /\
    Attendance.teacherCheckOut stored = Some now /\
    let elapsed := now - checkIn in
    let hundredths := Js.toFixed2 (Double.value (Double.hours checkIn now)) in
    Attendance.workHours stored = (inject_Z hundredths / inject_Z 100)%Q /\
    -18000 <= elapsed - 36000 * hundredths <= 18000 /\
    ((elapsed + 18000) mod 36000 <> 0 -> hundredths = (elapsed + 18000) / 36000) /\
    (elapsed = 30 * 60 * 1000 -> hundredths = 50).
Proof.
  intros Hdec Htype Hteacher Hfind Hout Hin Hvalid Hrange.
  pose proof (scanTeacherQR_branches qrToken user now coll decoded teacher
                Hdec Htype Hteacher) as E.
  simpl in E. rewrite Hfind, Hout, validate_checkOutDoc, Hvalid, Hin in E.
  rewrite E. simpl.
  apply findOne_Some in Hfind as (Hi & _ & Hlt).
  assert (Hw : Attendance.workHours (checkOutDoc existing now) = workHoursOf checkIn now).
  { unfold qrController.checkOutDoc. now rewrite Hin. }
  exists (checkOutDoc existing now).
  split; [now apply list_lookup_insert_eq|].
  split; [assumption|]. split; [reflexivity|].
  rewrite Hw. unfold workHoursOf, Js.parseFloat.
  pose proof (hours_nearest checkIn now Hrange) as Hnear. cbv zeta in *.
  set (hundredths := Js.toFixed2 (Double.value (Double.hours checkIn now))) in *.
  assert (Hround : (now - checkIn + 18000) mod 36000 <> 0 ->
                   hundredths = (now - checkIn + 18000) / 36000).
  { intros Htie.
    pose proof (Z.div_mod (now - checkIn + 18000) 36000 ltac:(lia)).
    pose proof (Z.mod_pos_bound (now - checkIn + 18000) 36000 ltac:(lia)).
    apply Z.div_unique with (now - checkIn + 18000 - 36000 * hundredths); lia. }
  split; [reflexivity|]. split; [exact Hnear|]. split; [exact Hround|].
  intros H30. rewrite Hround; rewrite H30; reflexivity || discriminate.
Qed.

End TeacherSelf.

(** ** Class-session attendance *)

Section ClassSession.

Open Scope Z_scope.

Context (JWT_SECRET : string) (hmac : string -> Jwt.Claims -> string) (tz : Z)
  (Teacher_findById : string -> option Teacher.t)
  (Student_findById : string -> option Student.t)
  (toLocaleTimeString toDateString : Z -> string) (numberToString : Q -> string).

Local Abbreviation scanQR := (scanQR JWT_SECRET hmac tz).
Local Abbreviation markAttendance :=
  (markAttendance JWT_SECRET hmac Teacher_findById Student_findById
     toLocaleTimeString numberToString).
Local Abbreviation decodeAt := (decodeAt JWT_SECRET hmac).
Local Abbreviation scanDoc := (scanDoc tz).
Local Abbreviation markDoc := (markDoc numberToString).
Local Abbreviation handle :=
  (handle JWT_SECRET hmac tz Teacher_findById Student_findById
     toLocaleTimeString toDateString numberToString).

(** A token decodes to the same payload whenever it decodes. *)
Lemma decodeAt_same qrToken now1 now2 d1 d2 :
  decodeAt qrToken now1 = Some d1 -> decodeAt qrToken now2 = Some d2 -> d1 = d2.
Proof.
  unfold Routes.decodeAt.
  destruct (Jwt.present qrToken) as [[c s|raw defect]|]; simpl; try discriminate.
  destruct (negb _); [discriminate|].
  destruct (_ <=? now1 / 1000); [discriminate|].
  destruct (_ <=? now2 / 1000); [discriminate|].
  now intros [= <-] [= <-].
Qed.

(** The branches of [scanQR] after the token has been accepted. *)
Lemma scanQR_branches qrToken studentId now coll decoded :
  decodeAt qrToken now = Some decoded ->
  scanQR qrToken studentId now coll =
  if 5 * 60000 <? now - Payload.timestamp decoded
  then (json 400 false "QR code has expired" NoData, coll)
  else
    match Attendance.findOne (sessionStudent (Payload.sessionId decoded) studentId) coll with
    | Some _ => (json 400 false "Attendance already marked for this session" NoData, coll)
    | None =>
        let doc := scanDoc decoded studentId now in
        if Attendance.validate doc
        then (json 200 true "Attendance marked successfully"
                (ScanData (length coll) (Payload.subject decoded) (Payload.class decoded)
                   (Payload.teacherName decoded) now),
              coll ++ [doc])
        else (json 500 false "Failed to scan QR code" (ErrorMessage ValidationError), coll)
    end.
Proof.
  unfold Routes.decodeAt, qrController.scanQR, scanQR_read.
  destruct (Jwt.present qrToken) as [t|]; [|discriminate].
  destruct (Jwt.verify hmac t JWT_SECRET now) as [claims|e]; [|discriminate].
  intros [= <-].
  replace (now >? Payload.timestamp (Jwt.payload claims) + 5 * 60 * 1000)
    with (5 * 60000 <? now - Payload.timestamp (Jwt.payload claims))
    by (rewrite Z.gtb_ltb; apply eq_true_iff_eq; rewrite !Z.ltb_lt; lia).
  destruct (_ <? _); [reflexivity|].
  destruct (Attendance.findOne _ coll) as [[i existing]|]; [reflexivity|].
  simpl. unfold Attendance.insertNew. now destruct (Attendance.validate _).
Qed.

(** The branches of [markAttendance] after the token has been accepted. *)
Lemma markAttendance_branches qrToken studentId now coll decoded :
  decodeAt qrToken now = Some decoded ->
  markAttendance qrToken studentId now coll =
  if 5 * 60000 <? now - Payload.timestamp decoded
  then (json 401 false "QR code has expired. Please ask teacher for a new one." NoData,
        coll)
  else
    match Attendance.findOne (sessionStudent (Payload.sessionId decoded) studentId) coll with
    | Some _ => (json 400 false "Attendance already marked for this class" NoData, coll)
    | None =>
        match Student_findById studentId with
        | None => (json 404 false "Student not found" NoData, coll)
        | Some student =>
            match Teacher_findById (Payload.teacherId decoded) with
            | None => (json 404 false "Teacher not found" NoData, coll)
            | Some teacher =>
                let elapsed := now - Payload.timestamp decoded in
                let td := timeDifference now (Payload.timestamp decoded) in
                let doc := markDoc decoded studentId student td now in
                if Attendance.validate doc
                then (json 200 true
                        (if 60000 <? elapsed
                         then "Attendance marked (Late by "
                              +:+ numberToString (inject_Z (elapsed / 60000))
                              +:+ " minutes)"
                         else "Attendance marked successfully")
                        (MarkData (length coll) (Student.name student)
                           (Student.rollNo student) (Payload.subject decoded)
                           (Payload.class decoded) (Teacher.name teacher)
                           (if 60000 <? elapsed
                            then Attendance.late else Attendance.present)
                           (toLocaleTimeString now)
                           (if 60000 <? elapsed then elapsed / 60000 else 0)),
                      coll ++ [doc])
                else (json 500 false "Failed to mark attendance"
                        (ErrorMessage ValidationError), coll)
            end
        end
    end.
Proof.
  unfold Routes.decodeAt, attendanceController.markAttendance, markAttendance_read.
  destruct (Jwt.present qrToken) as [t|]; [|discriminate].
  destruct (Jwt.verify hmac t JWT_SECRET now) as [claims|e]; [|discriminate].
  intros [= <-].
  rewrite (timeDifference_gt now _ 5).
  destruct (_ <? _); [reflexivity|].
  destruct (Attendance.findOne _ coll) as [[i existing]|]; [reflexivity|].
  destruct (Student_findById studentId) as [student|]; [|reflexivity].
  destruct (Teacher_findById _) as [teacher|]; [|reflexivity].
  rewrite lateMinutes_elapsed, isLate_elapsed.
  simpl. unfold Attendance.insertNew. destruct (Attendance.validate _); [|reflexivity].
  now destruct (60000 <? _).
Qed.

(** A token that does not decode is answered without a write and without
    a 200. *)
Lemma scanQR_undecoded qrToken studentId now coll :
  decodeAt qrToken now = None ->
  snd (scanQR qrToken studentId now coll) = coll /\
  code (fst (scanQR qrToken studentId now coll)) <> 200.
Proof.
  unfold Routes.decodeAt, qrController.scanQR, scanQR_read.
  destruct (Jwt.present qrToken) as [t|]; [|now split].
  destruct (Jwt.verify hmac t JWT_SECRET now) as [claims|[m| |]]; [discriminate| | |];
    now split.
Qed.

Lemma markAttendance_undecoded qrToken studentId now coll :
  decodeAt qrToken now = None ->
  snd (markAttendance qrToken studentId now coll) = coll /\
  code (fst (markAttendance qrToken studentId now coll)) <> 200.
Proof.
  unfold Routes.decodeAt, attendanceController.markAttendance, markAttendance_read.
  destruct (Jwt.present qrToken) as [t|]; [|now split].
  destruct (Jwt.verify hmac t JWT_SECRET now) as [claims|e]; [discriminate|].
  now split.
Qed.

Lemma markDoc_status decoded studentId student now :
  let elapsed := now - Payload.timestamp decoded in
  let doc := markDoc decoded studentId student
               (timeDifference now (Payload.timestamp decoded)) now in
  Attendance.status doc = (if 60000 <? elapsed then Attendance.late else Attendance.present)
  /\ Attendance.lateMinutes doc = (if 60000 <? elapsed then elapsed / 60000 else 0).
Proof.
  simpl. now rewrite isLate_elapsed, lateMinutes_elapsed.
Qed.

(** C3. A class token redeemed through [markAttendance] at [elapsed]
    milliseconds after issuance (within the five minutes) gives a document
    with status [late] exactly when [elapsed] is more than one minute, and
    then [lateMinutes] is the whole minutes elapsed; otherwise the status is
    [present] and [lateMinutes] is 0.  At 60.000 seconds the document is
    [present] with 0 late minutes, at 60.001 seconds [late] with 1. *)
Theorem lateness_boundary qrToken studentId now coll :
  code (fst (markAttendance qrToken studentId now coll)) = 200 ->
  exists decoded doc,
    decodeAt qrToken now = Some decoded /\
    snd (markAttendance qrToken studentId now coll) = coll ++ [doc] /\
    let elapsed := now - Payload.timestamp decoded in
    elapsed <= 5 * 60000 /\
    (Attendance.status doc = Attendance.late <-> 60000 < elapsed) /\
    (Attendance.status doc = Attendance.late ->
     Attendance.lateMinutes doc = elapsed / 60000 /\
     Attendance.lateMinutes doc = Js.floor (timeDifference now (Payload.timestamp decoded))) /\
    (Attendance.status doc <> Attendance.late ->
     Attendance.status doc = Attendance.present /\ Attendance.lateMinutes doc = 0) /\
    (elapsed = 60000 ->
     Attendance.status doc = Attendance.present /\ Attendance.lateMinutes doc = 0) /\
    (elapsed = 60001 ->
     Attendance.status doc = Attendance.late /\ Attendance.lateMinutes doc = 1) /\
    (0 <= elapsed ->
     let td64 := Double.timeDifference now (Payload.timestamp decoded) in
     (Attendance.status doc = Attendance.late <-> Double.gt td64 (Double.ofZ 1) = true) /\
     Double.isFloor (elapsed / 60000) td64 = true).
Proof.
  intros H200.
  destruct (decodeAt qrToken now) as [decoded|] eqn:Hdec.
  2:{ now apply (markAttendance_undecoded _ studentId _ coll) in Hdec as [_ Hne]. }
  rewrite (markAttendance_branches _ _ _ _ _ Hdec) in H200 |- *.
  destruct (Z.ltb_spec (5 * 60000) (now - Payload.timestamp decoded)) as [|Httl];
    [discriminate|].
  destruct (Attendance.findOne _ coll); [discriminate|].
  destruct (Student_findById studentId) as [student|]; [|discriminate].
  destruct (Teacher_findById _) as [teacher|]; [|discriminate].
  cbv zeta in H200 |- *. destruct (Attendance.validate _); [|discriminate].
  destruct (markDoc_status decoded studentId student now) as [Hs Hm].
  cbv zeta in Hs, Hm.
  exists decoded. eexists. split; [reflexivity|]. split; [reflexivity|].
  cbv zeta. rewrite Hs, Hm, timeDifference_floor.
  split; [assumption|].
  assert (H64 : 0 <= now - Payload.timestamp decoded ->
    Double.gt (Double.timeDifference now (Payload.timestamp decoded)) (Double.ofZ 1)
    = (60000 <? now - Payload.timestamp decoded) /\
    Double.isFloor ((now - Payload.timestamp decoded) / 60000)
      (Double.timeDifference now (Payload.timestamp decoded)) = true).
  { intros H0.
    destruct (doubles_agree now (Payload.timestamp decoded)) as (_ & Hgt & Hfloor);
      [lia|].
    now rewrite isLate_elapsed in Hgt; rewrite timeDifference_floor in Hfloor. }
  destruct (Z.ltb_spec 60000 (now - Payload.timestamp decoded)) as [Hlate|Hlate].
  - repeat split; intros; try reflexivity; try lia; try congruence;
      try (now apply H64).
    match goal with E : _ = 60001 |- _ => now rewrite E end.
  - repeat split; intros; try reflexivity; try lia; try congruence; try discriminate;
      try (now apply H64).
    destruct (H64 ltac:(assumption)) as [Hgt _]. congruence.
Qed.

(** C10. Every class-session redemption that [qrController.scanQR] accepts
    (the token is valid and not expired, the key has no document) stores a
    document with status [present] and the schema default of
    [lateMinutes], whatever time has passed since issuance: this route
    never stores a [late] document. *)
Theorem scanQR_always_present qrToken studentId now coll :
  code (fst (scanQR qrToken studentId now coll)) = 200 ->
  exists decoded doc,
    decodeAt qrToken now = Some decoded /\
    snd (scanQR qrToken studentId now coll) = coll ++ [doc] /\
    doc = scanDoc decoded studentId now /\
    Attendance.status doc = Attendance.present /\
    Attendance.lateMinutes doc = Attendance.default_lateMinutes /\
    Attendance.status doc <> Attendance.late.
Proof.
  intros H200.
  destruct (decodeAt qrToken now) as [decoded|] eqn:Hdec.
  2:{ now apply (scanQR_undecoded _ studentId _ coll) in Hdec as [_ Hne]. }
  rewrite (scanQR_branches _ _ _ _ _ Hdec) in H200 |- *.
  destruct (_ <? _); [discriminate|].
  destruct (Attendance.findOne _ coll); [discriminate|].
  simpl in H200 |- *. destruct (Attendance.validate _); [|discriminate].
  exists decoded, (scanDoc decoded studentId now). now repeat split.
Qed.

Lemma sessionStudent_scanDoc decoded studentId now :
  sessionStudent (Payload.sessionId decoded) studentId (scanDoc decoded studentId now) = true.
Proof.
  unfold sessionStudent; simpl. now rewrite !bool_decide_eq_true_2.
Qed.

Lemma sessionStudent_markDoc decoded studentId student td now :
  sessionStudent (Payload.sessionId decoded) studentId
    (markDoc decoded studentId student td now) = true.
Proof.
  unfold sessionStudent; simpl. now rewrite !bool_decide_eq_true_2.
Qed.

(** A student redemption answered with 200 found no document under its key
    and appended one under that key. *)
Lemma student_accept route qrToken studentId now coll :
  code (fst (handle (studentRequest route qrToken studentId) now coll)) = 200 ->
  exists decoded doc,
    decodeAt qrToken now = Some decoded /\
    Attendance.findOne (sessionStudent (Payload.sessionId decoded) studentId) coll = None /\
    snd (handle (studentRequest route qrToken studentId) now coll) = coll ++ [doc] /\
    sessionStudent (Payload.sessionId decoded) studentId doc = true /\
    Attendance.attendanceType doc = Attendance.student.
Proof.
  destruct route; unfold Routes.handle, read, studentRequest.
  - fold (scanQR qrToken studentId now coll). intros H200.
    destruct (decodeAt qrToken now) as [decoded|] eqn:Hdec.
    2:{ now apply (scanQR_undecoded _ studentId _ coll) in Hdec as [_ Hne]. }
    rewrite (scanQR_branches _ _ _ _ _ Hdec) in H200 |- *.
    destruct (_ <? _); [discriminate|].
    destruct (Attendance.findOne _ coll) eqn:Hfind; [discriminate|].
    cbv zeta in H200 |- *. destruct (Attendance.validate _); [|discriminate].
    exists decoded, (scanDoc decoded studentId now).
    split; [reflexivity|]. split; [assumption|]. split; [reflexivity|].
    split; [apply sessionStudent_scanDoc|reflexivity].
  - fold (markAttendance qrToken studentId now coll). intros H200.
    destruct (decodeAt qrToken now) as [decoded|] eqn:Hdec.
    2:{ now apply (markAttendance_undecoded _ studentId _ coll) in Hdec as [_ Hne]. }
    rewrite (markAttendance_branches _ _ _ _ _ Hdec) in H200 |- *.
    destruct (_ <? _); [discriminate|].
    destruct (Attendance.findOne _ coll) eqn:Hfind; [discriminate|].
    destruct (Student_findById studentId) as [student|]; [|discriminate].
    destruct (Teacher_findById _) as [teacher|]; [|discriminate].
    cbv zeta in H200 |- *. destruct (Attendance.validate _); [|discriminate].
    exists decoded. eexists.
    split; [reflexivity|]. split; [assumption|]. split; [reflexivity|].
    split; [apply sessionStudent_markDoc|reflexivity].
Qed.

(** A student redemption answered with anything else writes nothing. *)
Lemma student_reject route qrToken studentId now coll :
  code (fst (handle (studentRequest route qrToken studentId) now coll)) <> 200 ->
  snd (handle (studentRequest route qrToken studentId) now coll) = coll.
Proof.
  destruct route; unfold Routes.handle, read, studentRequest.
  - fold (scanQR qrToken studentId now coll).
    destruct (decodeAt qrToken now) as [decoded|] eqn:Hdec.
    2:{ intros _. now apply (scanQR_undecoded _ studentId _ coll) in Hdec as [-> _]. }
    rewrite (scanQR_branches _ _ _ _ _ Hdec).
    destruct (_ <? _); [reflexivity|].
    destruct (Attendance.findOne _ coll); [reflexivity|].
    cbv zeta. destruct (Attendance.validate _); [|reflexivity].
    intros Hne. now destruct Hne.
  - fold (markAttendance qrToken studentId now coll).
    destruct (decodeAt qrToken now) as [decoded|] eqn:Hdec.
    2:{ intros _. now apply (markAttendance_undecoded _ studentId _ coll) in Hdec as [-> _]. }
    rewrite (markAttendance_branches _ _ _ _ _ Hdec).
    destruct (_ <? _); [reflexivity|].
    destruct (Attendance.findOne _ coll); [reflexivity|].
    destruct (Student_findById studentId) as [student|]; [|reflexivity].
    destruct (Teacher_findById _) as [teacher|]; [|reflexivity].
    cbv zeta. destruct (Attendance.validate _); [|reflexivity].
    intros Hne. now destruct Hne.
Qed.

(** A live token whose key has a document is answered with the duplicate
    outcome of its route. *)
Lemma student_duplicate route qrToken studentId now coll decoded found :
  decodeAt qrToken now = Some decoded ->
  now <= Payload.timestamp decoded + 5 * 60000 ->
  Attendance.findOne (sessionStudent (Payload.sessionId decoded) studentId) coll
    = Some found ->
  handle (studentRequest route qrToken studentId) now coll =
  (duplicateSession (studentRequest route qrToken studentId), coll).
Proof.
  intros Hdec Hlive Hfind.
  destruct route; unfold Routes.handle, read, studentRequest.
  - fold (scanQR qrToken studentId now coll).
    rewrite (scanQR_branches _ _ _ _ _ Hdec), Hfind.
    destruct (Z.ltb_spec (5 * 60000) (now - Payload.timestamp decoded)); [lia|].
    reflexivity.
  - fold (markAttendance qrToken studentId now coll).
    rewrite (markAttendance_branches _ _ _ _ _ Hdec), Hfind.
    destruct (Z.ltb_spec (5 * 60000) (now - Payload.timestamp decoded)); [lia|].
    reflexivity.
Qed.

(** C2. When a student has redeemed a class token (on either route), a
    second redemption of the same token by the same student writes nothing,
    so that exactly one document is stored under the key
    [(sessionId, studentId)]; while the token is still valid the second
    redemption is answered with the "already marked" outcome of its
    route. *)
Theorem class_session_idempotent route1 route2 qrToken studentId now1 now2 coll :
  let first := handle (studentRequest route1 qrToken studentId) now1 coll in
  let second := handle (studentRequest route2 qrToken studentId) now2 (snd first) in
  code (fst first) = 200 ->
  exists decoded doc,
    decodeAt qrToken now1 = Some decoded /\
    keyCount (Payload.sessionId decoded) studentId coll = 0%nat /\
    snd first = coll ++ [doc] /\
    keyCount (Payload.sessionId decoded) studentId (snd first) = 1%nat /\
    snd second = snd first /\
    keyCount (Payload.sessionId decoded) studentId (snd second) = 1%nat /\
    (decodeAt qrToken now2 = Some decoded ->
     now2 <= Payload.timestamp decoded + 5 * 60000 ->
     fst second = duplicateSession (studentRequest route2 qrToken studentId)).
Proof.
  intros first second H200.
  destruct (student_accept _ _ _ _ _ H200)
    as (decoded & doc & Hdec & Hnone & Hsnd & Hkey & _).
  fold first in Hsnd.
  assert (Hfound : Attendance.findOne (sessionStudent (Payload.sessionId decoded) studentId)
                     (snd first) = Some (length coll, doc)).
  { rewrite Hsnd. now apply findOne_last. }
  assert (Hcount0 : keyCount (Payload.sessionId decoded) studentId coll = 0%nat).
  { unfold keyCount. apply findOne_None in Hnone. now rewrite Hnone. }
  assert (Hcount1 : keyCount (Payload.sessionId decoded) studentId (snd first) = 1%nat).
  { unfold keyCount in *. rewrite Hsnd, List.filter_app, length_app, Hcount0.
    simpl. now rewrite Hkey. }
  assert (Hsame : snd second = snd first).
  { apply student_reject. intros H200'.
    destruct (student_accept _ _ _ _ _ H200') as (decoded' & _ & Hdec' & Hnone' & _).
    rewrite (decodeAt_same _ _ _ _ _ Hdec' Hdec) in Hnone'. congruence. }
  exists decoded, doc. repeat split; try assumption.
  - now rewrite Hsame.
  - intros Hdec2 Hlive. unfold second.
    now rewrite (student_duplicate route2 _ _ _ _ _ _ Hdec2 Hlive Hfound).
Qed.

End ClassSession.

(** ** The key [(sessionId, studentId)] *)

Section Uniqueness.

Open Scope Z_scope.

Context (JWT_SECRET : string) (hmac : string -> Jwt.Claims -> string) (tz : Z)
  (Teacher_findById : string -> option Teacher.t)
  (Student_findById : string -> option Student.t)
  (toLocaleTimeString toDateString : Z -> string) (numberToString : Q -> string).

Local Abbreviation scanTeacherQR :=
  (scanTeacherQR JWT_SECRET hmac tz Teacher_findById
     toLocaleTimeString toDateString numberToString).
Local Abbreviation handle :=
  (handle JWT_SECRET hmac tz Teacher_findById Student_findById
     toLocaleTimeString toDateString numberToString).
Local Abbreviation sequential :=
  (sequential JWT_SECRET hmac tz Teacher_findById Student_findById
     toLocaleTimeString toDateString numberToString).
Local Abbreviation checkOutDoc := (checkOutDoc toLocaleTimeString numberToString).

(** A document lies under one key only. *)
Lemma sessionStudent_key s1 u1 s2 u2 d :
  sessionStudent s1 u1 d = true -> sessionStudent s2 u2 d = true -> s1 = s2 /\ u1 = u2.
Proof.
  unfold sessionStudent. rewrite !andb_true_iff, !bool_decide_eq_true.
  intros [E1 E2] [E3 E4]. split; congruence.
Qed.

Lemma keyCount_app sessionId studentId coll d :
  keyCount sessionId studentId (coll ++ [d]) =
  (keyCount sessionId studentId coll
   + if sessionStudent sessionId studentId d then 1 else 0)%nat.
Proof.
  unfold keyCount. rewrite List.filter_app, length_app. simpl.
  now destruct (sessionStudent sessionId studentId d).
Qed.

(** What [scanTeacherQR] does to the collection: nothing, or it appends a
    document without a student, or it rewrites one document by its
    check-out. *)
Lemma scanTeacherQR_effect qrToken user now coll :
  let coll' := snd (scanTeacherQR qrToken user now coll) in
  coll' = coll \/
  (exists doc, coll' = coll ++ [doc] /\ Attendance.studentId doc = None /\
               Attendance.teacherCheckIn doc = Some now /\
               Attendance.date doc = Js.setHours0 tz now /\
               Attendance.validate doc = true) \/
  (exists i existing, coll !! i = Some existing /\
                      Attendance.validate existing = true /\
                      coll' = <[i := checkOutDoc existing now]> coll).
Proof.
  unfold qrController.scanTeacherQR, scanTeacherQR_read.
  destruct (Jwt.present qrToken) as [t|]; [|now left].
  destruct (Jwt.verify hmac t JWT_SECRET now) as [claims|e]; [|now left].
  destruct (negb _); [now left|].
  destruct (Teacher_findById _) as [teacher|]; [|now left].
  destruct (Attendance.findOne _ coll) as [[i existing]|] eqn:Hfind.
  - destruct (Attendance.teacherCheckOut existing); [now left|].
    simpl. unfold Attendance.saveAt.
    destruct (Attendance.validate _) eqn:Hvalid; [|now left].
    right; right. exists i, existing. split; [|split; [exact Hvalid|reflexivity]].
    now apply findOne_Some in Hfind as [Hi _].
  - simpl. unfold Attendance.insertNew.
    destruct (Attendance.validate _) eqn:Hvalid; [|now left].
    right; left. eexists. split; [reflexivity|]. now repeat split.
Qed.

(** A request served alone keeps at most one document under every key. *)
Lemma handle_unique req now coll :
  (forall sessionId studentId, (keyCount sessionId studentId coll <= 1)%nat) ->
  forall sessionId studentId,
    (keyCount sessionId studentId (snd (handle req now coll)) <= 1)%nat.
Proof.
  intros Hinv sessionId studentId.
  assert (Hstudent : forall route qrToken student,
    (keyCount sessionId studentId
       (snd (handle (studentRequest route qrToken student) now coll)) <= 1)%nat).
  { intros route qrToken student.
    destruct (Z.eq_dec
      (code (fst (handle (studentRequest route qrToken student) now coll))) 200)
      as [H200|Hne].
    - destruct (student_accept _ _ _ _ _ _ _ _ _ _ _ _ _ H200)
        as (decoded & doc & _ & Hnone & -> & Hkey & _).
      rewrite keyCount_app.
      destruct (sessionStudent sessionId studentId doc) eqn:Hdoc.
      + destruct (sessionStudent_key _ _ _ _ _ Hdoc Hkey) as [-> ->].
        apply findOne_None in Hnone. unfold keyCount. now rewrite Hnone.
      + specialize (Hinv sessionId studentId). lia.
    - rewrite (student_reject _ _ _ _ _ _ _ _ _ _ _ _ _ Hne). apply Hinv. }
  destruct req as [qrToken student|qrToken student|qrToken user].
  - apply (Hstudent ViaScan).
  - apply (Hstudent ViaMark).
  - unfold Routes.handle, read. fold (scanTeacherQR qrToken user now coll).
    destruct (scanTeacherQR_effect qrToken user now coll)
      as [->|[(doc & -> & Hdoc & _)|(i & existing & Hi & _ & ->)]].
    + apply Hinv.
    + rewrite keyCount_app.
      replace (sessionStudent sessionId studentId doc) with false.
      * specialize (Hinv sessionId studentId). lia.
      * unfold sessionStudent. rewrite Hdoc.
        now rewrite andb_false_r.
    + unfold keyCount.
      rewrite (filter_insert_same _ _ _ _ _ Hi) by reflexivity.
      apply Hinv.
Qed.

(** C6, as the code has it.  The schema declares no unique index: the key
    [(sessionId, studentId)] is guarded by the [findOne] each handler does
    before its [save], and so every collection the server reaches by
    serving its requests one at a time holds at most one document per
    key. *)
Theorem sequential_unique_key coll :
  sequential coll ->
  forall sessionId studentId, (keyCount sessionId studentId coll <= 1)%nat.
Proof.
  induction 1 as [|coll req now _ IH].
  - intros sessionId studentId. unfold keyCount. simpl. lia.
  - now apply handle_unique.
Qed.

(** *** Teacher documents in the collections the server reaches *)

Local Abbreviation served :=
  (served JWT_SECRET hmac tz Teacher_findById Student_findById
     toLocaleTimeString toDateString numberToString).

(** A request served alone keeps a property of documents that its new
    document has and that a check-out does not take away. *)
Lemma handle_Forall (P : Attendance.t -> bool) req now coll :
  (forall d, Attendance.attendanceType d = Attendance.student -> P d = true) ->
  (forall d, Attendance.attendanceType d = Attendance.teacher ->
             Attendance.teacherCheckIn d = Some now ->
             Attendance.date d = Js.setHours0 tz now ->
             Attendance.validate d = true -> P d = true) ->
  (forall d, P d = true -> P (checkOutDoc d now) = true) ->
  Forall (fun d => P d = true) coll ->
  Forall (fun d => P d = true) (snd (handle req now coll)).
Proof.
  intros Hstudent Hteacher Hout Hcoll.
  assert (Hroute : forall route qrToken student,
    Forall (fun d => P d = true)
      (snd (handle (studentRequest route qrToken student) now coll))).
  { intros route qrToken student.
    destruct (Z.eq_dec
      (code (fst (handle (studentRequest route qrToken student) now coll))) 200)
      as [H200|Hne].
    - destruct (student_accept _ _ _ _ _ _ _ _ _ _ _ _ _ H200)
        as (decoded & doc & _ & _ & -> & _ & Htype).
      apply Forall_app. split; [assumption|]. constructor; [|constructor].
      now apply Hstudent.
    - now rewrite (student_reject _ _ _ _ _ _ _ _ _ _ _ _ _ Hne). }
  destruct req as [qrToken student|qrToken student|qrToken user].
  - apply (Hroute ViaScan).
  - apply (Hroute ViaMark).
  - unfold Routes.handle, read. fold (scanTeacherQR qrToken user now coll).
    pose proof (scanTeacherQR_effect qrToken user now coll) as Heffect.
    destruct Heffect
      as [->|[(doc & -> & _ & Hin & Hdate & Hvalid)|(i & existing & Hi & _ & ->)]].
    + assumption.
    + apply Forall_app. split; [assumption|]. constructor; [|constructor].
      destruct (Attendance.attendanceType doc) eqn:Htype.
      * now apply Hstudent.
      * now apply Hteacher.
    + apply Forall_insert; [assumption|]. apply Hout.
      now apply (Forall_lookup_1 _ _ _ _ Hcoll Hi).
Qed.

(** Every teacher document of a collection the server reaches one request at
    a time is ready for its check-out. *)
Lemma sequential_checkOutReady coll :
  sequential coll -> Forall (fun d => checkOutReady d = true) coll.
Proof.
  induction 1 as [|coll req now _ IH]; [constructor|].
  apply handle_Forall; [| | |assumption]; unfold checkOutReady.
  - now intros d ->.
  - intros d -> -> _ ->. reflexivity.
  - intros d. simpl. destruct (Attendance.attendanceType d); [reflexivity|].
    now rewrite validate_checkOutDoc.
Qed.

(** So the document [scanTeacherQR] finds for a check-out has its
    [teacherCheckIn] and passes validation. *)
Lemma sequential_check_out_ready coll teacherId today i existing :
  sequential coll ->
  Attendance.findOne (teacherToday teacherId today) coll = Some (i, existing) ->
  (exists checkIn, Attendance.teacherCheckIn existing = Some checkIn) /\
  Attendance.validate existing = true.
Proof.
  intros Hseq Hfind. apply findOne_Some in Hfind as (Hi & Hmatch & _).
  pose proof (Forall_lookup_1 _ _ _ _ (sequential_checkOutReady coll Hseq) Hi) as Hready.
  unfold teacherToday in Hmatch. rewrite !andb_true_iff, !bool_decide_eq_true in Hmatch.
  destruct Hmatch as [_ Htype]. unfold checkOutReady in Hready. rewrite Htype in Hready.
  apply andb_prop in Hready as [Hin Hvalid].
  destruct (Attendance.teacherCheckIn existing) as [checkIn|]; [|discriminate].
  split; [now exists checkIn|assumption].
Qed.

(** No teacher document is dated after the clock. *)
Lemma served_datedBy t coll :
  served t coll -> Forall (fun d => datedBy t d = true) coll.
Proof.
  induction 1 as [|t coll req now _ IH Hclock]; [constructor|].
  apply handle_Forall; unfold datedBy.
  - now intros d ->.
  - intros d -> _ -> _. apply Z.leb_le. unfold Js.setHours0.
    pose proof (Z.mod_pos_bound (now + tz) 86400000). lia.
  - intros d. simpl. now destruct (Attendance.attendanceType d).
  - eapply Forall_impl; [exact IH|]. intros d. unfold datedBy.
    destruct (Attendance.attendanceType d); [reflexivity|].
    rewrite !Z.leb_le. lia.
Qed.

(** A day starts in the state NONE for every teacher: when all requests so
    far were served before the midnight [today], no teacher has a document
    for [today]. *)
Lemma day_starts_empty t coll teacherId today :
  served t coll -> t < today -> todayCount teacherId today coll = 0%nat.
Proof.
  intros Hserved Hbefore. apply served_datedBy in Hserved.
  unfold todayCount. induction Hserved as [|d coll Hd _ IH]; [reflexivity|].
  simpl. replace (teacherToday teacherId today d) with false; [assumption|].
  symmetry. unfold teacherToday, datedBy in *.
  destruct (Attendance.attendanceType d).
  - now rewrite andb_false_r.
  - apply Z.leb_le in Hd.
    replace (today <=? Attendance.date d) with false
      by (symmetry; apply Z.leb_gt; lia).
    now rewrite andb_false_r.
Qed.

End Uniqueness.

(** ** Tokens *)

Section Tokens.

Open Scope Z_scope.

Context (JWT_SECRET : string) (hmac : string -> Jwt.Claims -> string) (tz : Z)
  (Teacher_findById : string -> option Teacher.t)
  (Student_findById : string -> option Student.t)
  (toLocaleTimeString toDateString : Z -> string) (numberToString : Q -> string).

Local Abbreviation generateQR := (generateQR JWT_SECRET hmac Teacher_findById).
Local Abbreviation generateTeacherSelfQR :=
  (generateTeacherSelfQR JWT_SECRET hmac Teacher_findById).
Local Abbreviation scanTeacherQR :=
  (scanTeacherQR JWT_SECRET hmac tz Teacher_findById
     toLocaleTimeString toDateString numberToString).
Local Abbreviation scanQR := (scanQR JWT_SECRET hmac tz).
Local Abbreviation markAttendance :=
  (markAttendance JWT_SECRET hmac Teacher_findById Student_findById
     toLocaleTimeString numberToString).
Local Abbreviation decodeAt := (decodeAt JWT_SECRET hmac).

(** A token verified with the secret it was signed with comes back with the
    payload it was signed over until its [exp] second begins. *)
Lemma verify_sign (p : Payload.t) (secret : string) (expiresIn issued now : Z) :
  Jwt.verify hmac (Jwt.sign hmac p secret expiresIn issued) secret now =
  if issued / 1000 + expiresIn <=? now / 1000
  then inr Jwt.TokenExpiredError
  else inl {| Jwt.payload := p; Jwt.iat := issued / 1000;
              Jwt.exp := issued / 1000 + expiresIn |}.
Proof.
  unfold Jwt.verify, Jwt.sign. now rewrite String.eqb_refl.
Qed.

Lemma present_sign (p : Payload.t) (secret : string) (expiresIn issued : Z) :
  Jwt.present (Some (Jwt.sign hmac p secret expiresIn issued))
  = Some (Jwt.sign hmac p secret expiresIn issued).
Proof. reflexivity. Qed.

(** A signature other than the keyed hash of the claims is refused whatever
    the claims say. *)
Lemma verify_bad_signature (c : Jwt.Claims) (s secret : string) (now : Z) :
  s <> hmac secret c ->
  Jwt.verify hmac (Jwt.Compact c s) secret now
  = inr (Jwt.JsonWebTokenError "invalid signature").
Proof.
  intros Hne. unfold Jwt.verify.
  destruct (String.eqb_spec s (hmac secret c)); [contradiction|reflexivity].
Qed.

Lemma accepts_sign (p : Payload.t) (secret : string) (expiresIn issued now : Z) :
  Jwt.accepts hmac (Jwt.sign hmac p secret expiresIn issued) secret now = true
  <-> now / 1000 < issued / 1000 + expiresIn.
Proof.
  unfold Jwt.accepts. rewrite verify_sign.
  destruct (Z.leb_spec (issued / 1000 + expiresIn) (now / 1000)); split;
    intros; (discriminate || lia || reflexivity).
Qed.

(** C8. The validity window of an issued token depends on the kind of
    session alone: whatever the request, a class-session token carries
    [exp = iat + 5 minutes] and a teacher-self token [exp = iat + 2 minutes],
    with [iat] the second of its [timestamp], and [jwt.verify] accepts the
    token exactly until that [exp]. *)
Theorem ttl_fixed_by_kind :
  (forall subject className section period teacherId institutionCode sessionId now qrToken,
     issuedToken (generateQR subject className section period teacherId institutionCode
                    sessionId now) = Some qrToken ->
     Jwt.window qrToken = Some (now / 1000, now / 1000 + 5 * 60) /\
     (exists claims, Jwt.verify hmac qrToken JWT_SECRET now = inl claims /\
                     Payload.timestamp (Jwt.payload claims) = now /\
                     Payload.type (Jwt.payload claims) = None) /\
     forall later, Jwt.accepts hmac qrToken JWT_SECRET later = true
                   <-> later / 1000 < now / 1000 + 5 * 60) /\
  (forall teacherId institutionCode sessionId now qrToken,
     issuedToken (generateTeacherSelfQR teacherId institutionCode sessionId now)
     = Some qrToken ->
     Jwt.window qrToken = Some (now / 1000, now / 1000 + 2 * 60) /\
     (exists claims, Jwt.verify hmac qrToken JWT_SECRET now = inl claims /\
                     Payload.timestamp (Jwt.payload claims) = now /\
                     Payload.type (Jwt.payload claims) = Some "teacher_attendance") /\
     forall later, Jwt.accepts hmac qrToken JWT_SECRET later = true
                   <-> later / 1000 < now / 1000 + 2 * 60).
Proof.
  split.
  - intros subject className section period teacherId institutionCode sessionId now qrToken.
    unfold qrController.generateQR.
    destruct (_ || _); [discriminate|].
    destruct (Teacher_findById teacherId) as [teacher|]; [|discriminate].
    unfold issuedToken; simpl. intros [= <-].
    split; [reflexivity|]. split.
    + eexists. rewrite verify_sign.
      destruct (Z.leb_spec (now / 1000 + Jwt.minutes 5) (now / 1000)) as [H|H];
        [unfold Jwt.minutes in H; lia|].
      now repeat split.
    + intros later. apply accepts_sign.
  - intros teacherId institutionCode sessionId now qrToken.
    unfold qrController.generateTeacherSelfQR.
    destruct (Teacher_findById teacherId) as [teacher|]; [|discriminate].
    unfold issuedToken; simpl. intros [= <-].
    split; [reflexivity|]. split.
    + eexists. rewrite verify_sign.
      destruct (Z.leb_spec (now / 1000 + Jwt.minutes 2) (now / 1000)) as [H|H];
        [unfold Jwt.minutes in H; lia|].
      now repeat split.
    + intros later. apply accepts_sign.
Qed.

(** The errors with which [jwt.verify] refuses a string that is not the
    compact form of signed claims are neither "invalid signature" nor the
    expiry. *)
Lemma refused_structural raw defect :
  Jwt.refused raw defect <> Jwt.TokenExpiredError /\
  Jwt.refused raw defect <> Jwt.JsonWebTokenError "invalid signature".
Proof.
  unfold Jwt.refused.
  destruct (String.eqb raw ""); [split; discriminate|].
  destruct (negb _); [split; discriminate|].
  destruct defect; split; discriminate.
Qed.

Lemma seconds_after issuedAt expiresIn now :
  issuedAt + expiresIn * 1000 <= now -> issuedAt / 1000 + expiresIn <= now / 1000.
Proof.
  intros H. rewrite <- Z.div_add by lia. apply Z.div_le_mono; lia.
Qed.


(** C5.  For every token handed to a redemption endpoint, [jwt.verify] tells
    the three failures apart: it throws [TokenExpiredError] exactly for a
    token whose signature is the keyed hash of its claims and whose [exp]
    second has come, "invalid signature" exactly for the compact form with
    another signature, also when its [exp] has passed, since the signature
    is looked at first, and one of the errors for a string that is not the
    compact form of signed claims exactly for such a string.  The handlers
    answer from their [catch] and write nothing: [scanQR] by [error.name],
    [scanTeacherQR] and [markAttendance] with one message each. *)
Theorem token_failures qrToken t error studentId user now coll :
  Jwt.present qrToken = Some t ->
  Jwt.verify hmac t JWT_SECRET now = inr error ->
  (error = Jwt.TokenExpiredError <->
   exists c, t = Jwt.Compact c (hmac JWT_SECRET c) /\ Jwt.exp c <= now / 1000) /\
  (error = Jwt.JsonWebTokenError "invalid signature" <->
   exists c s, t = Jwt.Compact c s /\ s <> hmac JWT_SECRET c) /\
  (error <> Jwt.TokenExpiredError /\
   error <> Jwt.JsonWebTokenError "invalid signature" <->
   exists raw defect, t = Jwt.Other raw defect /\ error = Jwt.refused raw defect) /\
  (forall p expiresIn issuedAt,
     issuedAt + expiresIn * 1000 <= now ->
     Jwt.verify hmac (Jwt.sign hmac p JWT_SECRET expiresIn issuedAt) JWT_SECRET now
     = inr Jwt.TokenExpiredError) /\
  (forall c s,
     s <> hmac JWT_SECRET c -> Jwt.exp c <= now / 1000 ->
     Jwt.verify hmac (Jwt.Compact c s) JWT_SECRET now
     = inr (Jwt.JsonWebTokenError "invalid signature")) /\
  scanQR qrToken studentId now coll =
    (match error with
     | Jwt.TokenExpiredError => json 400 false "QR code has expired" NoData
     | Jwt.JsonWebTokenError _ => json 400 false "Invalid QR code" NoData
     | Jwt.SyntaxError =>
         json 500 false "Failed to scan QR code" (ErrorMessage (JwtExn Jwt.SyntaxError))
     end, coll) /\
  scanTeacherQR qrToken user now coll =
    (json 401 false "Invalid or expired QR code" NoData, coll) /\
  markAttendance qrToken studentId now coll =
    (json 401 false "QR code expired or invalid. Please ask teacher for a new one." NoData,
     coll).
Proof.
  intros Hpresent Hverify.
  assert (Hcases :
    (exists c, t = Jwt.Compact c (hmac JWT_SECRET c) /\ Jwt.exp c <= now / 1000 /\
               error = Jwt.TokenExpiredError) \/
    (exists c s, t = Jwt.Compact c s /\ s <> hmac JWT_SECRET c /\
                 error = Jwt.JsonWebTokenError "invalid signature") \/
    (exists raw defect, t = Jwt.Other raw defect /\ error = Jwt.refused raw defect)).
  { destruct t as [c s|raw defect]; simpl in Hverify.
    - destruct (String.eqb_spec s (hmac JWT_SECRET c)) as [->|Hne]; simpl in Hverify.
      + destruct (Z.leb_spec (Jwt.exp c) (now / 1000)); [|discriminate].
        left. exists c. now injection Hverify as <-.
      + right; left. exists c, s. now injection Hverify as <-.
    - right; right. exists raw, defect. now injection Hverify as <-. }
  split; [|split; [|split; [|split; [|split; [|split; [|split]]]]]].
  - split.
    + intros ->.
      destruct Hcases as [(c & -> & Hexp & _)|[(c & s & _ & _ & Herr)|
                          (raw & defect & _ & Herr)]].
      * now exists c.
      * discriminate Herr.
      * destruct (refused_structural raw defect); congruence.
    + intros (c & -> & _).
      destruct Hcases as [(c' & _ & _ & ->)|[(c' & s & Ht & Hne & _)|
                          (raw & defect & Ht & _)]].
      * reflexivity.
      * injection Ht as <- <-. contradiction.
      * discriminate Ht.
  - split.
    + intros ->.
      destruct Hcases as [(c & _ & _ & Herr)|[(c & s & -> & Hne & _)|
                          (raw & defect & _ & Herr)]].
      * discriminate Herr.
      * now exists c, s.
      * destruct (refused_structural raw defect); congruence.
    + intros (c & s & -> & Hne).
      destruct Hcases as [(c' & Ht & _)|[(c' & s' & _ & _ & ->)|
                          (raw & defect & Ht & _)]].
      * injection Ht as Hc Hs. subst. contradiction.
      * reflexivity.
      * discriminate Ht.
  - split.
    + intros [Hexpired Hsignature].
      destruct Hcases as [(c & _ & _ & ->)|[(c & s & _ & _ & ->)|Hother]];
        [contradiction|contradiction|assumption].
    + intros (raw & defect & _ & ->). apply refused_structural.
  - intros p expiresIn issuedAt Hage. rewrite verify_sign.
    pose proof (seconds_after issuedAt expiresIn now Hage).
    now destruct (Z.leb_spec (issuedAt / 1000 + expiresIn) (now / 1000)); [|lia].
  - intros c s Hne _. now apply verify_bad_signature.
  - unfold qrController.scanQR, scanQR_read. rewrite Hpresent, Hverify.
    now destruct error.
  - unfold qrController.scanTeacherQR, scanTeacherQR_read. now rewrite Hpresent, Hverify.
  - unfold attendanceController.markAttendance, markAttendance_read. now rewrite Hpresent, Hverify.
Qed.

End Tokens.

(** * Runs on the small installation *)

Section Runs.

Open Scope Z_scope.

Local Abbreviation installation theorem :=
  (theorem Demo.secret Demo.hmac Demo.tz Demo.teachers Demo.students
     Demo.clockText Demo.dayText Demo.numberText) (only parsing).

(** C1 at 09:00:01, 09:30:00 and 17:00:01 of one day. *)
Lemma teacher_day_state_machine_run :
  let first := Demo.scanTeacherQR Demo.morning None (Demo.nine + 1000) [] in
  let second := Demo.scanTeacherQR Demo.halfPast None Demo.halfPastNine (snd first) in
  exists checkedIn checkedOut,
    snd first = [checkedIn] /\
    snd second = [checkedOut] /\
    Attendance.teacherCheckOut checkedOut = Some Demo.halfPastNine /\
    todayCount "teacher-1" Demo.midnight (snd second) = 1%nat.
Proof.
  intros first second.
  destruct (installation teacher_day_state_machine
              "teacher-1" Demo.asha Demo.midnight []
              Demo.morning None (Demo.nine + 1000)
              Demo.halfPast None Demo.halfPastNine
              [(Demo.evening, None, Demo.nine + 8 * 3600000 + 1000)])
    as (checkedIn & checkedOut & _ & H2 & _ & _ & _ & _ & _ & _ & H4 & _ & _ & H5 & _ & H6 & _).
  - reflexivity.
  - reflexivity.
  - vm_compute. reflexivity.
  - vm_compute. discriminate.
  - vm_compute. reflexivity.
  - repeat constructor.
  - exists checkedIn, checkedOut.
    split; [exact H2|]. split; [exact H4|]. split; [exact H5|exact H6].
Defined.

(** C2 with the first redemption on [/scan] after 45 seconds and the second on
    [/mark] five seconds later. *)
Lemma class_session_idempotent_run :
  let first := Demo.handle (PostScan Demo.classQr "student-1") (Demo.nine + 45000) [] in
  let second := Demo.handle (PostMark Demo.classQr "student-1") (Demo.nine + 50000) (snd first) in
  snd second = snd first /\
  keyCount "a1b2" "student-1" (snd second) = 1%nat /\
  fst second = json 400 false "Attendance already marked for this class" NoData.
Proof.
  intros first second.
  destruct (installation class_session_idempotent ViaScan ViaMark
              Demo.classQr "student-1" (Demo.nine + 45000) (Demo.nine + 50000) [])
    as (decoded & doc & Hdec & _ & _ & _ & Hsame & Hcount & Hdup).
  - vm_compute. reflexivity.
  - vm_compute in Hdec. injection Hdec as <-.
    split; [exact Hsame|]. split; [exact Hcount|].
    apply Hdup; vm_compute; [reflexivity|discriminate].
Defined.

(** C3 at 60.001 seconds. *)
Lemma lateness_boundary_run :
  exists doc,
    snd (Demo.markAttendance Demo.classQr "student-1" (Demo.nine + 60001) []) = [doc] /\
    Attendance.status doc = Attendance.late /\
    Attendance.lateMinutes doc = 1.
Proof.
  destruct (lateness_boundary Demo.secret Demo.hmac Demo.teachers Demo.students
              Demo.clockText Demo.numberText
              Demo.classQr "student-1" (Demo.nine + 60001) [])
    as (decoded & doc & Hdec & Hsnd & _ & _ & _ & _ & _ & Hlate & _).
  - vm_compute. reflexivity.
  - vm_compute in Hdec. injection Hdec as <-.
    exists doc. split; [exact Hsnd|]. apply Hlate. reflexivity.
Defined.



(** C5 on a teacher token three minutes old. *)
Lemma token_failures_run :
  Demo.scanQR Demo.morning "student-1" (Demo.nine + 180000) [] =
    (json 400 false "QR code has expired" NoData, []) /\
  Demo.scanTeacherQR Demo.morning None (Demo.nine + 180000) [] =
    (json 401 false "Invalid or expired QR code" NoData, []).
Proof.
  destruct (token_failures Demo.secret Demo.hmac Demo.tz Demo.teachers Demo.students
              Demo.clockText Demo.dayText Demo.numberText
              Demo.morning (Demo.selfToken "s1" Demo.nine) Jwt.TokenExpiredError
              "student-1" None (Demo.nine + 180000) [])
    as (_ & _ & _ & _ & _ & Hscan & Hteacher & _).
  - reflexivity.
  - vm_compute. reflexivity.
  - split; [exact Hscan|exact Hteacher].
Defined.

(** C6, as the code has it, on two scans of one token by one student served
    one after the other. *)
Lemma sequential_unique_key_run :
  let first := Demo.handle (PostScan Demo.classQr "student-1") (Demo.nine + 45000) [] in
  let second := Demo.handle (PostScan Demo.classQr "student-1") (Demo.nine + 45001) (snd first) in
  (keyCount "a1b2" "student-1" (snd second) <= 1)%nat.
Proof.
  intros first second.
  apply (installation sequential_unique_key).
  apply sequential_handle, sequential_handle, sequential_empty.
Defined.

(** C7, as the code has it, on a check-in at 09:00:00 and a check-out at
    09:30:00. *)
Lemma workHours_two_decimals_run :
  exists stored,
    snd (Demo.scanTeacherQR Demo.halfPast None Demo.halfPastNine [Demo.checkedInAtNine])
      !! 0%nat = Some stored /\
    (Attendance.workHours stored == 0.50)%Q.
Proof.
  destruct (workHours_two_decimals Demo.secret Demo.hmac Demo.tz Demo.teachers
              Demo.clockText Demo.dayText Demo.numberText
              Demo.halfPast None Demo.halfPastNine [Demo.checkedInAtNine]
              Demo.halfPastPayload Demo.asha 0%nat Demo.checkedInAtNine Demo.nine)
    as (stored & Hstored & _ & _ & Hhundredths & _ & _ & Hhalf).
  - vm_compute. reflexivity.
  - reflexivity.
  - reflexivity.
  - vm_compute. reflexivity.
  - reflexivity.
  - reflexivity.
  - reflexivity.
  - vm_compute. split; [intro; discriminate|reflexivity].
  - exists stored. split; [exact Hstored|].
    rewrite Hhundredths, Hhalf by reflexivity. reflexivity.
Defined.

(** C7 as the specification states it fails when the exact hours lie
    half-way between two hundredths.  Fifty-four seconds are 0.015 hours,
    which rounded to two decimals are 0.02; the stored [workHours] is 0.01,
    since the double nearest to 0.015 lies below it.  Ninety seconds, 0.025
    hours, are stored as 0.03: no rule for the halves of the exact hours
    gives both. *)
Lemma workHours_half_way :
  let hours (elapsed : Z) := (inject_Z elapsed / inject_Z 3600000)%Q in
  let rounded (elapsed : Z) := Js.parseFloat (Js.toFixed2 (hours elapsed)) in
  let checkOut (elapsed : Z) :=
    snd (Demo.scanTeacherQR Demo.morning None (Demo.nine + elapsed)
           [Demo.checkedInAtNine]) in
  Qeq (hours 54000) 0.015%Q /\
  Qeq (rounded 54000) 0.02%Q /\
  (exists stored,
     checkOut 54000 !! 0%nat = Some stored /\
     Attendance.teacherCheckIn stored = Some Demo.nine /\
     Attendance.teacherCheckOut stored = Some (Demo.nine + 54000) /\
     Qeq (Attendance.workHours stored) 0.01%Q /\
     ~ Qeq (Attendance.workHours stored) (rounded 54000)) /\
  Qeq (hours 90000) 0.025%Q /\
  (exists stored,
     checkOut 90000 !! 0%nat = Some stored /\
     Qeq (Attendance.workHours stored) 0.03%Q).
Proof.
  cbv zeta. split; [reflexivity|]. split; [reflexivity|]. split; [|split; [reflexivity|]].
  - eexists. split; [vm_compute; reflexivity|].
    split; [reflexivity|]. split; [reflexivity|]. split; [reflexivity|].
    intros H. vm_compute in H. discriminate H.
  - eexists. split; [vm_compute; reflexivity|]. reflexivity.
Qed.

(** C8 on a class token and a teacher token issued at 09:00:00. *)
Lemma ttl_fixed_by_kind_run :
  Jwt.window (Demo.classToken Demo.nine)
    = Some (Demo.nine / 1000, Demo.nine / 1000 + 5 * 60) /\
  Jwt.window (Demo.selfToken "s1" Demo.nine)
    = Some (Demo.nine / 1000, Demo.nine / 1000 + 2 * 60).
Proof.
  destruct (ttl_fixed_by_kind Demo.secret Demo.hmac Demo.teachers) as [Hclass Hself].
  split.
  - apply (Hclass (Some "Math") (Some "10A") None (Some 2) "teacher-1" (Some "INST01")
             "a1b2" Demo.nine). reflexivity.
  - apply (Hself "teacher-1" (Some "INST01") "s1" Demo.nine). reflexivity.
Defined.

(** C9 on a check-in at 09:00:00 and a check-out at 09:30:00. *)
Lemma check_out_reports_failure_run :
  let answer := Demo.scanTeacherQR Demo.halfPast None Demo.halfPastNine [Demo.checkedInAtNine] in
  code (fst answer) = 200 /\ success (fst answer) = false /\
  exists updated,
    snd answer !! 0%nat = Some updated /\
    Attendance.teacherCheckOut updated = Some Demo.halfPastNine.
Proof.
  intros answer.
  destruct (check_out_reports_failure Demo.secret Demo.hmac Demo.tz Demo.teachers
              Demo.clockText Demo.dayText Demo.numberText
              Demo.halfPast None Demo.halfPastNine [Demo.checkedInAtNine]
              Demo.halfPastPayload Demo.asha 0%nat Demo.checkedInAtNine Demo.nine)
    as (Hcode & Hsuccess & _ & _ & updated & _ & _ & Hupdated & Hout & _);
    try (vm_compute; reflexivity).
  split; [exact Hcode|]. split; [exact Hsuccess|].
  exists updated. split; [exact Hupdated|exact Hout].
Defined.

(** C10 four minutes and fifty-nine seconds after issuance. *)
Lemma scanQR_always_present_run :
  exists doc,
    snd (Demo.scanQR Demo.classQr "student-1" (Demo.nine + 299000) []) = [doc] /\
    Attendance.status doc = Attendance.present /\
    Attendance.lateMinutes doc = 0.
Proof.
  destruct (scanQR_always_present Demo.secret Demo.hmac Demo.tz
              Demo.classQr "student-1" (Demo.nine + 299000) [])
    as (decoded & doc & _ & Hsnd & _ & Hstatus & Hlate & _).
  - vm_compute. reflexivity.
  - exists doc. split; [exact Hsnd|]. split; [exact Hstatus|exact Hlate].
Defined.

(** C6 as the specification states it fails.  The collection takes a second
    document under a key it already holds, and when two scans of one token by
    one student are in flight together, both do their [findOne] before
    either does its [save] and the collection ends with two documents under
    the key. *)
Lemma concurrent_scans_duplicate_key :
  let doc := scanDoc Demo.tz (Demo.mathClass Demo.nine) "student-1" (Demo.nine + 45000) in
  Attendance.insertNew doc [doc] = Some (1%nat, [doc; doc]) /\
  exists coll,
    Demo.interleaved coll /\
    keyCount "a1b2" "student-1" coll = 2%nat.
Proof.
  split; [reflexivity|].
  set (scan := PostScan Demo.classQr "student-1").
  set (s1 := {| collection := [];
                inflight := [Demo.read scan (Demo.nine + 45000) []] |}).
  set (s2 := {| collection := [];
                inflight := [Demo.read scan (Demo.nine + 45001) [];
                             Demo.read scan (Demo.nine + 45000) []] |}).
  set (s3 := {| collection :=
                  snd (commit (Demo.read scan (Demo.nine + 45001) []) []);
                inflight := [Demo.read scan (Demo.nine + 45000) []] |}).
  set (s4 := {| collection :=
                  snd (commit (Demo.read scan (Demo.nine + 45000) []) (collection s3));
                inflight := [] |}).
  exists (collection s4). split; [|vm_compute; reflexivity].
  exists s4. split; [|reflexivity].
  apply rtc_l with s1; [apply (Routes.step_read _ _ _ _ _ _ _ _
                                 {| collection := []; inflight := [] |} scan)|].
  apply rtc_l with s2; [apply (Routes.step_read _ _ _ _ _ _ _ _ s1 scan)|].
  apply rtc_l with s3; [apply (Routes.step_save _ _ _ _ _ _ _ _ s2 [] _ _ eq_refl)|].
  apply rtc_l with s4; [apply (Routes.step_save _ _ _ _ _ _ _ _ s3 [] _ _ eq_refl)|].
  apply rtc_refl.
Qed.

End Runs.
(** * More of the controllers *)

(** ** What a request does to the collection *)

Section Effects.

Open Scope Z_scope.

Context (JWT_SECRET : string) (hmac : string -> Jwt.Claims -> string) (tz : Z)
  (Teacher_findById : string -> option Teacher.t)
  (Student_findById : string -> option Student.t)
  (toLocaleTimeString toDateString : Z -> string) (numberToString : Q -> string).

Local Abbreviation scanTeacherQR :=
  (scanTeacherQR JWT_SECRET hmac tz Teacher_findById
     toLocaleTimeString toDateString numberToString).
Local Abbreviation scanQR := (scanQR JWT_SECRET hmac tz).
Local Abbreviation markAttendance :=
  (markAttendance JWT_SECRET hmac Teacher_findById Student_findById
     toLocaleTimeString numberToString).
Local Abbreviation decodeAt := (decodeAt JWT_SECRET hmac).
Local Abbreviation handle :=
  (handle JWT_SECRET hmac tz Teacher_findById Student_findById
     toLocaleTimeString toDateString numberToString).
Local Abbreviation sequential :=
  (sequential JWT_SECRET hmac tz Teacher_findById Student_findById
     toLocaleTimeString toDateString numberToString).
Local Abbreviation served :=
  (served JWT_SECRET hmac tz Teacher_findById Student_findById
     toLocaleTimeString toDateString numberToString).
Local Abbreviation checkOutDoc := (checkOutDoc toLocaleTimeString numberToString).
Local Abbreviation appended := (appended tz toLocaleTimeString numberToString).

(** A request served alone leaves the collection and does not answer 200,
    or appends one valid document and answers 200, or rewrites by its
    check-out the first teacher document of the day, which had none. *)
Lemma handle_effect req now coll :
  let answer := handle req now coll in
  (snd answer = coll /\ code (fst answer) <> 200) \/
  (exists doc,
     snd answer = coll ++ [doc] /\ code (fst answer) = 200 /\
     Attendance.validate doc = true /\ appended now doc) \/
  (exists i existing teacherId,
     Attendance.findOne (teacherToday teacherId (Js.setHours0 tz now)) coll
       = Some (i, existing) /\
     Attendance.teacherCheckOut existing = None /\
     Attendance.validate existing = true /\
     snd answer = <[i := checkOutDoc existing now]> coll /\
     (code (fst answer) = 200 <-> Attendance.teacherCheckIn existing <> None)).
Proof.
  destruct req as [qrToken studentId|qrToken studentId|qrToken user];
    unfold Routes.handle, read; cbv zeta.
  - fold (scanQR qrToken studentId now coll).
    destruct (decodeAt qrToken now) as [decoded|] eqn:Hdec.
    2:{ left. now apply scanQR_undecoded. }
    rewrite (scanQR_branches JWT_SECRET hmac tz _ _ _ _ _ Hdec).
    destruct (_ <? _); [now left|].
    destruct (Attendance.findOne _ coll); [now left|].
    cbv zeta. destruct (Attendance.validate _) eqn:Hvalid; [|now left].
    right; left. eexists. split; [reflexivity|]. split; [reflexivity|].
    split; [exact Hvalid|]. constructor.
  - fold (markAttendance qrToken studentId now coll).
    destruct (decodeAt qrToken now) as [decoded|] eqn:Hdec.
    2:{ left. now apply markAttendance_undecoded. }
    rewrite (markAttendance_branches JWT_SECRET hmac Teacher_findById Student_findById
               toLocaleTimeString numberToString _ _ _ _ _ Hdec).
    destruct (Z.ltb_spec (5 * 60000) (now - Payload.timestamp decoded)); [now left|].
    destruct (Attendance.findOne _ coll); [now left|].
    destruct (Student_findById studentId) as [student|]; [|now left].
    destruct (Teacher_findById _) as [teacher|]; [|now left].
    cbv zeta. destruct (Attendance.validate _) eqn:Hvalid; [|now left].
    right; left. eexists. split; [reflexivity|]. split; [reflexivity|].
    split; [exact Hvalid|]. now constructor.
  - fold (scanTeacherQR qrToken user now coll).
    unfold qrController.scanTeacherQR, scanTeacherQR_read.
    destruct (Jwt.present qrToken) as [t|]; [|now left].
    destruct (Jwt.verify hmac t JWT_SECRET now) as [claims|e]; [|now left].
    destruct (negb _); [now left|].
    destruct (Teacher_findById _) as [teacher|]; [|now left].
    cbv zeta.
    destruct (Attendance.findOne _ coll) as [[i existing]|] eqn:Hfind.
    + destruct (Attendance.teacherCheckOut existing) eqn:Hout; [now left|].
      simpl. unfold Attendance.saveAt.
      destruct (Attendance.validate _) eqn:Hvalid; [|now left].
      right; right. exists i, existing, (Payload.teacherId (Jwt.payload claims)).
      split; [exact Hfind|]. split; [exact Hout|]. split; [exact Hvalid|].
      split; [reflexivity|].
      simpl. destruct (Attendance.teacherCheckIn existing); simpl; split;
        intros; congruence.
    + simpl. unfold Attendance.insertNew.
      destruct (Attendance.validate _) eqn:Hvalid; [|now left].
      right; left. eexists. split; [reflexivity|]. split; [reflexivity|].
      split; [exact Hvalid|]. constructor.
Qed.

(** A property of documents that every appended document has and a
    check-out keeps holds after a request when it held before. *)
Lemma handle_preserves (P : Attendance.t -> Prop) req now coll :
  (forall doc, Attendance.validate doc = true -> appended now doc -> P doc) ->
  (forall teacherId d,
     teacherToday teacherId (Js.setHours0 tz now) d = true ->
     Attendance.teacherCheckOut d = None ->
     P d -> P (checkOutDoc d now)) ->
  Forall P coll -> Forall P (snd (handle req now coll)).
Proof.
  intros Hnew Hout Hcoll.
  destruct (handle_effect req now coll)
    as [[-> _]|[(doc & -> & _ & Hvalid & Hdoc)
               |(i & existing & teacherId & Hfind & Hnone & _ & -> & _)]].
  - assumption.
  - apply Forall_app. split; [assumption|]. constructor; [|constructor].
    now apply Hnew.
  - apply findOne_Some in Hfind as (Hi & Hmatch & _).
    apply Forall_insert; [assumption|].
    apply (Hout teacherId); [assumption|assumption|].
    now apply (Forall_lookup_1 _ _ _ _ Hcoll Hi).
Qed.

Lemma sequential_preserves (P : Attendance.t -> Prop) :
  (forall now doc, Attendance.validate doc = true -> appended now doc -> P doc) ->
  (forall now d,
     Attendance.attendanceType d = Attendance.teacher ->
     Attendance.teacherCheckOut d = None ->
     P d -> P (checkOutDoc d now)) ->
  forall coll, sequential coll -> Forall P coll.
Proof.
  intros Hnew Hout coll. induction 1 as [|coll req now _ IH]; [constructor|].
  apply handle_preserves; [apply Hnew| |assumption].
  intros teacherId d Hmatch Hnone. apply Hout; [|assumption].
  unfold teacherToday in Hmatch. rewrite !andb_true_iff, !bool_decide_eq_true in Hmatch.
  tauto.
Qed.

Lemma served_preserves (P : Z -> Attendance.t -> Prop) :
  (forall t t' d, t <= t' -> P t d -> P t' d) ->
  (forall now doc, Attendance.validate doc = true -> appended now doc -> P now doc) ->
  (forall now d,
     Attendance.attendanceType d = Attendance.teacher ->
     Js.setHours0 tz now <= Attendance.date d ->
     Attendance.teacherCheckOut d = None ->
     P now d -> P now (checkOutDoc d now)) ->
  forall t coll, served t coll -> Forall (P t) coll.
Proof.
  intros Hmono Hnew Hout t coll. induction 1 as [|t coll req now _ IH Hclock]; [constructor|].
  apply handle_preserves; [apply Hnew| |].
  - intros teacherId d Hmatch Hnone. apply Hout; [| |assumption].
    + unfold teacherToday in Hmatch.
      rewrite !andb_true_iff, !bool_decide_eq_true in Hmatch. tauto.
    + unfold teacherToday in Hmatch.
      rewrite !andb_true_iff, Z.leb_le in Hmatch. tauto.
  - eapply Forall_impl; [exact IH|]. intros d. now apply Hmono.
Qed.

(** Local midnight as a multiple of the day. *)
Lemma setHours0_div now :
  Js.setHours0 tz now = 86400000 * ((now + tz) / 86400000) - tz.
Proof.
  unfold Js.setHours0. pose proof (Z.div_mod (now + tz) 86400000). lia.
Qed.

Lemma setHours0_le now : Js.setHours0 tz now <= now < Js.setHours0 tz now + 86400000.
Proof.
  unfold Js.setHours0. pose proof (Z.mod_pos_bound (now + tz) 86400000). lia.
Qed.

(** Two instants in order, the later one not past the day of the earlier,
    are of one day. *)
Lemma same_day earlier later :
  earlier <= later -> Js.setHours0 tz later <= Js.setHours0 tz earlier ->
  Js.setHours0 tz later = Js.setHours0 tz earlier.
Proof.
  rewrite !setHours0_div. intros Hle Hday.
  pose proof (Z.div_le_mono (earlier + tz) (later + tz) 86400000). lia.
Qed.

(** The hours of a day are between 0 and 24. *)
Lemma workHoursOf_bounds checkIn now :
  0 <= now - checkIn < 86400000 -> (0 <= workHoursOf checkIn now <= 24)%Q.
Proof.
  intros Hrange. unfold workHoursOf, Js.parseFloat.
  pose proof (hours_nearest checkIn now) as Hnear. cbv zeta in Hnear.
  change (2 ^ 51) with 2251799813685248 in Hnear. specialize (Hnear ltac:(lia)).
  set (n := Js.toFixed2 (Double.value (Double.hours checkIn now))) in *.
  assert (Hn : 0 <= n <= 2400) by lia.
  unfold Qdiv, Qmult, Qinv, Qle, inject_Z; simpl. lia.
Qed.

(** X1. A request served alone on a collection that the three routes have
    written answers 200 exactly when it changes the collection: no answer
    other than 200 leaves a document behind, and no 200 leaves the
    collection as it was. *)
Theorem written_iff_200 req now coll :
  sequential coll ->
  code (fst (handle req now coll)) = 200 <-> snd (handle req now coll) <> coll.
Proof.
  intros Hseq.
  destruct (handle_effect req now coll)
    as [[Hsame Hcode]|[(doc & Hsnd & Hcode & _)
                      |(i & existing & teacherId & Hfind & Hnone & _ & Hsnd & Hcode)]].
  - split; intros H; [contradiction|]. now destruct H.
  - split; [|intros _; exact Hcode].
    intros _ Heq. rewrite Hsnd in Heq. apply (f_equal length) in Heq.
    rewrite length_app in Heq. simpl in Heq. lia.
  - split.
    + intros _ Heq. rewrite Hsnd in Heq.
      apply findOne_Some in Hfind as (Hi & _ & Hlt).
      apply (f_equal (fun l => l !! i)) in Heq.
      rewrite list_lookup_insert_eq in Heq by assumption.
      rewrite Hi in Heq. injection Heq as Heq.
      apply (f_equal Attendance.teacherCheckOut) in Heq. simpl in Heq. congruence.
    + intros _. apply Hcode.
      destruct (sequential_check_out_ready JWT_SECRET hmac tz Teacher_findById
                  Student_findById toLocaleTimeString toDateString numberToString
                  coll teacherId _ i existing Hseq Hfind) as [[checkIn ->] _].
      discriminate.
Qed.

(** X2. No request removes or moves a document: the collection keeps its
    length or grows by one, every document stays at its position, and the
    only change a document can undergo is the check-out of [scanTeacherQR].
    A student document, a document that has its check-out and a document
    dated before today are never changed again. *)
Theorem documents_kept req now coll i d :
  coll !! i = Some d ->
  let coll' := snd (handle req now coll) in
  (length coll <= length coll' <= length coll + 1)%nat /\
  exists d',
    coll' !! i = Some d' /\
    (d' = d \/ d' = checkOutDoc d now) /\
    (Attendance.attendanceType d = Attendance.student \/
     Attendance.teacherCheckOut d <> None \/
     Attendance.date d < Js.setHours0 tz now -> d' = d).
Proof.
  intros Hd coll'. subst coll'.
  destruct (handle_effect req now coll)
    as [[-> _]|[(doc & -> & _)
               |(j & existing & teacherId & Hfind & Hnone & _ & -> & _)]].
  - split; [lia|]. exists d. now repeat split; try left.
  - rewrite length_app. simpl. split; [lia|]. exists d.
    split; [now apply lookup_app_l_Some|]. now split; [left|].
  - rewrite length_insert. split; [lia|].
    apply findOne_Some in Hfind as (Hj & Hmatch & Hlt).
    destruct (Nat.eq_dec i j) as [->|Hne].
    + assert (existing = d) as -> by congruence.
      exists (checkOutDoc d now).
      split; [now apply list_lookup_insert_eq|]. split; [now right|].
      unfold teacherToday in Hmatch.
      rewrite !andb_true_iff, !bool_decide_eq_true, Z.leb_le in Hmatch.
      destruct Hmatch as [[_ Hdate] Htype].
      intros [H|[H|H]]; [congruence|contradiction|lia].
    + exists d. split; [|now split; [left|]].
      now rewrite list_lookup_insert_ne by congruence.
Qed.

(** The documents of a collection written by the three routes are well
    formed. *)
Lemma sequential_wellFormed coll : sequential coll -> Forall wellFormed coll.
Proof.
  revert coll. apply sequential_preserves; unfold wellFormed.
  - intros now doc Hvalid Hdoc. split; [assumption|].
    destruct Hdoc as [decoded studentId|decoded studentId student Hlive|decoded teacher user].
    + simpl. unfold Attendance.default_lateMinutes.
      split; [now left|]. split; [split; [discriminate|lia]|].
      split; [lia|]. split; [now exists studentId|]. now repeat split.
    + destruct (markDoc_status numberToString decoded studentId student now) as [Hs Hm].
      cbv zeta in Hs, Hm. rewrite Hs, Hm.
      assert (Htype : Attendance.attendanceType
                (markDoc numberToString decoded studentId student
                   (timeDifference now (Payload.timestamp decoded)) now)
              = Attendance.student) by reflexivity.
      rewrite Htype.
      destruct (Z.ltb_spec 60000 (now - Payload.timestamp decoded)) as [Hlate|Hlate].
      * assert (1 <= (now - Payload.timestamp decoded) / 60000 <= 5).
        { split; [apply Z.div_le_lower_bound; lia|apply Z.div_le_upper_bound; lia]. }
        split; [now right|]. split; [split; [lia|reflexivity]|]. split; [lia|].
        split; [now exists studentId|]. now repeat split.
      * split; [now left|]. split; [split; [discriminate|lia]|]. split; [lia|].
        split; [now exists studentId|]. now repeat split.
    + simpl. unfold Attendance.default_lateMinutes.
      split; [now left|]. split; [split; [discriminate|lia]|].
      split; [lia|]. split; [reflexivity|]. split; [reflexivity|].
      split; [reflexivity|]. now exists now.
  - intros now d Htype Hnone (Hvalid & Hstatus & Hlate & Hminutes & Hkind).
    rewrite Htype in Hkind. simpl. rewrite Htype.
    split; [assumption|]. split; [assumption|]. split; [assumption|].
    split; [assumption|]. assumption.
Qed.

(** X3. Every document of a collection written by the three routes passes
    validation, has status [present] or [late], is [late] exactly when its
    [lateMinutes] is at least 1, and has [lateMinutes] between 0 and 5.  A
    student document names its student and has no check-in, check-out or
    work hours; a teacher document names no student and no subject, is
    [present] and has its check-in. *)
Theorem sequential_documents coll i d :
  sequential coll -> coll !! i = Some d ->
  Attendance.validate d = true /\
  (Attendance.status d = Attendance.present \/ Attendance.status d = Attendance.late) /\
  (Attendance.status d = Attendance.late <-> 1 <= Attendance.lateMinutes d) /\
  0 <= Attendance.lateMinutes d <= 5 /\
  match Attendance.attendanceType d with
  | Attendance.student =>
      (exists studentId, Attendance.studentId d = Some studentId) /\
      Attendance.teacherCheckIn d = None /\
      Attendance.teacherCheckOut d = None /\
      Attendance.workHours d = 0%Q
  | Attendance.teacher =>
      Attendance.studentId d = None /\
      Attendance.subject d = None /\
      Attendance.status d = Attendance.present /\
      exists checkIn, Attendance.teacherCheckIn d = Some checkIn
  end.
Proof.
  intros Hseq Hd.
  exact (Forall_lookup_1 _ _ _ _ (sequential_wellFormed coll Hseq) Hd).
Qed.

(** X4. In a zone at a constant offset from UTC, whose days have 24 hours,
    and with a clock that does not run backwards, every document of a
    collection written by the three routes has between 0 and 24 work
    hours, and a document that has its check-out was checked out on the day
    of its check-in, not before it, and stores the hours between the two
    as [toFixed(2)] writes their binary64 quotient. *)
Theorem served_workHours t coll i d :
  served t coll -> coll !! i = Some d ->
  (0 <= Attendance.workHours d <= 24)%Q /\
  forall checkIn checkOut,
    Attendance.teacherCheckIn d = Some checkIn ->
    Attendance.teacherCheckOut d = Some checkOut ->
    checkIn <= checkOut <= t /\
    Js.setHours0 tz checkOut = Js.setHours0 tz checkIn /\
    Attendance.date d = Js.setHours0 tz checkIn /\
    Attendance.workHours d = workHoursOf checkIn checkOut.
Proof.
  intros Hserved Hd.
  set (P := fun (t : Z) (d : Attendance.t) =>
    (0 <= Attendance.workHours d <= 24)%Q /\
    match Attendance.attendanceType d with
    | Attendance.student =>
        Attendance.teacherCheckIn d = None /\ Attendance.teacherCheckOut d = None
    | Attendance.teacher =>
        exists checkIn,
          Attendance.teacherCheckIn d = Some checkIn /\ checkIn <= t /\
          Attendance.date d = Js.setHours0 tz checkIn /\
          forall checkOut, Attendance.teacherCheckOut d = Some checkOut ->
            checkIn <= checkOut <= t /\
            Js.setHours0 tz checkOut = Js.setHours0 tz checkIn /\
            Attendance.workHours d = workHoursOf checkIn checkOut
    end).
  assert (HP : forall t coll, served t coll -> Forall (P t) coll).
  { apply served_preserves; unfold P.
    - intros t1 t2 d0 Hle [Hhours Hkind]. split; [assumption|].
      destruct (Attendance.attendanceType d0); [assumption|].
      destruct Hkind as (checkIn & Hin & Hclock & Hdate & Hout).
      exists checkIn. split; [assumption|]. split; [lia|]. split; [assumption|].
      intros checkOut Hsome. destruct (Hout checkOut Hsome) as (H1 & H2 & H3).
      split; [lia|]. now split.
    - intros now doc _ Hdoc.
      destruct Hdoc as [decoded studentId|decoded studentId student Hlive|decoded teacher user];
        simpl; (split; [split; discriminate|]).
      + now split.
      + now split.
      + exists now. split; [reflexivity|]. split; [lia|]. split; [reflexivity|].
        discriminate.
    - intros now d0 Htype Htoday Hnone [Hhours Hkind].
      rewrite Htype in Hkind. destruct Hkind as (checkIn & Hin & Hclock & Hdate & _).
      assert (Hday : Js.setHours0 tz now = Js.setHours0 tz checkIn).
      { apply same_day; [assumption|]. now rewrite <- Hdate. }
      assert (Hw : Attendance.workHours (checkOutDoc d0 now) = workHoursOf checkIn now).
      { unfold qrController.checkOutDoc. now rewrite Hin. }
      split.
      + rewrite Hw. apply workHoursOf_bounds.
        pose proof (setHours0_le now). pose proof (setHours0_le checkIn). lia.
      + simpl Attendance.attendanceType. rewrite Htype.
        exists checkIn. split; [assumption|]. split; [assumption|].
        split; [assumption|].
        simpl Attendance.teacherCheckOut. intros checkOut [= <-].
        split; [lia|]. split; assumption. }
  pose proof (Forall_lookup_1 _ _ _ _ (HP t coll Hserved) Hd) as [Hhours Hkind].
  split; [assumption|]. intros checkIn checkOut Hin Hout.
  destruct (Attendance.attendanceType d).
  - destruct Hkind. congruence.
  - destruct Hkind as (c & Hc & _ & Hdate & Hrest).
    assert (c = checkIn) as -> by congruence.
    destruct (Hrest checkOut Hout) as (H1 & H2 & H3). now repeat split.
Qed.

End Effects.

(** ** Issued tokens at the redemption routes *)

Section Issued.

Open Scope Z_scope.

Context (JWT_SECRET : string) (hmac : string -> Jwt.Claims -> string) (tz : Z)
  (Teacher_findById : string -> option Teacher.t)
  (Student_findById : string -> option Student.t)
  (toLocaleTimeString toDateString : Z -> string) (numberToString : Q -> string).

Local Abbreviation generateQR := (generateQR JWT_SECRET hmac Teacher_findById).
Local Abbreviation generateTeacherSelfQR :=
  (generateTeacherSelfQR JWT_SECRET hmac Teacher_findById).
Local Abbreviation scanTeacherQR :=
  (scanTeacherQR JWT_SECRET hmac tz Teacher_findById
     toLocaleTimeString toDateString numberToString).
Local Abbreviation scanQR := (scanQR JWT_SECRET hmac tz).
Local Abbreviation markAttendance :=
  (markAttendance JWT_SECRET hmac Teacher_findById Student_findById
     toLocaleTimeString numberToString).
Local Abbreviation decodeAt := (decodeAt JWT_SECRET hmac).
Local Abbreviation handle :=
  (handle JWT_SECRET hmac tz Teacher_findById Student_findById
     toLocaleTimeString toDateString numberToString).
Local Abbreviation read :=
  (read JWT_SECRET hmac tz Teacher_findById Student_findById
     toLocaleTimeString toDateString numberToString).
Local Abbreviation interleaved :=
  (interleaved JWT_SECRET hmac tz Teacher_findById Student_findById
     toLocaleTimeString toDateString numberToString).
Local Abbreviation step :=
  (step JWT_SECRET hmac tz Teacher_findById Student_findById
     toLocaleTimeString toDateString numberToString).
Local Abbreviation served :=
  (served JWT_SECRET hmac tz Teacher_findById Student_findById
     toLocaleTimeString toDateString numberToString).
Local Abbreviation teacherScanOn := (teacherScanOn JWT_SECRET hmac tz).
Local Abbreviation scanDoc := (scanDoc tz).
Local Abbreviation markDoc := (markDoc numberToString).
Local Abbreviation checkInDoc := (checkInDoc toLocaleTimeString).

(** A token in its window is younger than the window is long. *)
Lemma live_elapsed now issued seconds :
  now / 1000 < issued / 1000 + seconds -> now - issued < seconds * 1000.
Proof.
  intros Hlive.
  pose proof (Z.div_mod now 1000). pose proof (Z.mod_pos_bound now 1000).
  pose proof (Z.div_mod issued 1000). pose proof (Z.mod_pos_bound issued 1000).
  lia.
Qed.

(** What the handlers decode from a token signed with the server's secret. *)
Lemma decodeAt_sign p expiresIn issued now :
  decodeAt (Some (Jwt.sign hmac p JWT_SECRET expiresIn issued)) now =
  if issued / 1000 + expiresIn <=? now / 1000 then None else Some p.
Proof.
  unfold Routes.decodeAt.
  rewrite (present_sign hmac), (verify_sign hmac).
  now destruct (_ <=? _).
Qed.

(** The token of a [generateQR] answer. *)
Lemma generateQR_issued subject className section period teacherId institutionCode
    sessionId issuedAt qrToken :
  issuedToken (generateQR subject className section period teacherId institutionCode
                 sessionId issuedAt) = Some qrToken ->
  Js.truthy subject = true /\ Js.truthy className = true /\
  exists teacher,
    Teacher_findById teacherId = Some teacher /\
    qrToken =
      Jwt.sign hmac
        (classPayload sessionId teacherId teacher subject className section period
           institutionCode issuedAt)
        JWT_SECRET (Jwt.minutes 5) issuedAt.
Proof.
  unfold qrController.generateQR.
  destruct (Js.truthy subject); [|discriminate].
  destruct (Js.truthy className); [|discriminate]. simpl.
  destruct (Teacher_findById teacherId) as [teacher|]; [|discriminate].
  unfold issuedToken, json; cbn [data]. intros [= <-].
  split; [reflexivity|]. split; [reflexivity|]. now exists teacher.
Qed.

(** The token of a [generateTeacherSelfQR] answer. *)
Lemma generateTeacherSelfQR_issued teacherId institutionCode sessionId issuedAt qrToken :
  issuedToken (generateTeacherSelfQR teacherId institutionCode sessionId issuedAt)
  = Some qrToken ->
  exists teacher,
    Teacher_findById teacherId = Some teacher /\
    qrToken =
      Jwt.sign hmac (teacherPayload sessionId teacherId teacher institutionCode issuedAt)
        JWT_SECRET (Jwt.minutes 2) issuedAt.
Proof.
  unfold qrController.generateTeacherSelfQR.
  destruct (Teacher_findById teacherId) as [teacher|]; [|discriminate].
  unfold issuedToken, json; cbn [data]. intros [= <-]. now exists teacher.
Qed.

Lemma keyCount_findOne sessionId studentId coll :
  keyCount sessionId studentId coll = 0%nat <->
  Attendance.findOne (sessionStudent sessionId studentId) coll = None.
Proof.
  unfold keyCount. rewrite findOne_None. apply length_zero_iff_nil.
Qed.

Lemma truthy_Some s : s <> "" -> Js.truthy (Some s) = true.
Proof.
  intros Hne. simpl. now destruct (String.eqb_spec s "").
Qed.

(** X5. A class token of [generateQR] presented at [scanTeacherQR] is never
    taken for a teacher's: while it is valid the answer is 400 "This QR is
    not for teacher attendance", afterwards 401, and nothing is written. *)
Theorem class_token_refused_at_teacher_scan
    subject className section period teacherId institutionCode sessionId issuedAt
    qrToken user now coll :
  issuedToken (generateQR subject className section period teacherId institutionCode
                 sessionId issuedAt) = Some qrToken ->
  scanTeacherQR (Some qrToken) user now coll =
  (if now / 1000 <? issuedAt / 1000 + 5 * 60
   then json 400 false "This QR is not for teacher attendance" NoData
   else json 401 false "Invalid or expired QR code" NoData,
   coll).
Proof.
  intros Hissued.
  apply generateQR_issued in Hissued as (_ & _ & teacher & _ & ->).
  unfold qrController.scanTeacherQR, scanTeacherQR_read.
  rewrite (present_sign hmac), (verify_sign hmac). unfold Jwt.minutes.
  destruct (Z.ltb_spec (now / 1000) (issuedAt / 1000 + 5 * 60)) as [Hlive|Hdead].
  - destruct (Z.leb_spec (issuedAt / 1000 + 5 * 60) (now / 1000)); [lia|]. reflexivity.
  - destruct (Z.leb_spec (issuedAt / 1000 + 5 * 60) (now / 1000)); [|lia]. reflexivity.
Qed.

(** X6. Neither student route looks at the [type] of a token: a teacher's
    self-attendance token in its two minutes, redeemed by a student who has
    no document under its session, is answered with 200 and leaves a student
    document of that student and teacher with no subject and no class. *)
Theorem teacher_token_accepted_at_student_routes
    route teacherId institutionCode sessionId issuedAt qrToken studentId now coll :
  issuedToken (generateTeacherSelfQR teacherId institutionCode sessionId issuedAt)
  = Some qrToken ->
  now / 1000 < issuedAt / 1000 + 2 * 60 ->
  keyCount sessionId studentId coll = 0%nat ->
  Js.truthy institutionCode = true ->
  sessionId <> "" ->
  (route = ViaMark -> exists student, Student_findById studentId = Some student) ->
  let answer := handle (studentRequest route (Some qrToken) studentId) now coll in
  code (fst answer) = 200 /\
  exists doc,
    snd answer = coll ++ [doc] /\
    Attendance.attendanceType doc = Attendance.student /\
    Attendance.studentId doc = Some studentId /\
    Attendance.teacherId doc = Some teacherId /\
    Attendance.sessionId doc = Some sessionId /\
    Attendance.subject doc = None /\
    Attendance.class doc = None /\
    Attendance.teacherCheckIn doc = None.
Proof.
  intros Hissued Hlive Hfree Hcode Hsession Hstudent answer. subst answer.
  apply generateTeacherSelfQR_issued in Hissued as (teacher & Hteacher & ->).
  apply keyCount_findOne in Hfree.
  assert (Hdec : decodeAt
            (Some (Jwt.sign hmac
                     (teacherPayload sessionId teacherId teacher institutionCode issuedAt)
                     JWT_SECRET (Jwt.minutes 2) issuedAt)) now
          = Some (teacherPayload sessionId teacherId teacher institutionCode issuedAt)).
  { rewrite decodeAt_sign. unfold Jwt.minutes.
    destruct (Z.leb_spec (issuedAt / 1000 + 2 * 60) (now / 1000)); [lia|reflexivity]. }
  pose proof (live_elapsed now issuedAt (2 * 60) Hlive) as Helapsed.
  assert (Hvalid : forall d,
    Attendance.teacherId d = Some teacherId ->
    Attendance.institutionCode d = institutionCode ->
    Attendance.sessionId d = Some sessionId -> Attendance.validate d = true).
  { intros d H1 H2 H3. unfold Attendance.validate.
    now rewrite H1, H2, H3, Hcode, (truthy_Some _ Hsession). }
  destruct route; unfold Routes.handle, Routes.read, studentRequest.
  - fold (scanQR (Some (Jwt.sign hmac
                          (teacherPayload sessionId teacherId teacher institutionCode issuedAt)
                          JWT_SECRET (Jwt.minutes 2) issuedAt)) studentId now coll).
    rewrite (scanQR_branches JWT_SECRET hmac tz _ _ _ _ _ Hdec).
    cbn [Payload.timestamp Payload.sessionId teacherPayload].
    destruct (Z.ltb_spec (5 * 60000) (now - issuedAt)); [lia|].
    rewrite Hfree. cbv zeta.
    rewrite Hvalid by reflexivity.
    split; [reflexivity|]. eexists. split; [reflexivity|]. now repeat split.
  - destruct (Hstudent eq_refl) as [student Hfound].
    fold (markAttendance (Some (Jwt.sign hmac
                          (teacherPayload sessionId teacherId teacher institutionCode issuedAt)
                          JWT_SECRET (Jwt.minutes 2) issuedAt)) studentId now coll).
    rewrite (markAttendance_branches JWT_SECRET hmac Teacher_findById Student_findById
               toLocaleTimeString numberToString _ _ _ _ _ Hdec).
    cbn [Payload.timestamp Payload.sessionId Payload.teacherId teacherPayload].
    destruct (Z.ltb_spec (5 * 60000) (now - issuedAt)); [lia|].
    rewrite Hfree, Hfound, Hteacher. cbv zeta.
    rewrite Hvalid by reflexivity.
    split; [reflexivity|]. eexists. split; [reflexivity|]. now repeat split.
Qed.

(** X7. What a class session was issued with is what a redemption stores.
    A token of [generateQR] redeemed in its five minutes by a student with no
    document under the session is answered with 200, and the appended
    document carries the subject, class, teacher, institution code and
    session of the issuing request, period 1 when the request had none or 0,
    and the student.  The routes differ in the rest: [scanQR] dates the
    document at local midnight, keeps the issued section (empty when there
    was none) and no roll number; [markAttendance] dates it at the scan,
    falls back to the student's section and stores the roll number. *)
Theorem issued_class_stored
    route subject className section period teacherId institutionCode sessionId issuedAt
    qrToken studentId now coll :
  issuedToken (generateQR subject className section period teacherId institutionCode
                 sessionId issuedAt) = Some qrToken ->
  now / 1000 < issuedAt / 1000 + 5 * 60 ->
  keyCount sessionId studentId coll = 0%nat ->
  Js.truthy institutionCode = true ->
  sessionId <> "" ->
  (route = ViaMark -> exists student, Student_findById studentId = Some student) ->
  let answer := handle (studentRequest route (Some qrToken) studentId) now coll in
  code (fst answer) = 200 /\
  exists doc,
    snd answer = coll ++ [doc] /\
    Attendance.subject doc = subject /\
    Attendance.class doc = className /\
    Attendance.period doc = Js.num_or period 1 /\
    Attendance.teacherId doc = Some teacherId /\
    Attendance.institutionCode doc = institutionCode /\
    Attendance.sessionId doc = Some sessionId /\
    Attendance.studentId doc = Some studentId /\
    Attendance.scanTime doc = now /\
    match route with
    | ViaScan =>
        Attendance.date doc = Js.setHours0 tz now /\
        Attendance.section doc = Some (Js.str_or section "") /\
        Attendance.rollNumber doc = None
    | ViaMark =>
        Attendance.date doc = now /\
        exists student,
          Student_findById studentId = Some student /\
          Attendance.section doc =
            Some (if Js.truthy section then Js.str_or section ""
                  else Js.str_or (Student.section student) "") /\
          Attendance.rollNumber doc = Student.rollNo student
    end.
Proof.
  intros Hissued Hlive Hfree Hcode Hsession Hstudent answer. subst answer.
  apply generateQR_issued in Hissued as (_ & _ & teacher & Hteacher & ->).
  apply keyCount_findOne in Hfree.
  set (p := classPayload sessionId teacherId teacher subject className section period
              institutionCode issuedAt).
  assert (Hdec : decodeAt (Some (Jwt.sign hmac p JWT_SECRET (Jwt.minutes 5) issuedAt)) now
                 = Some p).
  { rewrite decodeAt_sign. unfold Jwt.minutes.
    destruct (Z.leb_spec (issuedAt / 1000 + 5 * 60) (now / 1000)); [lia|reflexivity]. }
  pose proof (live_elapsed now issuedAt (5 * 60) Hlive) as Helapsed.
  assert (Hvalid : forall d,
    Attendance.teacherId d = Some teacherId ->
    Attendance.institutionCode d = institutionCode ->
    Attendance.sessionId d = Some sessionId -> Attendance.validate d = true).
  { intros d H1 H2 H3. unfold Attendance.validate.
    now rewrite H1, H2, H3, Hcode, (truthy_Some _ Hsession). }
  assert (Hperiod : Js.num_or (Some (Js.num_or period 1)) 1 = Js.num_or period 1).
  { unfold Js.num_or. destruct period as [v|]; [|reflexivity].
    destruct (Z.eqb_spec v 0); [reflexivity|].
    now destruct (Z.eqb_spec v 0). }
  destruct route; unfold Routes.handle, Routes.read, studentRequest.
  - fold (scanQR (Some (Jwt.sign hmac p JWT_SECRET (Jwt.minutes 5) issuedAt))
            studentId now coll).
    rewrite (scanQR_branches JWT_SECRET hmac tz _ _ _ _ _ Hdec).
    change (Payload.timestamp p) with issuedAt.
    change (Payload.sessionId p) with sessionId.
    destruct (Z.ltb_spec (5 * 60000) (now - issuedAt)); [lia|].
    rewrite Hfree. cbv zeta.
    rewrite Hvalid by reflexivity.
    split; [reflexivity|]. eexists. split; [reflexivity|]. now repeat split.
  - destruct (Hstudent eq_refl) as [student Hfound].
    fold (markAttendance (Some (Jwt.sign hmac p JWT_SECRET (Jwt.minutes 5) issuedAt))
            studentId now coll).
    rewrite (markAttendance_branches JWT_SECRET hmac Teacher_findById Student_findById
               toLocaleTimeString numberToString _ _ _ _ _ Hdec).
    change (Payload.timestamp p) with issuedAt.
    change (Payload.sessionId p) with sessionId.
    change (Payload.teacherId p) with teacherId.
    destruct (Z.ltb_spec (5 * 60000) (now - issuedAt)); [lia|].
    rewrite Hfree, Hfound, Hteacher. cbv zeta.
    rewrite Hvalid by reflexivity.
    split; [reflexivity|]. eexists. split; [reflexivity|].
    do 2 (split; [reflexivity|]). split; [exact Hperiod|].
    do 5 (split; [reflexivity|]). split; [reflexivity|].
    exists student. split; [reflexivity|]. split; [|reflexivity].
    cbn [Attendance.section attendanceController.markDoc Payload.section p classPayload].
    f_equal. unfold Js.or_else, Js.truthy, Js.str_or.
    destruct section as [s|]; simpl.
    + destruct (String.eqb s "") eqn:Hs; simpl; [reflexivity|].
      rewrite Hs. simpl. now rewrite Hs.
    + reflexivity.
Qed.

(** With its two readings at one instant, [Readings.generateQR] is
    [generateQR], and [Readings.markAttendance_token] gives the answer of
    [markAttendance] or the payload it goes on with. *)
Lemma readings_generateQR subject className section period teacherId institutionCode
    sessionId now :
  Readings.generateQR JWT_SECRET hmac Teacher_findById subject className section period
    teacherId institutionCode sessionId now now
  = generateQR subject className section period teacherId institutionCode sessionId now.
Proof. reflexivity. Qed.

Lemma readings_markAttendance qrToken studentId now coll :
  match Readings.markAttendance_token JWT_SECRET hmac qrToken now now with
  | inl answer => markAttendance qrToken studentId now coll = (answer, coll)
  | inr decoded => decodeAt qrToken now = Some decoded
  end.
Proof.
  unfold Readings.markAttendance_token, attendanceController.markAttendance,
    markAttendance_read, Routes.decodeAt.
  destruct (Jwt.present qrToken) as [t|]; [|reflexivity].
  destruct (Jwt.verify hmac t JWT_SECRET now) as [claims|e]; [|reflexivity].
  cbv zeta. now destruct (Js.gt _ _).
Qed.

(** X8. [markAttendance] checks the age of a token a second time, against
    the [timestamp] of the payload and with a later reading of the clock
    than the one of [jwt.verify], and answers an old token with "QR code
    has expired. Please ask teacher for a new one."  For a token of
    [generateQR] that answer comes exactly when [jwt.verify] read a second
    before [exp] and [currentTime] is more than five minutes after
    [timestamp].  It takes the clock to move between the two readings of a
    request: between [jwt.verify] and [currentTime], and between
    [timestamp] and [jwt.sign], by more in total than the milliseconds into
    its second at which [jwt.sign] read it.  A request whose readings are
    one instant never gets that answer. *)
Theorem second_expiry_check_between_readings
    subject className section period teacherId institutionCode sessionId
    issuedAt signedAt qrToken verifiedAt now :
  issuedToken (Readings.generateQR JWT_SECRET hmac Teacher_findById subject className
                 section period teacherId institutionCode sessionId issuedAt signedAt)
  = Some qrToken ->
  issuedAt <= signedAt -> verifiedAt <= now ->
  let answer := Readings.markAttendance_token JWT_SECRET hmac (Some qrToken) verifiedAt now in
  let expired :=
    json 401 false "QR code has expired. Please ask teacher for a new one." NoData in
  (answer = inl expired <->
   verifiedAt / 1000 < signedAt / 1000 + 5 * 60 /\ 5 * 60000 < now - issuedAt) /\
  (answer = inl expired ->
   signedAt mod 1000 < (now - verifiedAt) + (signedAt - issuedAt)) /\
  (issuedAt = signedAt -> verifiedAt = now ->
   answer <> inl expired /\
   forall studentId coll,
     fst (markAttendance (Some qrToken) studentId now coll) <> expired).
Proof.
  intros Hissued Hsign Hverify answer expired.
  assert (Hanswer : answer = inl expired <->
            verifiedAt / 1000 < signedAt / 1000 + 5 * 60 /\ 5 * 60000 < now - issuedAt).
  { subst answer expired. revert Hissued. unfold Readings.generateQR.
    destruct (_ || _); [discriminate|].
    destruct (Teacher_findById teacherId) as [teacher|]; [|discriminate].
    unfold issuedToken, json; cbn [data]. intros [= <-].
    unfold Readings.markAttendance_token. rewrite present_sign, verify_sign.
    unfold Jwt.minutes.
    destruct (Z.leb_spec (signedAt / 1000 + 5 * 60) (verifiedAt / 1000)) as [Hdead|Hlive].
    - split; [discriminate|lia].
    - cbv zeta. cbn [Jwt.payload Payload.timestamp classPayload].
      rewrite (timeDifference_gt now issuedAt 5).
      destruct (Z.ltb_spec (5 * 60000) (now - issuedAt)) as [Hold|Hyoung].
      + split; [now split|reflexivity].
      + split; [discriminate|lia]. }
  split; [exact Hanswer|]. split.
  - intros Hexpired. apply Hanswer in Hexpired as [Hlive Hold].
    pose proof (Z.div_mod signedAt 1000 ltac:(lia)).
    pose proof (Z.div_mod verifiedAt 1000 ltac:(lia)).
    pose proof (Z.mod_pos_bound verifiedAt 1000 ltac:(lia)). lia.
  - intros <- <-.
    assert (Hnever : answer <> inl expired).
    { intros Hexpired. apply Hanswer in Hexpired as [Hlive Hold].
      pose proof (Z.div_mod issuedAt 1000 ltac:(lia)).
      pose proof (Z.mod_pos_bound issuedAt 1000 ltac:(lia)).
      pose proof (Z.div_mod verifiedAt 1000 ltac:(lia)).
      pose proof (Z.mod_pos_bound verifiedAt 1000 ltac:(lia)). lia. }
    split; [exact Hnever|]. intros studentId coll Hfst.
    pose proof (readings_markAttendance (Some qrToken) studentId verifiedAt coll) as Hread.
    fold answer in Hread. destruct answer as [r|decoded] eqn:Eanswer.
    + rewrite Hread in Hfst. simpl in Hfst. congruence.
    + rewrite (markAttendance_branches JWT_SECRET hmac Teacher_findById Student_findById
                 toLocaleTimeString numberToString _ _ _ _ _ Hread) in Hfst.
      revert Eanswer Hfst. subst answer. unfold Readings.markAttendance_token.
      unfold Routes.decodeAt in Hread.
      destruct (Jwt.present (Some qrToken)) as [t|]; [|discriminate].
      destruct (Jwt.verify hmac t JWT_SECRET verifiedAt) as [claims|e]; [|discriminate].
      injection Hread as <-. cbv zeta.
      rewrite (timeDifference_gt verifiedAt _ 5).
      destruct (Z.ltb_spec (5 * 60000) (verifiedAt - Payload.timestamp (Jwt.payload claims)));
        [discriminate|].
      intros _.
      destruct (Attendance.findOne _ coll); [simpl; discriminate|].
      destruct (Student_findById studentId); [|simpl; discriminate].
      destruct (Teacher_findById (Payload.teacherId (Jwt.payload claims)));
        [|simpl; discriminate].
      cbv zeta. destruct (Attendance.validate _); [|simpl; discriminate].
      simpl. destruct (_ <? _); simpl; discriminate.
Qed.

(** The answer to a student whose key is free does not depend on what else
    the collection holds. *)
Lemma student_free route qrToken studentId now coll1 coll2 decoded :
  decodeAt qrToken now = Some decoded ->
  Attendance.findOne (sessionStudent (Payload.sessionId decoded) studentId) coll1 = None ->
  Attendance.findOne (sessionStudent (Payload.sessionId decoded) studentId) coll2 = None ->
  code (fst (handle (studentRequest route qrToken studentId) now coll1)) = 200 ->
  exists doc,
    snd (handle (studentRequest route qrToken studentId) now coll1) = coll1 ++ [doc] /\
    snd (handle (studentRequest route qrToken studentId) now coll2) = coll2 ++ [doc] /\
    code (fst (handle (studentRequest route qrToken studentId) now coll2)) = 200 /\
    sessionStudent (Payload.sessionId decoded) studentId doc = true.
Proof.
  intros Hdec Hfree1 Hfree2.
  destruct route; unfold Routes.handle, Routes.read, studentRequest.
  - fold (scanQR qrToken studentId now coll1). fold (scanQR qrToken studentId now coll2).
    rewrite !(scanQR_branches JWT_SECRET hmac tz _ _ _ _ _ Hdec), Hfree1, Hfree2.
    destruct (_ <? _); [discriminate|].
    cbv zeta. destruct (Attendance.validate _); [|discriminate].
    intros _. eexists. split; [reflexivity|]. split; [reflexivity|].
    split; [reflexivity|]. apply sessionStudent_scanDoc.
  - fold (markAttendance qrToken studentId now coll1).
    fold (markAttendance qrToken studentId now coll2).
    rewrite !(markAttendance_branches JWT_SECRET hmac Teacher_findById Student_findById
                toLocaleTimeString numberToString _ _ _ _ _ Hdec), Hfree1, Hfree2.
    destruct (_ <? _); [discriminate|].
    destruct (Student_findById studentId); [|discriminate].
    destruct (Teacher_findById _); [|discriminate].
    cbv zeta. destruct (Attendance.validate _); [|discriminate].
    intros _. eexists. split; [reflexivity|]. split; [reflexivity|].
    split; [reflexivity|]. apply sessionStudent_markDoc.
Qed.

(** X9. One token serves a whole class: the document of one student does not
    stand in the way of another.  When a student's redemption has been
    accepted, the redemption of the same token by another student is
    accepted exactly as it would have been before, and the collection ends
    with one document under each of the two keys. *)
Theorem one_token_many_students
    route1 route2 qrToken student1 student2 now1 now2 coll :
  student1 <> student2 ->
  let first := handle (studentRequest route1 qrToken student1) now1 coll in
  let second := handle (studentRequest route2 qrToken student2) now2 (snd first) in
  code (fst first) = 200 ->
  code (fst (handle (studentRequest route2 qrToken student2) now2 coll)) = 200 ->
  code (fst second) = 200 /\
  exists decoded doc1 doc2,
    decodeAt qrToken now1 = Some decoded /\
    snd second = coll ++ [doc1; doc2] /\
    snd (handle (studentRequest route2 qrToken student2) now2 coll) = coll ++ [doc2] /\
    keyCount (Payload.sessionId decoded) student1 (snd second) = 1%nat /\
    keyCount (Payload.sessionId decoded) student2 (snd second) = 1%nat.
Proof.
  intros Hne first second H1 H2.
  destruct (student_accept JWT_SECRET hmac tz Teacher_findById Student_findById
              toLocaleTimeString toDateString numberToString _ _ _ _ _ H1)
    as (decoded & doc1 & Hdec1 & Hfree1 & Hsnd1 & Hkey1 & _).
  destruct (student_accept JWT_SECRET hmac tz Teacher_findById Student_findById
              toLocaleTimeString toDateString numberToString _ _ _ _ _ H2)
    as (decoded2 & _ & Hdec2 & Hfree2 & _).
  assert (decoded2 = decoded) as ->
    by exact (decodeAt_same JWT_SECRET hmac _ _ _ _ _ Hdec2 Hdec1).
  fold first in Hsnd1.
  assert (Hother : sessionStudent (Payload.sessionId decoded) student2 doc1 = false).
  { destruct (sessionStudent (Payload.sessionId decoded) student2 doc1) eqn:Hk;
      [|reflexivity].
    destruct (sessionStudent_key _ _ _ _ _ Hk Hkey1) as [_ Hsame]. congruence. }
  assert (Hfree2' : Attendance.findOne
            (sessionStudent (Payload.sessionId decoded) student2) (snd first) = None).
  { apply findOne_None. rewrite Hsnd1, List.filter_app. simpl. rewrite Hother.
    apply findOne_None in Hfree2. now rewrite Hfree2. }
  destruct (student_free route2 qrToken student2 now2 coll (snd first) decoded
              Hdec2 Hfree2 Hfree2' H2) as (doc2 & Hsnd2 & Hsnd2' & Hcode2 & Hkey2).
  fold second in Hsnd2', Hcode2.
  split; [exact Hcode2|]. exists decoded, doc1, doc2.
  split; [exact Hdec1|].
  assert (Hsecond : snd second = coll ++ [doc1; doc2]).
  { rewrite Hsnd2', Hsnd1, <- app_assoc. reflexivity. }
  split; [exact Hsecond|]. split; [exact Hsnd2|].
  assert (Hfirst2 : sessionStudent (Payload.sessionId decoded) student1 doc2 = false).
  { destruct (sessionStudent (Payload.sessionId decoded) student1 doc2) eqn:Hk;
      [|reflexivity].
    destruct (sessionStudent_key _ _ _ _ _ Hk Hkey2) as [_ Hsame]. congruence. }
  apply findOne_None in Hfree1, Hfree2.
  unfold keyCount. rewrite Hsecond, !List.filter_app, Hfree1, Hfree2. simpl.
  rewrite Hkey1, Hkey2, Hother, Hfirst2. split; reflexivity.
Qed.

(** X10. [scanQR] does not look the student or the teacher up: whenever it
    accepts a redemption of a student, or for a teacher, that the directory
    does not know, [markAttendance] answers the same request with 404 and
    writes nothing. *)
Theorem scanQR_accepts_the_unknown qrToken studentId now coll decoded :
  code (fst (scanQR qrToken studentId now coll)) = 200 ->
  decodeAt qrToken now = Some decoded ->
  (Student_findById studentId = None ->
   markAttendance qrToken studentId now coll
   = (json 404 false "Student not found" NoData, coll)) /\
  (Student_findById studentId <> None ->
   Teacher_findById (Payload.teacherId decoded) = None ->
   markAttendance qrToken studentId now coll
   = (json 404 false "Teacher not found" NoData, coll)).
Proof.
  intros H200 Hdec.
  rewrite (scanQR_branches JWT_SECRET hmac tz _ _ _ _ _ Hdec) in H200.
  rewrite (markAttendance_branches JWT_SECRET hmac Teacher_findById Student_findById
             toLocaleTimeString numberToString _ _ _ _ _ Hdec).
  destruct (_ <? _); [discriminate|].
  destruct (Attendance.findOne _ coll); [discriminate|].
  split.
  - now intros ->.
  - intros Hknown ->. now destruct (Student_findById studentId).
Qed.

(** X11. The check-in is not protected against scans in flight together
    either.  When two scans of a teacher who has no document for the day,
    each of which would be answered as a check-in on its own, both do their
    [findOne] before either does its [save], the collection ends with two
    check-in documents of that teacher for the day. *)
Theorem concurrent_check_ins teacherId today coll q1 u1 t1 q2 u2 t2 :
  interleaved coll ->
  todayCount teacherId today coll = 0%nat ->
  teacherScanOn teacherId today q1 t1 = true ->
  teacherScanOn teacherId today q2 t2 = true ->
  code (fst (scanTeacherQR q1 u1 t1 coll)) = 200 ->
  code (fst (scanTeacherQR q2 u2 t2 coll)) = 200 ->
  exists doc1 doc2,
    interleaved (coll ++ [doc1; doc2]) /\
    todayCount teacherId today (coll ++ [doc1; doc2]) = 2%nat /\
    Attendance.teacherCheckIn doc1 = Some t1 /\
    Attendance.teacherCheckIn doc2 = Some t2 /\
    Attendance.teacherCheckOut doc1 = None /\
    Attendance.teacherCheckOut doc2 = None.
Proof.
  intros (s & Hreach & Hcoll) Hnone Hq1 Hq2 H1 H2.
  apply teacherScanOn_inv in Hq1 as (d1 & Hdec1 & Htype1 & Hid1 & Hday1).
  apply teacherScanOn_inv in Hq2 as (d2 & Hdec2 & Htype2 & Hid2 & Hday2).
  assert (Hfilter0 : List.filter (teacherToday teacherId today) coll = []).
  { unfold todayCount in Hnone. now apply length_zero_iff_nil. }
  assert (Hfind0 : Attendance.findOne (teacherToday teacherId today) coll = None).
  { now apply findOne_None. }
  assert (Hread : forall q u t d,
    decodeAt q t = Some d -> Payload.type d = Some "teacher_attendance" ->
    Payload.teacherId d = teacherId -> Js.setHours0 tz t = today ->
    code (fst (scanTeacherQR q u t coll)) = 200 ->
    exists teacher,
      Attendance.validate (checkInDoc d teacher u today t) = true /\
      forall coll', snd (commit (read (PostTeacherScan q u) t coll) coll')
                    = coll' ++ [checkInDoc d teacher u today t]).
  { intros q u t d Hdec Htype Hid Hday.
    unfold qrController.scanTeacherQR, Routes.read, scanTeacherQR_read.
    unfold Routes.decodeAt in Hdec.
    destruct (Jwt.present q) as [tok|]; [|discriminate].
    destruct (Jwt.verify hmac tok JWT_SECRET t) as [claims|e]; [|discriminate].
    injection Hdec as Hdec. rewrite Hdec, Htype, Hid, Hday, Hfind0.
    rewrite bool_decide_eq_true_2 by reflexivity. cbn [negb].
    destruct (Teacher_findById teacherId) as [teacher|]; [|discriminate].
    cbv zeta. unfold commit, Attendance.insertNew.
    destruct (Attendance.validate (checkInDoc d teacher u today t)) eqn:Hvalid;
      [|discriminate].
    intros _. exists teacher. split; [exact Hvalid|].
    intros coll'. reflexivity. }
  destruct (Hread q1 u1 t1 d1 Hdec1 Htype1 Hid1 Hday1 H1) as (teacher1 & _ & Hsave1).
  destruct (Hread q2 u2 t2 d2 Hdec2 Htype2 Hid2 Hday2 H2) as (teacher2 & _ & Hsave2).
  exists (checkInDoc d1 teacher1 u1 today t1), (checkInDoc d2 teacher2 u2 today t2).
  split; [|split].
  - set (r1 := read (PostTeacherScan q1 u1) t1 coll).
    set (r2 := read (PostTeacherScan q2 u2) t2 coll).
    set (s1 := {| collection := collection s; inflight := r1 :: inflight s |}).
    set (s2 := {| collection := collection s; inflight := r2 :: r1 :: inflight s |}).
    set (s3 := {| collection := snd (commit r1 (collection s));
                  inflight := [r2] ++ inflight s |}).
    set (s4 := {| collection := snd (commit r2 (collection s3));
                  inflight := [] ++ inflight s |}).
    exists s4. split.
    + eapply rtc_trans; [exact Hreach|].
      apply rtc_l with s1.
      { unfold s1, r1. rewrite <- Hcoll.
        apply (Routes.step_read JWT_SECRET hmac tz Teacher_findById Student_findById
                 toLocaleTimeString toDateString numberToString s). }
      apply rtc_l with s2.
      { unfold s2, r2. rewrite <- Hcoll.
        apply (Routes.step_read JWT_SECRET hmac tz Teacher_findById Student_findById
                 toLocaleTimeString toDateString numberToString s1). }
      apply rtc_l with s3.
      { apply (Routes.step_save JWT_SECRET hmac tz Teacher_findById Student_findById
                 toLocaleTimeString toDateString numberToString s2 [r2] r1 (inflight s)).
        reflexivity. }
      apply rtc_l with s4.
      { apply (Routes.step_save JWT_SECRET hmac tz Teacher_findById Student_findById
                 toLocaleTimeString toDateString numberToString s3 [] r2 (inflight s)).
        reflexivity. }
      apply rtc_refl.
    + unfold s4, s3, r1, r2. cbn [collection].
      rewrite Hsave2, Hsave1, Hcoll, <- app_assoc. reflexivity.
  - unfold todayCount. rewrite List.filter_app, Hfilter0. simpl.
    rewrite <- Hid1 at 1.
    rewrite (teacherToday_checkInDoc toLocaleTimeString d1 teacher1 u1 today t1).
    rewrite <- Hid2.
    rewrite (teacherToday_checkInDoc toLocaleTimeString d2 teacher2 u2 today t2).
    reflexivity.
  - now repeat split.
Qed.

(** X12. A check-in that is not checked out by midnight stays open for
    good.  When every request so far was served before today's midnight, an
    accepted scan of a teacher is a check-in, whatever the documents of
    earlier days look like: it appends a document for today and leaves
    every earlier document as it is. *)
Theorem check_in_left_open_overnight t coll teacherId qrToken user now :
  served t coll ->
  t < Js.setHours0 tz now ->
  teacherScanOn teacherId (Js.setHours0 tz now) qrToken now = true ->
  code (fst (scanTeacherQR qrToken user now coll)) = 200 ->
  exists teacher doc,
    Teacher_findById teacherId = Some teacher /\
    scanTeacherQR qrToken user now coll =
      (json 200 true "✅ Teacher check-in successful!"
         (CheckInData (Teacher.name teacher) (toLocaleTimeString now)
            (toDateString (Js.setHours0 tz now)) (length coll) "check_in"),
       coll ++ [doc]) /\
    Attendance.teacherCheckIn doc = Some now /\
    Attendance.teacherCheckOut doc = None /\
    Attendance.date doc = Js.setHours0 tz now /\
    forall i d, coll !! i = Some d ->
      snd (scanTeacherQR qrToken user now coll) !! i = Some d.
Proof.
  intros Hserved Hbefore Hscan H200.
  pose proof (day_starts_empty JWT_SECRET hmac tz Teacher_findById Student_findById
                toLocaleTimeString toDateString numberToString
                t coll teacherId _ Hserved Hbefore) as Hcount.
  assert (Hfind : Attendance.findOne
            (teacherToday teacherId (Js.setHours0 tz now)) coll = None).
  { apply findOne_None. unfold todayCount in Hcount. now apply length_zero_iff_nil. }
  apply (teacherScanOn_inv JWT_SECRET hmac tz) in Hscan
    as (decoded & Hdec & Htype & Hid & _).
  destruct (Teacher_findById teacherId) as [teacher|] eqn:Hteacher.
  - rewrite <- Hid in Hteacher.
    rewrite (scanTeacherQR_branches JWT_SECRET hmac tz Teacher_findById
               toLocaleTimeString toDateString numberToString
               _ _ _ _ _ _ Hdec Htype Hteacher) in H200 |- *.
    cbv zeta in H200 |- *. rewrite Hid, Hfind in H200 |- *.
    destruct (Attendance.validate _); [|discriminate].
    exists teacher. eexists. split; [reflexivity|]. split; [reflexivity|].
    split; [reflexivity|]. split; [reflexivity|]. split; [reflexivity|].
    intros i d Hd. cbn [snd]. now apply lookup_app_l_Some.
  - exfalso. revert H200.
    unfold qrController.scanTeacherQR, scanTeacherQR_read.
    unfold Routes.decodeAt in Hdec.
    destruct (Jwt.present qrToken) as [tok|]; [|discriminate].
    destruct (Jwt.verify hmac tok JWT_SECRET now) as [claims|e]; [|discriminate].
    injection Hdec as ->. rewrite Htype, Hid, Hteacher.
    rewrite bool_decide_eq_true_2 by reflexivity. discriminate.
Qed.

(** X13. Whatever [markAttendance] accepts, [scanQR] accepts: the two
    routes make the same checks on the token and on the key, and
    [markAttendance] alone looks the student and the teacher up.  The
    documents the two would store agree on the student, the teacher, the
    session, the institution code, the subject, the class and the scan
    time; [scanQR]'s is [present] and dated at local midnight, and
    [markAttendance]'s is dated at the scan. *)
Theorem mark_accepted_then_scan_accepted qrToken studentId now coll :
  code (fst (markAttendance qrToken studentId now coll)) = 200 ->
  code (fst (scanQR qrToken studentId now coll)) = 200 /\
  exists marked scanned,
    snd (markAttendance qrToken studentId now coll) = coll ++ [marked] /\
    snd (scanQR qrToken studentId now coll) = coll ++ [scanned] /\
    Attendance.studentId marked = Attendance.studentId scanned /\
    Attendance.teacherId marked = Attendance.teacherId scanned /\
    Attendance.sessionId marked = Attendance.sessionId scanned /\
    Attendance.institutionCode marked = Attendance.institutionCode scanned /\
    Attendance.subject marked = Attendance.subject scanned /\
    Attendance.class marked = Attendance.class scanned /\
    Attendance.scanTime marked = Attendance.scanTime scanned /\
    Attendance.status scanned = Attendance.present /\
    Attendance.date scanned = Js.setHours0 tz now /\
    Attendance.date marked = now.
Proof.
  intros H200.
  destruct (decodeAt qrToken now) as [decoded|] eqn:Hdec.
  2:{ now apply (markAttendance_undecoded JWT_SECRET hmac Teacher_findById
                   Student_findById toLocaleTimeString numberToString
                   _ studentId _ coll) in Hdec as [_ Hne]. }
  rewrite (markAttendance_branches JWT_SECRET hmac Teacher_findById Student_findById
             toLocaleTimeString numberToString _ _ _ _ _ Hdec) in H200 |- *.
  rewrite (scanQR_branches JWT_SECRET hmac tz _ _ _ _ _ Hdec).
  destruct (_ <? _); [discriminate|].
  destruct (Attendance.findOne _ coll); [discriminate|].
  destruct (Student_findById studentId) as [student|]; [|discriminate].
  destruct (Teacher_findById (Payload.teacherId decoded)) as [teacher|]; [|discriminate].
  cbv zeta in H200 |- *.
  change (Attendance.validate (scanDoc decoded studentId now))
    with (Attendance.validate
            (markDoc decoded studentId student
               (timeDifference now (Payload.timestamp decoded)) now)).
  destruct (Attendance.validate _); [|discriminate].
  split; [reflexivity|]. do 2 eexists.
  split; [reflexivity|]. split; [reflexivity|]. now repeat split.
Qed.

(** X14. A teacher's token does in its two minutes what it was issued for.
    Scanned at [scanTeacherQR] for a teacher with no document for the day,
    a token of [generateTeacherSelfQR] is answered with 200 until its
    [exp] and appends the check-in: a teacher document of that teacher and
    session, with the institution code of the request or else the
    teacher's, dated today at midnight, checked in now, marked by the user
    or else by [qr_scanner].  From its [exp] on the answer is 401 and
    nothing is written. *)
Theorem issued_teacher_token_checks_in
    teacherId institutionCode sessionId issuedAt qrToken user now coll :
  issuedToken (generateTeacherSelfQR teacherId institutionCode sessionId issuedAt)
  = Some qrToken ->
  todayCount teacherId (Js.setHours0 tz now) coll = 0%nat ->
  sessionId <> "" ->
  (forall teacher,
     Teacher_findById teacherId = Some teacher ->
     Js.truthy (Js.or_else institutionCode (Teacher.institutionCode teacher)) = true) ->
  let answer := scanTeacherQR (Some qrToken) user now coll in
  if now / 1000 <? issuedAt / 1000 + 2 * 60
  then
    code (fst answer) = 200 /\
    exists teacher doc,
      Teacher_findById teacherId = Some teacher /\
      snd answer = coll ++ [doc] /\
      Attendance.attendanceType doc = Attendance.teacher /\
      Attendance.teacherId doc = Some teacherId /\
      Attendance.sessionId doc = Some sessionId /\
      Attendance.institutionCode doc
        = Js.or_else institutionCode (Teacher.institutionCode teacher) /\
      Attendance.date doc = Js.setHours0 tz now /\
      Attendance.teacherCheckIn doc = Some now /\
      Attendance.teacherCheckOut doc = None /\
      Attendance.status doc = Attendance.present /\
      Attendance.markedBy doc = Js.str_or user "qr_scanner"
  else answer = (json 401 false "Invalid or expired QR code" NoData, coll).
Proof.
  intros Hissued Hcount Hsession Hcode answer. subst answer.
  apply generateTeacherSelfQR_issued in Hissued as (teacher & Hteacher & ->).
  specialize (Hcode teacher Hteacher).
  assert (Hfind : Attendance.findOne
            (teacherToday teacherId (Js.setHours0 tz now)) coll = None).
  { apply findOne_None. unfold todayCount in Hcount. now apply length_zero_iff_nil. }
  set (p := teacherPayload sessionId teacherId teacher institutionCode issuedAt).
  destruct (Z.ltb_spec (now / 1000) (issuedAt / 1000 + 2 * 60)) as [Hlive|Hdead].
  - assert (Hdec : decodeAt (Some (Jwt.sign hmac p JWT_SECRET (Jwt.minutes 2) issuedAt)) now
                   = Some p).
    { rewrite decodeAt_sign. unfold Jwt.minutes.
      destruct (Z.leb_spec (issuedAt / 1000 + 2 * 60) (now / 1000)); [lia|reflexivity]. }
    rewrite (scanTeacherQR_branches JWT_SECRET hmac tz Teacher_findById
               toLocaleTimeString toDateString numberToString
               _ _ _ _ p teacher Hdec eq_refl Hteacher).
    cbv zeta. change (Payload.teacherId p) with teacherId. rewrite Hfind.
    assert (Hvalid : Attendance.validate
              (checkInDoc p teacher user (Js.setHours0 tz now) now) = true).
    { unfold Attendance.validate. cbn [checkInDoc qrController.checkInDoc
        Attendance.teacherId Attendance.institutionCode Attendance.sessionId
        Payload.institutionCode Payload.sessionId p teacherPayload].
      now rewrite Hcode, (truthy_Some _ Hsession). }
    rewrite Hvalid. split; [reflexivity|].
    exists teacher. eexists. split; [exact Hteacher|]. split; [reflexivity|].
    now repeat split.
  - unfold qrController.scanTeacherQR, scanTeacherQR_read.
    rewrite (present_sign hmac), (verify_sign hmac). unfold Jwt.minutes.
    destruct (Z.leb_spec (issuedAt / 1000 + 2 * 60) (now / 1000)); [|lia]. reflexivity.
Qed.

End Issued.

(** ** The other teacher endpoints *)

Section OtherEndpoints.

Open Scope Z_scope.

Context (JWT_SECRET : string) (hmac : string -> Jwt.Claims -> string) (tz : Z)
  (Teacher_findById : string -> option Teacher.t)
  (Student_findById : string -> option Student.t)
  (toLocaleTimeString toDateString : Z -> string) (numberToString : Q -> string).

Local Abbreviation generateQR := (generateQR JWT_SECRET hmac Teacher_findById).
Local Abbreviation scanTeacherQR :=
  (scanTeacherQR JWT_SECRET hmac tz Teacher_findById
     toLocaleTimeString toDateString numberToString).
Local Abbreviation scanQR := (scanQR JWT_SECRET hmac tz).
Local Abbreviation decodeAt := (decodeAt JWT_SECRET hmac).
Local Abbreviation scanDoc := (scanDoc tz).
Local Abbreviation checkOutDoc := (checkOutDoc toLocaleTimeString numberToString).
Local Abbreviation scanTeacherAttendanceQR :=
  (qrControllerMore.scanTeacherAttendanceQR JWT_SECRET hmac tz Teacher_findById
     toLocaleTimeString toDateString numberToString).
Local Abbreviation testTeacherScan :=
  (qrControllerMore.testTeacherScan tz Teacher_findById
     toLocaleTimeString toDateString numberToString).
Local Abbreviation qrCheckInDoc :=
  (qrControllerMore.qrCheckInDoc toLocaleTimeString numberToString).
Local Abbreviation qrCheckOutDoc :=
  (qrControllerMore.qrCheckOutDoc toLocaleTimeString numberToString).
Local Abbreviation testDoc := (qrControllerMore.testDoc numberToString).
Local Abbreviation teacherSince := qrControllerMore.teacherSince.
Local Abbreviation failedQrScan := qrControllerMore.failedQrScan.

(** The branches of [scanTeacherAttendanceQR] after the token and the
    teacher have been accepted. *)
Lemma scanTeacherAttendanceQR_branches qrToken now coll decoded teacher :
  decodeAt qrToken now = Some decoded ->
  Payload.teacherId decoded <> "" ->
  Teacher_findById (Payload.teacherId decoded) = Some teacher ->
  let today := Js.setHours0 tz now in
  scanTeacherAttendanceQR qrToken now coll =
  match Attendance.findOne (teacherSince (Payload.teacherId decoded) today) coll with
  | None =>
      let doc := qrCheckInDoc decoded teacher today now in
      if Attendance.validate doc
      then (Reply.make 200 true "✅ Teacher check-in successful!"
              (CheckedIn (Teacher.name teacher) (Teacher.teacherId teacher)
                 (toLocaleTimeString now) (toDateString today) (length coll) "present"),
            coll ++ [doc])
      else (failedQrScan ValidationError, coll)
  | Some (i, existing) =>
      match Attendance.teacherCheckOut existing with
      | Some _ =>
          (Reply.make 400 false "Attendance already completed for today" Nothing, coll)
      | None =>
          let doc := qrCheckOutDoc existing now in
          if Attendance.validate existing
          then (match Attendance.teacherCheckIn existing with
                | Some checkIn =>
                    Reply.make 200 true "✅ Teacher check-out successful!"
                      (CheckedOut (Teacher.name teacher) (toLocaleTimeString checkIn)
                         (toLocaleTimeString now) (workHoursOf checkIn now)
                         (toDateString today) i)
                | None => failedQrScan TypeError
                end,
                <[i := doc]> coll)
          else (failedQrScan ValidationError, coll)
      end
  end.
Proof.
  unfold Routes.decodeAt, qrControllerMore.scanTeacherAttendanceQR.
  destruct (Jwt.present qrToken) as [t|]; [|discriminate].
  destruct (Jwt.verify hmac t JWT_SECRET now) as [claims|e]; [|discriminate].
  intros [= <-] Hid Hteacher. rewrite Hteacher.
  destruct (String.eqb_spec (Payload.teacherId (Jwt.payload claims)) "");
    [contradiction|].
  cbv zeta.
  destruct (Attendance.findOne _ coll) as [[i existing]|].
  - destruct (Attendance.teacherCheckOut existing); [reflexivity|].
    unfold Attendance.saveAt.
    change (Attendance.validate (qrCheckOutDoc existing now))
      with (Attendance.validate existing).
    destruct (Attendance.validate existing); [|reflexivity].
    unfold qrControllerMore.qrCheckOutDoc; simpl.
    now destruct (Attendance.teacherCheckIn existing).
  - unfold Attendance.insertNew. now destruct (Attendance.validate _).
Qed.

(** What the two handlers do to the collection: nothing, or they append a
    document of the default type, or [scanTeacherAttendanceQR] rewrites one
    document by its check-out. *)
Lemma scanTeacherAttendanceQR_effect qrToken now coll :
  let coll' := snd (scanTeacherAttendanceQR qrToken now coll) in
  coll' = coll \/
  (exists doc, coll' = coll ++ [doc] /\
               Attendance.attendanceType doc = Attendance.student) \/
  (exists i existing, coll !! i = Some existing /\
                      coll' = <[i := qrCheckOutDoc existing now]> coll).
Proof.
  unfold qrControllerMore.scanTeacherAttendanceQR.
  destruct (Jwt.present qrToken) as [t|]; [|now left].
  destruct (Jwt.verify hmac t JWT_SECRET now) as [claims|e]; [|now left].
  destruct (String.eqb _ ""); [now left|].
  destruct (Teacher_findById _) as [teacher|]; [|now left].
  cbv zeta.
  destruct (Attendance.findOne _ coll) as [[i existing]|] eqn:Hfind.
  - destruct (Attendance.teacherCheckOut existing); [now left|].
    unfold Attendance.saveAt.
    destruct (Attendance.validate _); [|now left].
    right; right. exists i, existing. split; [|reflexivity].
    now apply findOne_Some in Hfind as [Hi _].
  - unfold Attendance.insertNew.
    destruct (Attendance.validate _); [|now left].
    right; left. eexists. split; reflexivity.
Qed.

Lemma testTeacherScan_effect teacherId now coll :
  let coll' := snd (testTeacherScan teacherId now coll) in
  coll' = coll \/
  (exists doc, coll' = coll ++ [doc] /\
               Attendance.attendanceType doc = Attendance.student).
Proof.
  unfold qrControllerMore.testTeacherScan.
  destruct teacherId as [teacherId|]; [|now left].
  destruct (String.eqb teacherId ""); [now left|].
  destruct (Teacher_findById teacherId) as [teacher|]; [|now left].
  cbv zeta. unfold Attendance.insertNew.
  destruct (Attendance.validate _); [|now left].
  right. eexists. split; reflexivity.
Qed.

Lemma teacherToday_qrCheckOutDoc teacherId today existing now :
  teacherToday teacherId today (qrCheckOutDoc existing now) =
  teacherToday teacherId today existing.
Proof. reflexivity. Qed.

(** The first document under a filter is the first under a narrower filter
    that it passes. *)
Lemma findOne_narrower (wide narrow : Attendance.t -> bool) coll i d :
  (forall x, narrow x = true -> wide x = true) ->
  Attendance.findOne wide coll = Some (i, d) -> narrow d = true ->
  Attendance.findOne narrow coll = Some (i, d).
Proof.
  unfold Attendance.findOne. intros Hsub Hfind Hd.
  apply list_find_Some in Hfind as (Hi & _ & Hfirst).
  apply list_find_Some. split; [assumption|]. split; [assumption|].
  intros j y Hj Hlt Hy. apply (Hfirst j y Hj Hlt). now apply Hsub.
Qed.

Lemma teacherToday_teacherSince teacherId today d :
  teacherToday teacherId today d =
  teacherSince teacherId today d
  && bool_decide (Attendance.attendanceType d = Attendance.teacher).
Proof. reflexivity. Qed.

(** X15. Neither [scanTeacherAttendanceQR] nor [testTeacherScan] writes a
    document that [scanTeacherQR] counts: what they append has the default
    [attendanceType], [student].  Whatever they are given, the number of
    teacher documents of a teacher and a day stays as it is, and a teacher
    who was in state NONE for [scanTeacherQR] still is. *)
Theorem other_endpoints_not_counted teacherId today coll :
  (forall qrToken now,
     let coll' := snd (scanTeacherAttendanceQR qrToken now coll) in
     todayCount teacherId today coll' = todayCount teacherId today coll /\
     (Attendance.findOne (teacherToday teacherId today) coll = None ->
      Attendance.findOne (teacherToday teacherId today) coll' = None)) /\
  (forall id now,
     let coll' := snd (testTeacherScan id now coll) in
     todayCount teacherId today coll' = todayCount teacherId today coll /\
     (Attendance.findOne (teacherToday teacherId today) coll = None ->
      Attendance.findOne (teacherToday teacherId today) coll' = None)).
Proof.
  assert (Hnone : forall coll',
    todayCount teacherId today coll' = todayCount teacherId today coll ->
    Attendance.findOne (teacherToday teacherId today) coll = None ->
    Attendance.findOne (teacherToday teacherId today) coll' = None).
  { intros coll' Hcount Hfind. apply findOne_None. apply findOne_None in Hfind.
    unfold todayCount in Hcount. rewrite Hfind in Hcount.
    now apply length_zero_iff_nil. }
  assert (Happend : forall doc,
    Attendance.attendanceType doc = Attendance.student ->
    todayCount teacherId today (coll ++ [doc]) = todayCount teacherId today coll).
  { intros doc Htype. unfold todayCount. rewrite List.filter_app, length_app.
    simpl. unfold teacherToday at 2. rewrite Htype.
    rewrite (bool_decide_eq_false_2 (Attendance.student = Attendance.teacher))
      by discriminate.
    rewrite andb_false_r. simpl. lia. }
  split.
  - intros qrToken now coll'. subst coll'.
    assert (Hcount : todayCount teacherId today
                       (snd (scanTeacherAttendanceQR qrToken now coll))
                     = todayCount teacherId today coll).
    { destruct (scanTeacherAttendanceQR_effect qrToken now coll)
        as [->|[(doc & -> & Htype)|(i & existing & Hi & ->)]].
      - reflexivity.
      - now apply Happend.
      - unfold todayCount. now apply filter_insert_same with existing. }
    split; [exact Hcount|]. now apply Hnone.
  - intros id now coll'. subst coll'.
    assert (Hcount : todayCount teacherId today (snd (testTeacherScan id now coll))
                     = todayCount teacherId today coll).
    { destruct (testTeacherScan_effect id now coll) as [->|(doc & -> & Htype)].
      - reflexivity.
      - now apply Happend. }
    split; [exact Hcount|]. now apply Hnone.
Qed.

(** X16. [scanTeacherAttendanceQR] asks for a document of the teacher dated
    today, of any type, and so takes a student's attendance in the
    teacher's class for the teacher's own check-in.  When a student has
    scanned a class token today and the teacher had no document for today
    before, a scan at [scanTeacherAttendanceQR] with a token of that teacher
    writes [teacherCheckOut] and new remarks into the student's document and
    answers 500; every further scan of the day is answered "Attendance
    already completed for today": the teacher is not checked in that day. *)
Theorem student_record_checked_out
    qrToken studentId now1 coll decoded teacherToken now2 decoded2 teacher :
  code (fst (scanQR qrToken studentId now1 coll)) = 200 ->
  decodeAt qrToken now1 = Some decoded ->
  decodeAt teacherToken now2 = Some decoded2 ->
  Payload.teacherId decoded2 = Payload.teacherId decoded ->
  Payload.teacherId decoded <> "" ->
  Teacher_findById (Payload.teacherId decoded) = Some teacher ->
  Attendance.findOne (teacherSince (Payload.teacherId decoded) (Js.setHours0 tz now2)) coll
    = None ->
  Js.setHours0 tz now2 = Js.setHours0 tz now1 ->
  let scanned := snd (scanQR qrToken studentId now1 coll) in
  let answer := scanTeacherAttendanceQR teacherToken now2 scanned in
  exists doc,
    scanned = coll ++ [doc] /\
    Attendance.studentId doc = Some studentId /\
    Attendance.teacherCheckOut doc = None /\
    fst answer = failedQrScan TypeError /\
    snd answer = coll ++ [qrCheckOutDoc doc now2] /\
    Attendance.studentId (qrCheckOutDoc doc now2) = Some studentId /\
    Attendance.teacherCheckOut (qrCheckOutDoc doc now2) = Some now2 /\
    Attendance.remarks (qrCheckOutDoc doc now2)
      = "Checked out at " +:+ toLocaleTimeString now2 /\
    forall later now3 decoded3,
      decodeAt later now3 = Some decoded3 ->
      Payload.teacherId decoded3 = Payload.teacherId decoded ->
      Js.setHours0 tz now3 = Js.setHours0 tz now1 ->
      scanTeacherAttendanceQR later now3 (snd answer) =
      (Reply.make 400 false "Attendance already completed for today" Nothing, snd answer).
Proof.
  intros H200 Hdec Hdec2 Hid Hne Hteacher Hnone Hday scanned answer.
  rewrite (scanQR_branches JWT_SECRET hmac tz _ _ _ _ _ Hdec) in H200.
  assert (Hscanned : scanned = coll ++ [scanDoc decoded studentId now1]).
  { unfold scanned. rewrite (scanQR_branches JWT_SECRET hmac tz _ _ _ _ _ Hdec).
    destruct (_ <? _); [discriminate|].
    destruct (Attendance.findOne _ coll); [discriminate|].
    cbv zeta in H200 |- *. now destruct (Attendance.validate _). }
  assert (Hvalid : Attendance.validate (scanDoc decoded studentId now1) = true).
  { destruct (_ <? _); [discriminate|].
    destruct (Attendance.findOne _ coll); [discriminate|].
    cbv zeta in H200. now destruct (Attendance.validate _). }
  set (doc := scanDoc decoded studentId now1) in *.
  assert (Hmatch : teacherSince (Payload.teacherId decoded) (Js.setHours0 tz now1) doc = true).
  { unfold qrControllerMore.teacherSince, doc; simpl.
    rewrite bool_decide_eq_true_2 by reflexivity. apply Z.leb_refl. }
  assert (Hfind : Attendance.findOne
            (teacherSince (Payload.teacherId decoded) (Js.setHours0 tz now1)) scanned
          = Some (length coll, doc)).
  { rewrite Hscanned. apply findOne_last; [|assumption]. now rewrite <- Hday. }
  assert (Hanswer : answer = (failedQrScan TypeError, coll ++ [qrCheckOutDoc doc now2])).
  { unfold answer.
    rewrite <- Hid in Hteacher, Hne.
    rewrite (scanTeacherAttendanceQR_branches _ _ _ _ _ Hdec2 Hne Hteacher).
    cbv zeta. rewrite Hid, Hday, Hfind.
    change (Attendance.teacherCheckOut doc) with (@None Z).
    change (Attendance.teacherCheckIn doc) with (@None Z).
    rewrite Hvalid, Hscanned, insert_last. reflexivity. }
  exists doc. split; [exact Hscanned|]. split; [reflexivity|]. split; [reflexivity|].
  rewrite Hanswer. cbn [fst snd].
  split; [reflexivity|]. split; [reflexivity|]. split; [reflexivity|].
  split; [reflexivity|]. split; [reflexivity|].
  intros later now3 decoded3 Hdec3 Hid3 Hday3.
  rewrite <- Hid3 in Hteacher, Hne.
  rewrite (scanTeacherAttendanceQR_branches _ _ _ _ _ Hdec3 Hne Hteacher).
  cbv zeta. rewrite Hid3, Hday3.
  assert (Hfind3 : Attendance.findOne
            (teacherSince (Payload.teacherId decoded) (Js.setHours0 tz now1))
            (coll ++ [qrCheckOutDoc doc now2])
          = Some (length coll, qrCheckOutDoc doc now2)).
  { apply findOne_last; [now rewrite <- Hday|exact Hmatch]. }
  rewrite Hfind3. reflexivity.
Qed.

(** X17. [scanTeacherAttendanceQR] takes any token that names a teacher: a
    class token of [generateQR], in its five minutes, checks the teacher in
    when no document of the teacher is dated today.  The document it
    appends has the type [student], the subject "Teacher Attendance" and no
    student. *)
Theorem class_token_checks_teacher_in
    subject className section period teacherId institutionCode sessionId issuedAt
    qrToken now coll :
  issuedToken (generateQR subject className section period teacherId institutionCode
                 sessionId issuedAt) = Some qrToken ->
  now / 1000 < issuedAt / 1000 + 5 * 60 ->
  teacherId <> "" ->
  Js.truthy institutionCode = true ->
  Attendance.findOne (teacherSince teacherId (Js.setHours0 tz now)) coll = None ->
  let answer := scanTeacherAttendanceQR (Some qrToken) now coll in
  Reply.code (fst answer) = 200 /\
  Reply.success (fst answer) = true /\
  Reply.message (fst answer) = "✅ Teacher check-in successful!" /\
  exists doc,
    snd answer = coll ++ [doc] /\
    Attendance.attendanceType doc = Attendance.student /\
    Attendance.studentId doc = None /\
    Attendance.subject doc = Some "Teacher Attendance" /\
    Attendance.teacherId doc = Some teacherId /\
    Attendance.teacherCheckIn doc = Some now /\
    Attendance.date doc = Js.setHours0 tz now.
Proof.
  intros Hissued Hlive Hid Hcode Hnone answer. subst answer.
  apply (generateQR_issued JWT_SECRET hmac Teacher_findById) in Hissued
    as (_ & _ & teacher & Hteacher & ->).
  set (p := classPayload sessionId teacherId teacher subject className section period
              institutionCode issuedAt).
  assert (Hdec : decodeAt (Some (Jwt.sign hmac p JWT_SECRET (Jwt.minutes 5) issuedAt)) now
                 = Some p).
  { rewrite (decodeAt_sign JWT_SECRET hmac). unfold Jwt.minutes.
    destruct (Z.leb_spec (issuedAt / 1000 + 5 * 60) (now / 1000)); [lia|reflexivity]. }
  rewrite (scanTeacherAttendanceQR_branches _ _ _ _ teacher Hdec Hid Hteacher).
  cbv zeta. change (Payload.teacherId p) with teacherId. rewrite Hnone.
  assert (Hvalid : Attendance.validate (qrCheckInDoc p teacher (Js.setHours0 tz now) now)
                   = true).
  { unfold Attendance.validate; simpl. unfold Js.or_else. rewrite Hcode, Hcode. simpl.
    destruct (String.eqb sessionId "") eqn:Hs; simpl; [reflexivity|]. now rewrite Hs. }
  rewrite Hvalid. split; [reflexivity|]. split; [reflexivity|]. split; [reflexivity|].
  eexists. split; [reflexivity|]. now repeat split.
Qed.

(** X18. A check-out can be made at either endpoint, and the two disagree on
    it.  On the check-in document of [scanTeacherQR], both [scanTeacherQR]
    and [scanTeacherAttendanceQR] answer 200 with the same message and
    store the same [teacherCheckOut], [workHours] and [remarks];
    [scanTeacherQR] reports [success: false] and moves [scanTime] to the
    check-out, [scanTeacherAttendanceQR] reports [success: true] and leaves
    [scanTime] at the check-in. *)
Theorem check_out_at_either_endpoint
    qrToken user now coll decoded teacher i existing checkIn :
  decodeAt qrToken now = Some decoded ->
  Payload.type decoded = Some "teacher_attendance" ->
  Payload.teacherId decoded <> "" ->
  Teacher_findById (Payload.teacherId decoded) = Some teacher ->
  Attendance.findOne (teacherSince (Payload.teacherId decoded) (Js.setHours0 tz now)) coll
    = Some (i, existing) ->
  Attendance.attendanceType existing = Attendance.teacher ->
  Attendance.teacherCheckOut existing = None ->
  Attendance.teacherCheckIn existing = Some checkIn ->
  Attendance.validate existing = true ->
  let one := scanTeacherQR qrToken user now coll in
  let other := scanTeacherAttendanceQR qrToken now coll in
  code (fst one) = 200 /\ Reply.code (fst other) = 200 /\
  success (fst one) = false /\ Reply.success (fst other) = true /\
  message (fst one) = Reply.message (fst other) /\
  snd one = <[i := checkOutDoc existing now]> coll /\
  snd other = <[i := qrCheckOutDoc existing now]> coll /\
  Attendance.teacherCheckOut (checkOutDoc existing now) = Some now /\
  Attendance.teacherCheckOut (qrCheckOutDoc existing now) = Some now /\
  Attendance.workHours (checkOutDoc existing now) = workHoursOf checkIn now /\
  Attendance.workHours (qrCheckOutDoc existing now) = workHoursOf checkIn now /\
  Attendance.remarks (checkOutDoc existing now)
    = Attendance.remarks (qrCheckOutDoc existing now) /\
  Attendance.scanTime (checkOutDoc existing now) = now /\
  Attendance.scanTime (qrCheckOutDoc existing now) = Attendance.scanTime existing.
Proof.
  intros Hdec Htype Hid Hteacher Hfind Hkind Hout Hin Hvalid one other.
  assert (Hfind' : Attendance.findOne
            (teacherToday (Payload.teacherId decoded) (Js.setHours0 tz now)) coll
          = Some (i, existing)).
  { apply findOne_narrower with (teacherSince (Payload.teacherId decoded)
                                   (Js.setHours0 tz now)); [|assumption|].
    - intros x. rewrite teacherToday_teacherSince, andb_true_iff. now intros [Hwide _].
    - rewrite teacherToday_teacherSince. apply findOne_Some in Hfind as (_ & -> & _).
      rewrite Hkind. now rewrite bool_decide_eq_true_2. }
  assert (Hone : one =
    (json 200 false "✅ Teacher check-out successful!"
       (CheckOutData (Teacher.name teacher) (toLocaleTimeString checkIn)
          (toLocaleTimeString now) (Attendance.workHours (checkOutDoc existing now))
          (toDateString (Js.setHours0 tz now)) i "check_out"),
     <[i := checkOutDoc existing now]> coll)).
  { unfold one.
    rewrite (scanTeacherQR_branches JWT_SECRET hmac tz Teacher_findById
               toLocaleTimeString toDateString numberToString
               _ _ _ _ _ _ Hdec Htype Hteacher).
    cbv zeta. rewrite Hfind', Hout.
    rewrite (validate_checkOutDoc toLocaleTimeString numberToString), Hvalid, Hin.
    reflexivity. }
  assert (Hother : other =
    (Reply.make 200 true "✅ Teacher check-out successful!"
       (CheckedOut (Teacher.name teacher) (toLocaleTimeString checkIn)
          (toLocaleTimeString now) (workHoursOf checkIn now)
          (toDateString (Js.setHours0 tz now)) i),
     <[i := qrCheckOutDoc existing now]> coll)).
  { unfold other.
    rewrite (scanTeacherAttendanceQR_branches _ _ _ _ _ Hdec Hid Hteacher).
    cbv zeta. rewrite Hfind, Hout, Hvalid, Hin. reflexivity. }
  rewrite Hone, Hother. cbn [fst snd code success message Reply.code Reply.success
                             Reply.message json].
  do 7 (split; [reflexivity|]).
  unfold qrController.checkOutDoc, qrControllerMore.qrCheckOutDoc.
  rewrite Hin. simpl. now repeat split.
Qed.

(** X19. [testTeacherScan] refuses nothing but an unknown teacher: for a
    teacher of the directory with an institution code, every call is
    answered with 200 and appends a document, so [count] calls leave [count]
    documents.  The documents have no check-in; the first of them is what
    [scanTeacherAttendanceQR] finds for the teacher that day, writes a
    check-out into and answers with 500. *)
Theorem test_scans_pile_up teacherId teacher now coll count :
  teacherId <> "" ->
  Teacher_findById teacherId = Some teacher ->
  Js.truthy (Teacher.institutionCode teacher) = true ->
  let doc := testDoc teacherId teacher (Js.setHours0 tz now) now in
  let again := fun coll => snd (testTeacherScan (Some teacherId) now coll) in
  Reply.code (fst (testTeacherScan (Some teacherId) now coll)) = 200 /\
  Nat.iter count again coll = coll ++ repeat doc count /\
  Attendance.teacherCheckIn doc = None /\
  forall qrToken now2 decoded,
    Attendance.findOne (teacherSince teacherId (Js.setHours0 tz now)) coll = None ->
    decodeAt qrToken now2 = Some decoded ->
    Payload.teacherId decoded = teacherId ->
    Js.setHours0 tz now2 = Js.setHours0 tz now ->
    scanTeacherAttendanceQR qrToken now2 (again coll) =
    (failedQrScan TypeError, coll ++ [qrCheckOutDoc doc now2]).
Proof.
  intros Hid Hteacher Hcode doc again.
  assert (Hvalid : Attendance.validate doc = true).
  { unfold Attendance.validate, doc; simpl. now rewrite Hcode. }
  assert (Hone : forall coll,
    testTeacherScan (Some teacherId) now coll =
    (Reply.make 200 true "✅ Test scan successful! Attendance stored."
       (TestScan (length coll) (Teacher.name teacher) (toLocaleTimeString now)
          (toDateString (Js.setHours0 tz now))),
     coll ++ [doc])).
  { intros c. unfold qrControllerMore.testTeacherScan.
    destruct (String.eqb_spec teacherId ""); [contradiction|].
    rewrite Hteacher. cbv zeta. fold doc. unfold Attendance.insertNew.
    now rewrite Hvalid. }
  split; [now rewrite Hone|]. split; [|split; [reflexivity|]].
  - induction count as [|n IH]; simpl.
    + now rewrite app_nil_r.
    + rewrite IH. unfold again at 1. rewrite Hone. simpl.
      rewrite <- app_assoc. f_equal. symmetry. apply repeat_cons.
  - intros qrToken now2 decoded Hnone Hdec Hdecoded Hday.
    unfold again. rewrite Hone. cbn [snd].
    rewrite <- Hdecoded in Hid, Hteacher.
    rewrite (scanTeacherAttendanceQR_branches _ _ _ _ _ Hdec Hid Hteacher).
    cbv zeta. rewrite Hdecoded, Hday.
    assert (Hmatch : teacherSince teacherId (Js.setHours0 tz now) doc = true).
    { unfold qrControllerMore.teacherSince, doc; simpl.
      rewrite bool_decide_eq_true_2 by reflexivity. apply Z.leb_refl. }
    rewrite (findOne_last _ _ _ Hnone Hmatch).
    change (Attendance.teacherCheckOut doc) with (@None Z).
    change (Attendance.teacherCheckIn doc) with (@None Z).
    rewrite Hvalid, insert_last. reflexivity.
Qed.

(** X20. On its own, [scanTeacherAttendanceQR] runs a day through the
    same three states.  For a teacher with no document of any kind dated
    today, the first scan appends a check-in document and answers 200; the
    second rewrites that document with [teacherCheckOut] and the rounded
    [workHours] and answers 200 with [success: true]; the third is answered
    "Attendance already completed for today" and writes nothing. *)
Theorem other_endpoint_day
    teacherId teacher today coll q1 t1 d1 q2 t2 d2 q3 t3 d3 :
  teacherId <> "" ->
  Teacher_findById teacherId = Some teacher ->
  Attendance.findOne (teacherSince teacherId today) coll = None ->
  decodeAt q1 t1 = Some d1 -> Payload.teacherId d1 = teacherId ->
  Js.setHours0 tz t1 = today ->
  decodeAt q2 t2 = Some d2 -> Payload.teacherId d2 = teacherId ->
  Js.setHours0 tz t2 = today ->
  decodeAt q3 t3 = Some d3 -> Payload.teacherId d3 = teacherId ->
  Js.setHours0 tz t3 = today ->
  Attendance.validate (qrCheckInDoc d1 teacher today t1) = true ->
  let first := scanTeacherAttendanceQR q1 t1 coll in
  let second := scanTeacherAttendanceQR q2 t2 (snd first) in
  let third := scanTeacherAttendanceQR q3 t3 (snd second) in
  let checkedIn := qrCheckInDoc d1 teacher today t1 in
  let checkedOut := qrCheckOutDoc checkedIn t2 in
  first =
    (Reply.make 200 true "✅ Teacher check-in successful!"
       (CheckedIn (Teacher.name teacher) (Teacher.teacherId teacher)
          (toLocaleTimeString t1) (toDateString today) (length coll) "present"),
     coll ++ [checkedIn]) /\
  second =
    (Reply.make 200 true "✅ Teacher check-out successful!"
       (CheckedOut (Teacher.name teacher) (toLocaleTimeString t1) (toLocaleTimeString t2)
          (workHoursOf t1 t2) (toDateString today) (length coll)),
     coll ++ [checkedOut]) /\
  Attendance.teacherCheckIn checkedOut = Some t1 /\
  Attendance.teacherCheckOut checkedOut = Some t2 /\
  Attendance.workHours checkedOut = workHoursOf t1 t2 /\
  third =
    (Reply.make 400 false "Attendance already completed for today" Nothing,
     coll ++ [checkedOut]).
Proof.
  intros Hne Hteacher Hnone Hdec1 Hid1 Hday1 Hdec2 Hid2 Hday2 Hdec3 Hid3 Hday3 Hvalid
    first second third checkedIn checkedOut.
  assert (Hmatch : forall d, Attendance.teacherId d = Some teacherId ->
                             Attendance.date d = today ->
                             teacherSince teacherId today d = true).
  { intros d Ht Hd. unfold qrControllerMore.teacherSince.
    rewrite Ht, Hd, bool_decide_eq_true_2 by reflexivity. apply Z.leb_refl. }
  assert (Hbranches : forall q t d coll',
    decodeAt q t = Some d -> Payload.teacherId d = teacherId ->
    Js.setHours0 tz t = today ->
    scanTeacherAttendanceQR q t coll' =
    match Attendance.findOne (teacherSince teacherId today) coll' with
    | None =>
        if Attendance.validate (qrCheckInDoc d teacher today t)
        then (Reply.make 200 true "✅ Teacher check-in successful!"
                (CheckedIn (Teacher.name teacher) (Teacher.teacherId teacher)
                   (toLocaleTimeString t) (toDateString today) (length coll') "present"),
              coll' ++ [qrCheckInDoc d teacher today t])
        else (failedQrScan ValidationError, coll')
    | Some (i, existing) =>
        match Attendance.teacherCheckOut existing with
        | Some _ =>
            (Reply.make 400 false "Attendance already completed for today" Nothing, coll')
        | None =>
            if Attendance.validate existing
            then (match Attendance.teacherCheckIn existing with
                  | Some checkIn =>
                      Reply.make 200 true "✅ Teacher check-out successful!"
                        (CheckedOut (Teacher.name teacher) (toLocaleTimeString checkIn)
                           (toLocaleTimeString t) (workHoursOf checkIn t)
                           (toDateString today) i)
                  | None => failedQrScan TypeError
                  end,
                  <[i := qrCheckOutDoc existing t]> coll')
            else (failedQrScan ValidationError, coll')
        end
    end).
  { intros q t d coll' Hdec Hid Hday.
    rewrite <- Hid in Hne, Hteacher.
    rewrite (scanTeacherAttendanceQR_branches _ _ _ _ _ Hdec Hne Hteacher).
    cbv zeta. now rewrite Hid, Hday. }
  assert (Hfirst : first =
    (Reply.make 200 true "✅ Teacher check-in successful!"
       (CheckedIn (Teacher.name teacher) (Teacher.teacherId teacher)
          (toLocaleTimeString t1) (toDateString today) (length coll) "present"),
     coll ++ [checkedIn])).
  { unfold first. rewrite (Hbranches _ _ _ _ Hdec1 Hid1 Hday1), Hnone.
    fold checkedIn. fold checkedIn in Hvalid. now rewrite Hvalid. }
  assert (Hin : teacherSince teacherId today checkedIn = true).
  { apply Hmatch; [|reflexivity]. unfold checkedIn; simpl. now rewrite Hid1. }
  assert (Hsecond : second =
    (Reply.make 200 true "✅ Teacher check-out successful!"
       (CheckedOut (Teacher.name teacher) (toLocaleTimeString t1) (toLocaleTimeString t2)
          (workHoursOf t1 t2) (toDateString today) (length coll)),
     coll ++ [checkedOut])).
  { unfold second. rewrite Hfirst. cbn [snd].
    rewrite (Hbranches _ _ _ _ Hdec2 Hid2 Hday2), (findOne_last _ _ _ Hnone Hin).
    change (Attendance.teacherCheckOut checkedIn) with (@None Z).
    change (Attendance.teacherCheckIn checkedIn) with (Some t1).
    change (Attendance.validate checkedIn)
      with (Attendance.validate (qrCheckInDoc d1 teacher today t1)).
    now rewrite Hvalid, insert_last. }
  split; [exact Hfirst|]. split; [exact Hsecond|].
  split; [reflexivity|]. split; [reflexivity|]. split; [reflexivity|].
  unfold third. rewrite Hsecond. cbn [snd].
  rewrite (Hbranches _ _ _ _ Hdec3 Hid3 Hday3).
  assert (Hout : teacherSince teacherId today checkedOut = true) by exact Hin.
  now rewrite (findOne_last _ _ _ Hnone Hout).
Qed.

End OtherEndpoints.

(** ** The reports *)

Section Reports.

Open Scope Z_scope.

Context (JWT_SECRET : string) (hmac : string -> Jwt.Claims -> string) (tz : Z)
  (Teacher_findById : string -> option Teacher.t)
  (Student_findById : string -> option Student.t)
  (toLocaleTimeString toDateString : Z -> string) (numberToString : Q -> string).

(** [cursor.sort] rearranges the documents it is given. *)
Context (sort : (Attendance.t -> Attendance.t -> bool) ->
                list Attendance.t -> list Attendance.t).
Hypothesis sort_Permutation : forall le l, Permutation (sort le l) l.

Import attendanceReports.

Local Abbreviation scanTeacherQR :=
  (scanTeacherQR JWT_SECRET hmac tz Teacher_findById
     toLocaleTimeString toDateString numberToString).
Local Abbreviation scanQR := (scanQR JWT_SECRET hmac tz).
Local Abbreviation markAttendance :=
  (markAttendance JWT_SECRET hmac Teacher_findById Student_findById
     toLocaleTimeString numberToString).
Local Abbreviation decodeAt := (decodeAt JWT_SECRET hmac).
Local Abbreviation handle :=
  (handle JWT_SECRET hmac tz Teacher_findById Student_findById
     toLocaleTimeString toDateString numberToString).
Local Abbreviation sequential :=
  (sequential JWT_SECRET hmac tz Teacher_findById Student_findById
     toLocaleTimeString toDateString numberToString).
Local Abbreviation teacherScanOn := (teacherScanOn JWT_SECRET hmac tz).
Local Abbreviation checkInDoc := (checkInDoc toLocaleTimeString).
Local Abbreviation checkOutDoc := (checkOutDoc toLocaleTimeString numberToString).
Local Abbreviation getMyAttendance :=
  (attendanceReports.getMyAttendance tz Teacher_findById sort).
Local Abbreviation getClassAttendance :=
  (attendanceReports.getClassAttendance tz Student_findById sort).
Local Abbreviation getDailySummary :=
  (attendanceReports.getDailySummary tz toDateString numberToString sort).
Local Abbreviation classQuery := (attendanceReports.classQuery tz).
Local Abbreviation getInstitutionReport :=
  (attendanceReports.getInstitutionReport tz Teacher_findById Student_findById
     toDateString numberToString sort).
Local Abbreviation institutionQuery := (attendanceReports.institutionQuery tz).
Local Abbreviation populateStudent := (attendanceReports.populateStudent Student_findById).
Local Abbreviation studentStrings := (attendanceReports.studentStrings Student_findById).
Local Abbreviation summarize := (attendanceReports.summarize numberToString).


Lemma filter_length_Permutation (f : Attendance.t -> bool) l l' :
  Permutation l l' -> length (List.filter f l) = length (List.filter f l').
Proof.
  induction 1 as [|x l l' _ IH|x y l|l l' l'' _ IH1 _ IH2]; simpl.
  - reflexivity.
  - destruct (f x); simpl; now rewrite IH.
  - now destruct (f x), (f y).
  - now rewrite IH1.
Qed.

Lemma countStatus_sort status le l :
  countStatus status (sort le l) = countStatus status l.
Proof.
  unfold countStatus. f_equal. apply filter_length_Permutation, sort_Permutation.
Qed.

Lemma length_sort le l : length (sort le l) = length l.
Proof. apply Permutation_length, sort_Permutation. Qed.

Lemma countStatus_app status l d :
  countStatus status (l ++ [d]) =
  countStatus status l + if bool_decide (Attendance.status d = status) then 1 else 0.
Proof.
  unfold countStatus. rewrite List.filter_app, length_app. simpl.
  destruct (bool_decide _); simpl; lia.
Qed.

(** Documents that are all [present] or [late] are counted by the two
    counts together. *)
Lemma countStatus_present_late l :
  Forall (fun d => Attendance.status d = Attendance.present \/
                   Attendance.status d = Attendance.late) l ->
  countStatus Attendance.present l + countStatus Attendance.late l = Z.of_nat (length l).
Proof.
  unfold countStatus. induction 1 as [|d l [Hd|Hd] _ IH]; [reflexivity| |];
    simpl; rewrite Hd; simpl; lia.
Qed.

Lemma setHours0_idem t : Js.setHours0 tz (Js.setHours0 tz t) = Js.setHours0 tz t.
Proof.
  unfold Js.setHours0.
  replace (t - (t + tz) mod 86400000 + tz)
    with ((t + tz) - (t + tz) mod 86400000) by lia.
  pose proof (Z.div_mod (t + tz) 86400000).
  replace ((t + tz) - (t + tz) mod 86400000)
    with (((t + tz) / 86400000) * 86400000) by lia.
  rewrite Z.mod_mul by lia. lia.
Qed.

(** The document of an accepted student redemption. *)
Lemma student_appended route qrToken studentId now coll :
  code (fst (handle (studentRequest route qrToken studentId) now coll)) = 200 ->
  exists decoded doc,
    decodeAt qrToken now = Some decoded /\
    snd (handle (studentRequest route qrToken studentId) now coll) = coll ++ [doc] /\
    Attendance.studentId doc = Some studentId /\
    Attendance.teacherId doc = Some (Payload.teacherId decoded) /\
    (Attendance.status doc = Attendance.present \/
     Attendance.status doc = Attendance.late) /\
    Attendance.date doc =
      match route with ViaScan => Js.setHours0 tz now | ViaMark => now end.
Proof.
  destruct route; unfold Routes.handle, Routes.read, studentRequest.
  - fold (scanQR qrToken studentId now coll). intros H200.
    destruct (decodeAt qrToken now) as [decoded|] eqn:Hdec.
    2:{ now apply (scanQR_undecoded JWT_SECRET hmac tz _ studentId _ coll) in Hdec
          as [_ Hne]. }
    rewrite (scanQR_branches JWT_SECRET hmac tz _ _ _ _ _ Hdec) in H200 |- *.
    destruct (_ <? _); [discriminate|].
    destruct (Attendance.findOne _ coll); [discriminate|].
    cbv zeta in H200 |- *. destruct (Attendance.validate _); [|discriminate].
    exists decoded. eexists. split; [reflexivity|]. split; [reflexivity|].
    split; [reflexivity|]. split; [reflexivity|]. split; [now left|reflexivity].
  - fold (markAttendance qrToken studentId now coll). intros H200.
    destruct (decodeAt qrToken now) as [decoded|] eqn:Hdec.
    2:{ now apply (markAttendance_undecoded JWT_SECRET hmac Teacher_findById
                     Student_findById toLocaleTimeString numberToString
                     _ studentId _ coll) in Hdec as [_ Hne]. }
    rewrite (markAttendance_branches JWT_SECRET hmac Teacher_findById Student_findById
               toLocaleTimeString numberToString _ _ _ _ _ Hdec) in H200 |- *.
    destruct (_ <? _); [discriminate|].
    destruct (Attendance.findOne _ coll); [discriminate|].
    destruct (Student_findById studentId) as [student|]; [|discriminate].
    destruct (Teacher_findById (Payload.teacherId decoded)) as [teacher|]; [|discriminate].
    cbv zeta in H200 |- *. destruct (Attendance.validate _); [|discriminate].
    exists decoded. eexists. split; [reflexivity|]. split; [reflexivity|].
    split; [reflexivity|]. split; [reflexivity|]. split; [|reflexivity].
    simpl. destruct (isLate _); [now right|now left].
Qed.

(** X21. An accepted redemption shows in the student's list of the day and
    in no other.  Asked on the day of the redemption, [getMyAttendance]
    counts one class more than it would have without it, and one more
    among those present or late; asked on a later day it answers as if the
    redemption had not been made, and so it does for every other student. *)
Theorem redemption_listed_for_the_day route qrToken studentId now coll later :
  code (fst (handle (studentRequest route qrToken studentId) now coll)) = 200 ->
  let coll' := snd (handle (studentRequest route qrToken studentId) now coll) in
  (Js.setHours0 tz later = Js.setHours0 tz now ->
   exists before after,
     Reply.data (getMyAttendance studentId later coll) = Some before /\
     Reply.data (getMyAttendance studentId later coll') = Some after /\
     MyAttendance.totalClasses after = MyAttendance.totalClasses before + 1 /\
     MyAttendance.presentCount after + MyAttendance.lateCount after =
       MyAttendance.presentCount before + MyAttendance.lateCount before + 1) /\
  (now < Js.setHours0 tz later ->
   getMyAttendance studentId later coll' = getMyAttendance studentId later coll) /\
  (forall other, other <> studentId ->
   getMyAttendance other later coll' = getMyAttendance other later coll).
Proof.
  intros H200 coll'. subst coll'.
  destruct (student_appended _ _ _ _ _ H200)
    as (decoded & doc & _ & -> & Hstudent & _ & Hstatus & Hdate).
  assert (Hrange : Js.setHours0 tz now <= Attendance.date doc <= now).
  { pose proof (Z.mod_pos_bound (now + tz) 86400000).
    rewrite Hdate. unfold Js.setHours0. destruct route; lia. }
  assert (Hfind : forall student today,
    find (studentSince student today) (coll ++ [doc]) =
    find (studentSince student today) coll
    ++ if studentSince student today doc then [doc] else []).
  { intros student today. unfold find. rewrite List.filter_app. simpl.
    now destruct (studentSince student today doc). }
  assert (Hout : forall student,
    studentSince student (Js.setHours0 tz later) doc = false ->
    getMyAttendance student later (coll ++ [doc]) = getMyAttendance student later coll).
  { intros student Hno. unfold attendanceReports.getMyAttendance. cbv zeta.
    now rewrite Hfind, Hno, app_nil_r. }
  split; [|split].
  - intros Hday. unfold attendanceReports.getMyAttendance. cbv zeta.
    do 2 eexists. split; [reflexivity|]. split; [reflexivity|].
    cbn [MyAttendance.totalClasses MyAttendance.presentCount MyAttendance.lateCount].
    rewrite Hfind.
    assert (Hin : studentSince studentId (Js.setHours0 tz later) doc = true).
    { unfold studentSince. rewrite Hstudent, bool_decide_eq_true_2 by reflexivity.
      apply Z.leb_le. lia. }
    rewrite Hin, !length_sort, !countStatus_sort, !countStatus_app, length_app.
    simpl. split; [lia|].
    destruct Hstatus as [-> | ->]; simpl; lia.
  - intros Hnext. apply Hout. unfold studentSince.
    replace (Js.setHours0 tz later <=? Attendance.date doc) with false
      by (symmetry; apply Z.leb_gt; lia).
    apply andb_false_r.
  - intros other Hother. apply Hout. unfold studentSince.
    rewrite Hstudent, bool_decide_eq_false_2 by congruence. reflexivity.
Qed.

Lemma studentStrings_sub l l' strings :
  (forall d, d ∈ l' -> d ∈ l) ->
  studentStrings l = Some strings -> is_Some (studentStrings l').
Proof.
  intros Hsub Hsome. unfold attendanceReports.studentStrings in *.
  apply mapM_is_Some. apply Forall_forall. intros d Hd.
  assert (Hall : Forall (is_Some ∘ (fun a => fst <$> populateStudent a)) l).
  { apply mapM_is_Some. now exists strings. }
  rewrite Forall_forall in Hall. now apply Hall, Hsub.
Qed.

Lemma elem_of_sort le l d : d ∈ sort le l <-> d ∈ l.
Proof. now rewrite (sort_Permutation le l). Qed.

(** X22. [getClassAttendance] asks for the documents whose [date] is the
    midnight of the day in its query.  [scanQR] dates its documents at
    midnight, and its document is among those of the day; [markAttendance]
    dates its documents at the instant of the scan, and unless that is a
    midnight to the millisecond, no [date] in the query finds the document:
    the answer is what it would be without the redemption. *)
Theorem class_attendance_by_date route qrToken studentId now coll decoded :
  code (fst (handle (studentRequest route qrToken studentId) now coll)) = 200 ->
  decodeAt qrToken now = Some decoded ->
  let coll' := snd (handle (studentRequest route qrToken studentId) now coll) in
  match route with
  | ViaScan =>
      forall day after,
        Js.setHours0 tz day = Js.setHours0 tz now ->
        Reply.data (getClassAttendance (Payload.teacherId decoded) (Some day) None None coll')
          = Some after ->
        exists before,
          Reply.data (getClassAttendance (Payload.teacherId decoded) (Some day) None None coll)
            = Some before /\
          length (ClassAttendance.attendance after)
            = S (length (ClassAttendance.attendance before))
  | ViaMark =>
      now <> Js.setHours0 tz now ->
      forall teacherId day subject className,
        getClassAttendance teacherId (Some day) subject className coll'
        = getClassAttendance teacherId (Some day) subject className coll
  end.
Proof.
  intros H200 Hdec coll'. subst coll'.
  destruct (student_appended _ _ _ _ _ H200)
    as (decoded' & doc & Hdec' & -> & Hstudent & Hteacher & Hstatus & Hdate).
  assert (decoded' = decoded) as -> by congruence.
  destruct route.
  - intros day after Hday.
    unfold attendanceReports.getClassAttendance. cbv zeta.
    assert (Hin : classQuery (Payload.teacherId decoded) (Some day) None None doc = true).
    { unfold attendanceReports.classQuery. rewrite Hteacher, Hdate, Hday.
      rewrite bool_decide_eq_true_2 by reflexivity. simpl.
      now rewrite Z.eqb_refl. }
    assert (Hfind : find (classQuery (Payload.teacherId decoded) (Some day) None None)
                      (coll ++ [doc])
                    = find (classQuery (Payload.teacherId decoded) (Some day) None None) coll
                      ++ [doc]).
    { unfold find. rewrite List.filter_app. simpl. now rewrite Hin. }
    rewrite Hfind.
    set (found := find (classQuery (Payload.teacherId decoded) (Some day) None None) coll).
    destruct (studentStrings (sort scanTimeAscending (found ++ [doc])))
      as [strings'|] eqn:Hafter; [|discriminate].
    assert (Hsub : forall d, d ∈ sort scanTimeAscending found ->
                             d ∈ sort scanTimeAscending (found ++ [doc])).
    { intros d Hd. apply elem_of_sort. apply elem_of_sort in Hd.
      apply elem_of_app. now left. }
    destruct (studentStrings_sub _ _ _ Hsub Hafter) as [strings Hbefore].
    rewrite Hbefore. cbn [Reply.data]. intros [= <-].
    eexists. split; [reflexivity|].
    cbn [ClassAttendance.attendance].
    rewrite !length_map, !length_sort, length_app. simpl. lia.
  - intros Hmidnight teacherId day subject className.
    unfold attendanceReports.getClassAttendance. cbv zeta.
    assert (Hout : classQuery teacherId (Some day) subject className doc = false).
    { unfold attendanceReports.classQuery. rewrite Hdate.
      destruct (Z.eqb_spec now (Js.setHours0 tz day)) as [Heq|_].
      - exfalso. apply Hmidnight. rewrite Heq at 2. now rewrite setHours0_idem.
      - now rewrite andb_false_r. }
    unfold find. rewrite List.filter_app. simpl. rewrite Hout. now rewrite app_nil_r.
Qed.

(** An accepted teacher scan leaves a teacher document of that teacher. *)
Lemma teacher_scan_document teacherId today qrToken user now coll :
  teacherScanOn teacherId today qrToken now = true ->
  code (fst (scanTeacherQR qrToken user now coll)) = 200 ->
  exists i d,
    snd (scanTeacherQR qrToken user now coll) !! i = Some d /\
    teacherToday teacherId today d = true.
Proof.
  intros Hscan.
  apply (teacherScanOn_inv JWT_SECRET hmac tz) in Hscan
    as (decoded & Hdec & Htype & <- & <-).
  destruct (Teacher_findById (Payload.teacherId decoded)) as [teacher|] eqn:Hteacher.
  - rewrite (scanTeacherQR_branches JWT_SECRET hmac tz Teacher_findById
               toLocaleTimeString toDateString numberToString
               _ _ _ _ _ _ Hdec Htype Hteacher).
    cbv zeta.
    destruct (Attendance.findOne _ coll) as [[i existing]|] eqn:Hfind.
    + destruct (Attendance.teacherCheckOut existing); [discriminate|].
      destruct (Attendance.validate _); [|discriminate].
      intros _. apply findOne_Some in Hfind as (Hi & Hmatch & Hlt).
      exists i, (checkOutDoc existing now).
      split; [now apply list_lookup_insert_eq|assumption].
    + destruct (Attendance.validate _); [|discriminate].
      intros _. eexists (length coll), _.
      split; [apply list_lookup_middle; reflexivity|].
      apply teacherToday_checkInDoc.
  - unfold qrController.scanTeacherQR, scanTeacherQR_read.
    unfold Routes.decodeAt in Hdec.
    destruct (Jwt.present qrToken) as [t|]; [|discriminate].
    destruct (Jwt.verify hmac t JWT_SECRET now) as [claims|e]; [|discriminate].
    injection Hdec as ->. rewrite Htype, Hteacher.
    rewrite bool_decide_eq_true_2 by reflexivity. discriminate.
Qed.

(** X23. [getClassAttendance] calls [toString] on the student of every
    document of the teacher, and a teacher's own attendance document has
    none.  Once [scanTeacherQR] has accepted a scan of the teacher, the
    class attendance of that teacher, asked for without a date, a subject
    or a class, is answered with 500. *)
Theorem class_attendance_fails_after_teacher_scan
    teacherId today qrToken user now coll subject className :
  sequential coll ->
  teacherScanOn teacherId today qrToken now = true ->
  code (fst (scanTeacherQR qrToken user now coll)) = 200 ->
  Js.truthy subject = false ->
  Js.truthy className = false ->
  getClassAttendance teacherId None subject className
    (snd (scanTeacherQR qrToken user now coll))
  = Reply.make 500 false "Failed to fetch class attendance" None.
Proof.
  intros Hseq Hscan H200 Hsubject Hclass.
  destruct (teacher_scan_document _ _ _ _ _ _ Hscan H200) as (i & d & Hi & Hmatch).
  assert (Hseq' : sequential (snd (scanTeacherQR qrToken user now coll))).
  { apply (sequential_handle JWT_SECRET hmac tz Teacher_findById Student_findById
             toLocaleTimeString toDateString numberToString
             coll (PostTeacherScan qrToken user) now Hseq). }
  pose proof (Forall_lookup_1 _ _ _ _
                (sequential_wellFormed JWT_SECRET hmac tz Teacher_findById Student_findById
                   toLocaleTimeString toDateString numberToString _ Hseq') Hi)
    as (_ & _ & _ & _ & Hkind).
  unfold teacherToday in Hmatch.
  rewrite !andb_true_iff, !bool_decide_eq_true in Hmatch.
  destruct Hmatch as [[Hteacher _] Htype]. rewrite Htype in Hkind.
  destruct Hkind as (Hnobody & _).
  unfold attendanceReports.getClassAttendance. cbv zeta.
  set (coll' := snd (scanTeacherQR qrToken user now coll)) in *.
  replace (studentStrings
             (sort scanTimeAscending
                (find (classQuery teacherId None subject className) coll')))
    with (@None (list string)); [reflexivity|].
  symmetry. apply mapM_None. apply Exists_exists. exists d. split.
  - apply elem_of_sort. unfold find.
    apply list_elem_of_In, List.filter_In. split.
    + apply list_elem_of_In. now apply list_elem_of_lookup_2 with i.
    + unfold attendanceReports.classQuery.
      rewrite Hteacher, Hsubject, Hclass. now rewrite bool_decide_eq_true_2.
  - unfold attendanceReports.populateStudent. now rewrite Hnobody.
Qed.

Lemma remove_dups_length (l : list string) : (length (remove_dups l) <= length l)%nat.
Proof.
  induction l as [|x l IH]; simpl; [lia|].
  destruct (decide_rel elem_of x l); simpl; lia.
Qed.

(** X24. On a collection written by the three routes, every document is
    [present] or [late], so the statistics of [getClassAttendance] cannot
    show an absence: [present] and [late] add up to the number of records,
    no more students than records are counted, and [absent], the number of
    students less the records, is never positive. *)
Theorem class_statistics teacherId date subject className coll report :
  sequential coll ->
  Reply.data (getClassAttendance teacherId date subject className coll) = Some report ->
  let statistics := ClassAttendance.statistics report in
  let records := Z.of_nat (length (ClassAttendance.attendance report)) in
  Statistics.present statistics + Statistics.late statistics = records /\
  0 <= Statistics.totalStudents statistics <= records /\
  Statistics.absent statistics = Statistics.totalStudents statistics - records /\
  Statistics.absent statistics <= 0 /\
  Forall (fun a => is_Some (snd a)) (ClassAttendance.attendance report).
Proof.
  intros Hseq. unfold attendanceReports.getClassAttendance. cbv zeta.
  set (found := sort scanTimeAscending
                  (find (classQuery teacherId date subject className) coll)).
  destruct (studentStrings found) as [strings|] eqn:Hstrings; [|discriminate].
  cbn [Reply.data]. intros [= <-].
  cbn [ClassAttendance.statistics ClassAttendance.attendance Statistics.present
       Statistics.late Statistics.totalStudents Statistics.absent].
  assert (Hstatus : Forall (fun d => Attendance.status d = Attendance.present \/
                                     Attendance.status d = Attendance.late) found).
  { apply Forall_forall. intros d Hd. unfold found in Hd.
    apply elem_of_sort in Hd. unfold find in Hd.
    apply list_elem_of_In, List.filter_In in Hd as [Hd _].
    apply list_elem_of_In, list_elem_of_lookup in Hd as [i Hi].
    now destruct (Forall_lookup_1 _ _ _ _
                    (sequential_wellFormed JWT_SECRET hmac tz Teacher_findById
                       Student_findById toLocaleTimeString toDateString numberToString
                       coll Hseq) Hi) as (_ & H & _). }
  pose proof (countStatus_present_late found Hstatus) as Hcount.
  assert (Hlen : length strings = length found).
  { unfold attendanceReports.studentStrings in Hstrings.
    apply mapM_Some_1 in Hstrings. symmetry. now apply Forall2_length in Hstrings. }
  pose proof (remove_dups_length strings) as Hdups.
  rewrite length_map. split; [exact Hcount|]. split; [lia|]. split; [lia|].
  split; [lia|].
  apply Forall_forall. intros a Ha. apply list_elem_of_fmap in Ha as (d & -> & Hd).
  cbn [snd].
  assert (Hall : Forall (is_Some ∘ (fun a => fst <$> populateStudent a)) found).
  { apply mapM_is_Some. now exists strings. }
  rewrite Forall_forall in Hall. specialize (Hall d Hd). cbn in Hall.
  destruct (populateStudent d); [now eexists|]. now destruct Hall.
Qed.

(** X25. On a collection written by the three routes, the list of
    [getMyAttendance] has no record that is neither [present] nor [late]:
    [presentCount] and [lateCount] add up to [totalClasses], the number of
    records listed. *)
Theorem my_attendance_counts studentId now coll report :
  sequential coll ->
  Reply.data (getMyAttendance studentId now coll) = Some report ->
  MyAttendance.totalClasses report
    = Z.of_nat (length (MyAttendance.attendance report)) /\
  MyAttendance.presentCount report + MyAttendance.lateCount report
    = MyAttendance.totalClasses report /\
  Forall (fun a => Attendance.studentId (fst a) = Some studentId /\
                   Js.setHours0 tz now <= Attendance.date (fst a))
    (MyAttendance.attendance report).
Proof.
  intros Hseq. unfold attendanceReports.getMyAttendance. cbv zeta.
  cbn [Reply.data]. intros [= <-].
  cbn [MyAttendance.totalClasses MyAttendance.attendance MyAttendance.presentCount
       MyAttendance.lateCount].
  set (found := sort scanTimeDescending
                  (find (studentSince studentId (Js.setHours0 tz now)) coll)).
  assert (Hfound : forall d, d ∈ found ->
    (d ∈ coll) /\ studentSince studentId (Js.setHours0 tz now) d = true).
  { intros d Hd. unfold found in Hd. apply elem_of_sort in Hd. unfold find in Hd.
    apply list_elem_of_In, List.filter_In in Hd as [Hd Hq].
    split; [now apply list_elem_of_In|assumption]. }
  assert (Hstatus : Forall (fun d => Attendance.status d = Attendance.present \/
                                     Attendance.status d = Attendance.late) found).
  { apply Forall_forall. intros d Hd. apply Hfound in Hd as [Hd _].
    apply list_elem_of_lookup in Hd as [i Hi].
    now destruct (Forall_lookup_1 _ _ _ _
                    (sequential_wellFormed JWT_SECRET hmac tz Teacher_findById
                       Student_findById toLocaleTimeString toDateString numberToString
                       coll Hseq) Hi) as (_ & H & _). }
  rewrite length_map. split; [reflexivity|].
  split; [now apply countStatus_present_late|].
  apply Forall_forall. intros a Ha. apply list_elem_of_fmap in Ha as (d & -> & Hd).
  cbn [fst]. apply Hfound in Hd as [_ Hq]. unfold studentSince in Hq.
  now rewrite andb_true_iff, bool_decide_eq_true, Z.leb_le in Hq.
Qed.

(** *** The daily summary *)

Lemma tallyUnder_sum key record summary :
  sumOver Item.totalStudents (map snd (tallyUnder key record summary))
  = sumOver Item.totalStudents (map snd summary) + 1.
Proof.
  induction summary as [|[k item] rest IH]; simpl; [lia|].
  destruct (String.eqb k key); simpl; lia.
Qed.

Lemma tally_ok record item :
  0 <= Item.totalStudents item -> 0 <= Item.present item -> 0 <= Item.late item ->
  Item.present item + Item.late item <= Item.totalStudents item ->
  entryOk (tally record item).
Proof.
  intros H0 H1 H2 H3. unfold entryOk, tally; simpl.
  destruct (Attendance.status record); simpl; lia.
Qed.

Lemma tallyUnder_ok key record summary :
  Forall (fun entry => entryOk (snd entry)) summary ->
  Forall (fun entry => entryOk (snd entry)) (tallyUnder key record summary).
Proof.
  induction 1 as [|[k item] rest Hitem Hrest IH]; simpl.
  - constructor; [|constructor]. apply tally_ok; simpl; lia.
  - destruct (String.eqb k key).
    + constructor; [|assumption]. destruct Hitem as (H0 & H1 & H2 & H3).
      apply tally_ok; simpl in *; lia.
    + constructor; assumption.
Qed.

Lemma summarize_spec attendance :
  sumOver Item.totalStudents (map snd (summarize attendance))
    = Z.of_nat (length attendance) /\
  Forall (fun entry => entryOk (snd entry)) (summarize attendance).
Proof.
  unfold attendanceReports.summarize.
  assert (Hgen : forall summary,
    Forall (fun entry => entryOk (snd entry)) summary ->
    sumOver Item.totalStudents
      (map snd (fold_left
                  (fun summary record =>
                     tallyUnder (summaryKey numberToString record) record summary)
                  attendance summary))
    = sumOver Item.totalStudents (map snd summary) + Z.of_nat (length attendance) /\
    Forall (fun entry => entryOk (snd entry))
      (fold_left
         (fun summary record =>
            tallyUnder (summaryKey numberToString record) record summary)
         attendance summary)).
  { induction attendance as [|record rest IH]; intros summary Hok.
    - simpl. split; [lia|assumption].
    - cbn [fold_left].
      destruct (IH _ (tallyUnder_ok (summaryKey numberToString record) record _ Hok))
        as [Hsum Hall].
      split; [|assumption].
      rewrite Hsum, tallyUnder_sum. cbn [length]. lia. }
  destruct (Hgen [] ltac:(constructor)) as [Hsum Hall].
  split; [exact Hsum|exact Hall].
Qed.

Lemma sumOver_withAbsent (entries : list (string * Item.t)) :
  sumOver Item.totalStudents (map (fun entry => withAbsent (snd entry)) entries)
  = sumOver Item.totalStudents (map snd entries).
Proof.
  induction entries as [|[k item] rest IH]; simpl; [reflexivity|]. now rewrite IH.
Qed.

(** X26. The daily summary accounts for every record once: the
    [totalStudents] of its entries add up to the number of documents of the
    teacher dated from the day on, there are no more entries than such
    documents, and in every entry [absent] is [totalStudents] less
    [present] and [late] and not negative. *)
Theorem daily_summary_adds_up teacherId date now coll report :
  Reply.data (getDailySummary teacherId date now coll) = Some report ->
  let records :=
    Z.of_nat (length (List.filter
                        (qrControllerMore.teacherSince teacherId
                           (Js.setHours0 tz (default now date))) coll)) in
  sumOver Item.totalStudents (DailySummary.summary report) = records /\
  DailySummary.totalClasses report = Z.of_nat (length (DailySummary.summary report)) /\
  DailySummary.totalClasses report <= records /\
  Forall (fun item =>
            1 <= Item.totalStudents item /\
            Item.absent item
              = Item.totalStudents item - (Item.present item + Item.late item) /\
            0 <= Item.absent item < Item.totalStudents item + 1)
    (DailySummary.summary report).
Proof.
  unfold attendanceReports.getDailySummary. cbv zeta. cbn [Reply.data].
  intros [= <-].
  cbn [DailySummary.summary DailySummary.totalClasses].
  set (found := sort periodThenScanTime
                  (find (qrControllerMore.teacherSince teacherId
                           (Js.setHours0 tz (default now date))) coll)).
  destruct (summarize_spec found) as [Hsum Hall].
  assert (Hlen : length found
                 = length (List.filter
                             (qrControllerMore.teacherSince teacherId
                                (Js.setHours0 tz (default now date))) coll)).
  { unfold found. now rewrite length_sort. }
  assert (Hitems : Forall (fun item =>
            1 <= Item.totalStudents item /\
            Item.absent item
              = Item.totalStudents item - (Item.present item + Item.late item) /\
            0 <= Item.absent item < Item.totalStudents item + 1)
    (map (fun entry => withAbsent (snd entry)) (summarize found))).
  { apply Forall_fmap. eapply Forall_impl; [exact Hall|].
    intros [k item] (H0 & H1 & H2 & H3). simpl in *. lia. }
  split; [now rewrite sumOver_withAbsent, Hsum, Hlen|].
  split; [reflexivity|]. split; [|exact Hitems].
  rewrite <- Hlen, <- Hsum, <- sumOver_withAbsent.
  clear -Hitems. induction Hitems as [|item rest (H1 & _) _ IH]; simpl; lia.
Qed.

(** The check-in of a teacher who has no document for the day. *)
Lemma teacher_check_in_appended teacherId today qrToken user now coll :
  teacherScanOn teacherId today qrToken now = true ->
  Attendance.findOne (teacherToday teacherId today) coll = None ->
  code (fst (scanTeacherQR qrToken user now coll)) = 200 ->
  exists doc,
    snd (scanTeacherQR qrToken user now coll) = coll ++ [doc] /\
    teacherToday teacherId today doc = true.
Proof.
  intros Hscan Hnone.
  apply (teacherScanOn_inv JWT_SECRET hmac tz) in Hscan
    as (decoded & Hdec & Htype & <- & <-).
  destruct (Teacher_findById (Payload.teacherId decoded)) as [teacher|] eqn:Hteacher.
  - rewrite (scanTeacherQR_branches JWT_SECRET hmac tz Teacher_findById
               toLocaleTimeString toDateString numberToString
               _ _ _ _ _ _ Hdec Htype Hteacher).
    cbv zeta. rewrite Hnone.
    destruct (Attendance.validate _); [|discriminate].
    intros _. eexists. split; [reflexivity|]. apply teacherToday_checkInDoc.
  - unfold qrController.scanTeacherQR, scanTeacherQR_read.
    unfold Routes.decodeAt in Hdec.
    destruct (Jwt.present qrToken) as [t|]; [|discriminate].
    destruct (Jwt.verify hmac t JWT_SECRET now) as [claims|e]; [|discriminate].
    injection Hdec as ->. rewrite Htype, Hteacher.
    rewrite bool_decide_eq_true_2 by reflexivity. discriminate.
Qed.

(** The records a daily summary accounts for. *)
Lemma daily_summary_total teacherId date now coll :
  exists report,
    Reply.data (getDailySummary teacherId date now coll) = Some report /\
    sumOver Item.totalStudents (DailySummary.summary report)
    = Z.of_nat (length (List.filter
                          (qrControllerMore.teacherSince teacherId
                             (Js.setHours0 tz (default now date))) coll)).
Proof.
  unfold attendanceReports.getDailySummary. cbv zeta. cbn [Reply.data].
  eexists. split; [reflexivity|]. cbn [DailySummary.summary].
  rewrite sumOver_withAbsent.
  destruct (summarize_spec
              (sort periodThenScanTime
                 (find (qrControllerMore.teacherSince teacherId
                          (Js.setHours0 tz (default now date))) coll))) as [-> _].
  now rewrite length_sort.
Qed.

(** X27. The daily summary does not tell a teacher's own attendance from a
    class: it asks for every document of the teacher dated from the day on.
    The check-in of [scanTeacherQR] adds one record to the teacher's
    summary of that day. *)
Theorem daily_summary_counts_the_teacher teacherId today qrToken user now coll later :
  teacherScanOn teacherId today qrToken now = true ->
  Attendance.findOne (teacherToday teacherId today) coll = None ->
  code (fst (scanTeacherQR qrToken user now coll)) = 200 ->
  Js.setHours0 tz later = today ->
  exists before after,
    Reply.data (getDailySummary teacherId None later coll) = Some before /\
    Reply.data (getDailySummary teacherId None later
                  (snd (scanTeacherQR qrToken user now coll))) = Some after /\
    sumOver Item.totalStudents (DailySummary.summary after)
    = sumOver Item.totalStudents (DailySummary.summary before) + 1.
Proof.
  intros Hscan Hnone H200 Hday.
  destruct (teacher_check_in_appended _ _ _ _ _ _ Hscan Hnone H200)
    as (doc & Hsnd & Hmatch).
  destruct (daily_summary_total teacherId None later coll) as (before & Hbefore & Hsum).
  destruct (daily_summary_total teacherId None later
              (snd (scanTeacherQR qrToken user now coll))) as (after & Hafter & Hsum').
  exists before, after. split; [exact Hbefore|]. split; [exact Hafter|].
  rewrite Hsum, Hsum', Hsnd, List.filter_app, length_app. cbn [default].
  rewrite Hday. rewrite teacherToday_teacherSince, andb_true_iff in Hmatch.
  destruct Hmatch as [Hmatch _]. simpl. rewrite Hmatch. simpl. lia.
Qed.

(** X28. [getInstitutionReport] reads the [_id] of the student of every
    document of the institution in the range asked for, and a teacher's own
    attendance document has no student.  On a collection written by the
    three routes, one teacher document that meets the query is enough for
    the report to be answered with 500. *)
Theorem institution_report_fails_on_teacher_document
    institutionCode range coll i d :
  sequential coll ->
  coll !! i = Some d ->
  Attendance.attendanceType d = Attendance.teacher ->
  institutionQuery institutionCode range d = true ->
  getInstitutionReport institutionCode range coll
  = Reply.make 500 false "Failed to generate institution report" None.
Proof.
  intros Hseq Hi Htype Hmatch.
  pose proof (Forall_lookup_1 _ _ _ _
                (sequential_wellFormed JWT_SECRET hmac tz Teacher_findById Student_findById
                   toLocaleTimeString toDateString numberToString _ Hseq) Hi)
    as (_ & _ & _ & _ & Hkind).
  rewrite Htype in Hkind. destruct Hkind as (Hnobody & _).
  unfold attendanceReports.getInstitutionReport. cbv zeta.
  replace (studentStrings
             (sort (dateDescending)
                (find (institutionQuery institutionCode range) coll)))
    with (@None (list string)); [reflexivity|].
  symmetry. apply mapM_None. apply Exists_exists. exists d. split.
  - apply elem_of_sort. unfold find.
    apply list_elem_of_In, List.filter_In. split.
    + apply list_elem_of_In. now apply list_elem_of_lookup_2 with i.
    + exact Hmatch.
  - unfold attendanceReports.populateStudent. now rewrite Hnobody.
Qed.

(** X29. On a collection written by the three routes, an institution
    report that is answered counts only student documents, all [present]
    or [late]: [present] and [late] add up to [totalRecords], [absent] is
    zero, neither more students nor more classes than records are counted,
    and [recentAttendance] holds the first fifty records, or all of them
    when there are fewer. *)
Theorem institution_statistics institutionCode range coll report :
  sequential coll ->
  Reply.data (getInstitutionReport institutionCode range coll) = Some report ->
  let statistics := InstitutionReport.statistics report in
  let records := InstitutionReport.totalRecords report in
  Counts.present statistics + Counts.late statistics = records /\
  Counts.absent statistics = 0 /\
  0 <= InstitutionReport.totalStudents report <= records /\
  0 <= InstitutionReport.totalClasses report <= records /\
  Z.of_nat (length (InstitutionReport.recentAttendance report)) = Z.min 50 records /\
  Forall (fun a => Attendance.attendanceType (fst (fst a)) = Attendance.student /\
                   is_Some (snd a))
    (InstitutionReport.recentAttendance report).
Proof.
  intros Hseq. unfold attendanceReports.getInstitutionReport. cbv zeta.
  set (found := sort dateDescending
                  (find (institutionQuery institutionCode range) coll)).
  destruct (studentStrings found) as [strings|] eqn:Hstrings; [|discriminate].
  cbn [Reply.data]. intros [= <-].
  cbn [InstitutionReport.statistics InstitutionReport.totalRecords
       InstitutionReport.totalStudents InstitutionReport.totalClasses
       InstitutionReport.recentAttendance Counts.present Counts.late Counts.absent].
  assert (Hwell : Forall wellFormed found).
  { apply Forall_forall. intros d Hd. unfold found in Hd.
    apply elem_of_sort in Hd. unfold find in Hd.
    apply list_elem_of_In, List.filter_In in Hd as [Hd _].
    apply list_elem_of_In, list_elem_of_lookup in Hd as [i Hi].
    exact (Forall_lookup_1 _ _ _ _
             (sequential_wellFormed JWT_SECRET hmac tz Teacher_findById
                Student_findById toLocaleTimeString toDateString numberToString
                coll Hseq) Hi). }
  assert (Hstatus : Forall (fun d => Attendance.status d = Attendance.present \/
                                     Attendance.status d = Attendance.late) found).
  { eapply Forall_impl; [exact Hwell|]. now intros d (_ & H & _). }
  pose proof (countStatus_present_late found Hstatus) as Hcount.
  assert (Hlen : length strings = length found).
  { unfold attendanceReports.studentStrings in Hstrings.
    apply mapM_Some_1 in Hstrings. symmetry. now apply Forall2_length in Hstrings. }
  pose proof (remove_dups_length strings) as Hdups.
  pose proof (remove_dups_length (map (classKey toDateString numberToString) found)) as Hkeys.
  rewrite length_map in Hkeys.
  split; [exact Hcount|]. split; [lia|]. split; [lia|]. split; [lia|].
  split.
  { rewrite length_take, length_map. lia. }
  apply Forall_forall. intros a Ha.
  apply elem_of_take in Ha as (n & Ha & _).
  apply list_elem_of_lookup_2 in Ha.
  apply list_elem_of_fmap in Ha as (d & -> & Hd).
  cbn [fst snd].
  assert (Hall : Forall (is_Some ∘ (fun a => fst <$> populateStudent a)) found).
  { apply mapM_is_Some. now exists strings. }
  rewrite Forall_forall in Hall, Hwell. specialize (Hall d Hd). cbn in Hall.
  specialize (Hwell d Hd). destruct Hwell as (_ & _ & _ & _ & Hkind).
  split.
  - destruct (Attendance.attendanceType d); [reflexivity|].
    destruct Hkind as (Hnobody & _).
    unfold attendanceReports.populateStudent in Hall. rewrite Hnobody in Hall.
    now destruct Hall.
  - destruct (populateStudent d); [now eexists|]. now destruct Hall.
Qed.

End Reports.

(** * More runs on the small installation *)

Section MoreRuns.

Open Scope Z_scope.

Local Abbreviation installation theorem :=
  (theorem Demo.secret Demo.hmac Demo.tz Demo.teachers Demo.students
     Demo.clockText Demo.dayText Demo.numberText) (only parsing).

Local Abbreviation desk theorem :=
  (theorem Demo.secret Demo.hmac Demo.tz Demo.teachers
     Demo.clockText Demo.dayText Demo.numberText) (only parsing).

Lemma insertSorted_Permutation le a l :
  Permutation (DemoMore.insertSorted le a l) (a :: l).
Proof.
  induction l as [|b l IH]; simpl; [reflexivity|].
  destruct (le a b); [reflexivity|].
  rewrite IH. apply perm_swap.
Qed.

Lemma insertion_sort_Permutation le l : Permutation (DemoMore.sort le l) l.
Proof.
  induction l as [|a l IH]; simpl; [reflexivity|].
  rewrite insertSorted_Permutation. now constructor.
Qed.

Local Abbreviation sorted theorem :=
  (theorem Demo.secret Demo.hmac Demo.tz Demo.teachers Demo.students
     Demo.clockText Demo.dayText Demo.numberText DemoMore.sort
     insertion_sort_Permutation) (only parsing).

Lemma sequential_afterScan :
  sequential Demo.secret Demo.hmac Demo.tz Demo.teachers Demo.students
    Demo.clockText Demo.dayText Demo.numberText DemoMore.afterScan.
Proof. apply sequential_handle, sequential_empty. Qed.

(** X1 on the scan of a class token at 09:00:45. *)
Lemma written_iff_200_run :
  let answer := Demo.handle (PostScan Demo.classQr "student-1") (Demo.nine + 45000) [] in
  code (fst answer) = 200 /\ snd answer <> [].
Proof.
  intros answer. split; [vm_compute; reflexivity|].
  destruct (installation written_iff_200
              (PostScan Demo.classQr "student-1") (Demo.nine + 45000) [])
    as [Hwritten _].
  - apply sequential_empty.
  - apply Hwritten. vm_compute. reflexivity.
Defined.

(** X2 on the check-out at 09:30:00 of the check-in at 09:00:00. *)
Lemma documents_kept_run :
  exists d',
    snd (Demo.handle (PostTeacherScan Demo.halfPast None) Demo.halfPastNine
           [Demo.checkedInAtNine]) !! 0%nat = Some d' /\
    (d' = Demo.checkedInAtNine \/ d' = DemoMore.checkedOutAtHalfPast).
Proof.
  pose proof (installation documents_kept
                (PostTeacherScan Demo.halfPast None) Demo.halfPastNine
                [Demo.checkedInAtNine] 0%nat Demo.checkedInAtNine eq_refl) as Hkept.
  cbv zeta in Hkept. destruct Hkept as [_ (d' & Hd' & Hcases & _)].
  exists d'. split; [exact Hd'|exact Hcases].
Defined.

(** X3 on the document of a redemption at 09:01:00.001. *)
Lemma sequential_documents_run :
  Attendance.validate DemoMore.lateDoc = true /\
  0 <= Attendance.lateMinutes DemoMore.lateDoc <= 5.
Proof.
  destruct (installation sequential_documents
              (snd (Demo.handle (PostMark Demo.classQr "student-1") (Demo.nine + 60001) []))
              0%nat DemoMore.lateDoc)
    as (Hvalid & _ & _ & Hminutes & _).
  - apply sequential_handle, sequential_empty.
  - vm_compute. reflexivity.
  - split; [exact Hvalid|exact Hminutes].
Defined.

(** X4 on the check-in at 09:00:00 and the check-out at 09:30:00. *)
Lemma served_workHours_run :
  (0 <= Attendance.workHours DemoMore.checkedOutAtHalfPast <= 24)%Q.
Proof.
  destruct (installation served_workHours Demo.halfPastNine
              (snd (Demo.handle (PostTeacherScan Demo.halfPast None) Demo.halfPastNine
                      DemoMore.afterCheckIn))
              0%nat DemoMore.checkedOutAtHalfPast)
    as [Hhours _].
  - apply served_handle with (t := Demo.nine).
    + apply served_handle with (t := Demo.nine); [apply served_empty|reflexivity].
    + vm_compute. discriminate.
  - vm_compute. reflexivity.
  - exact Hhours.
Defined.

(** X5 on the class token of 09:00:00, one second old. *)
Lemma class_token_refused_at_teacher_scan_run :
  Demo.scanTeacherQR Demo.classQr None (Demo.nine + 1000) [] =
  (json 400 false "This QR is not for teacher attendance" NoData, []).
Proof.
  etransitivity.
  - apply (desk class_token_refused_at_teacher_scan
             (Some "Math") (Some "10A") None (Some 2) "teacher-1" (Some "INST01")
             "a1b2" Demo.nine (Demo.classToken Demo.nine) None (Demo.nine + 1000) []).
    reflexivity.
  - vm_compute. reflexivity.
Defined.

(** X6 on the teacher's token of 09:00:00, scanned by a student at
    09:00:30. *)
Lemma teacher_token_accepted_at_student_routes_run :
  code (fst (Demo.handle (PostScan Demo.morning "student-1") (Demo.nine + 30000) [])) = 200.
Proof.
  destruct (installation teacher_token_accepted_at_student_routes
              ViaScan "teacher-1" (Some "INST01") "s1" Demo.nine
              (Demo.selfToken "s1" Demo.nine) "student-1" (Demo.nine + 30000) [])
    as [H200 _].
  - reflexivity.
  - vm_compute. reflexivity.
  - reflexivity.
  - reflexivity.
  - discriminate.
  - discriminate.
  - exact H200.
Defined.

(** X7 on the class token of 09:00:00, redeemed on [/mark] at 09:00:45. *)
Lemma issued_class_stored_run :
  exists doc,
    snd (Demo.handle (PostMark Demo.classQr "student-1") (Demo.nine + 45000) []) = [doc] /\
    Attendance.subject doc = Some "Math" /\
    Attendance.period doc = 2 /\
    Attendance.date doc = Demo.nine + 45000.
Proof.
  destruct (installation issued_class_stored
              ViaMark (Some "Math") (Some "10A") None (Some 2) "teacher-1"
              (Some "INST01") "a1b2" Demo.nine (Demo.classToken Demo.nine)
              "student-1" (Demo.nine + 45000) [])
    as (_ & doc & Hsnd & Hsubject & _ & Hperiod & _ & _ & _ & _ & _ & Hdate & _).
  - reflexivity.
  - vm_compute. reflexivity.
  - reflexivity.
  - reflexivity.
  - discriminate.
  - intros _. exists Demo.ravi. reflexivity.
  - exists doc. split; [exact Hsnd|]. split; [exact Hsubject|].
    split; [exact Hperiod|exact Hdate].
Defined.

(** X8 on the class token of 09:00:00, verified at 09:04:59.999 and old
    by the handler's clock at 09:05:00.001. *)
Lemma second_expiry_check_between_readings_run :
  Readings.markAttendance_token Demo.secret Demo.hmac Demo.classQr
    (Demo.nine + 299999) (Demo.nine + 300001)
  = inl (json 401 false "QR code has expired. Please ask teacher for a new one." NoData).
Proof.
  apply (second_expiry_check_between_readings Demo.secret Demo.hmac Demo.teachers
           Demo.students Demo.clockText Demo.numberText
           (Some "Math") (Some "10A") None (Some 2) "teacher-1" (Some "INST01")
           "a1b2" Demo.nine Demo.nine (Demo.classToken Demo.nine)
           (Demo.nine + 299999) (Demo.nine + 300001)).
  - reflexivity.
  - lia.
  - lia.
  - split; [vm_compute; reflexivity|lia].
Defined.

(** X9 on two students who scan the class token at 09:00:45 and 09:01:30. *)
Lemma one_token_many_students_run :
  let first := Demo.handle (PostScan Demo.classQr "student-1") (Demo.nine + 45000) [] in
  let second :=
    Demo.handle (PostScan Demo.classQr "student-2") (Demo.nine + 90000) (snd first) in
  code (fst second) = 200 /\
  keyCount "a1b2" "student-1" (snd second) = 1%nat /\
  keyCount "a1b2" "student-2" (snd second) = 1%nat.
Proof.
  intros first second.
  destruct (installation one_token_many_students ViaScan ViaScan
              Demo.classQr "student-1" "student-2"
              (Demo.nine + 45000) (Demo.nine + 90000) [])
    as (H200 & decoded & doc1 & doc2 & Hdec & _ & _ & Hone & Htwo).
  - discriminate.
  - vm_compute. reflexivity.
  - vm_compute. reflexivity.
  - vm_compute in Hdec. injection Hdec as <-.
    split; [exact H200|]. split; [exact Hone|exact Htwo].
Defined.

(** X10 on a student the directory does not know. *)
Lemma scanQR_accepts_the_unknown_run :
  Demo.markAttendance Demo.classQr "student-9" (Demo.nine + 45000) [] =
  (json 404 false "Student not found" NoData, []).
Proof.
  destruct (scanQR_accepts_the_unknown Demo.secret Demo.hmac Demo.tz Demo.teachers
              Demo.students Demo.clockText Demo.numberText
              Demo.classQr "student-9" (Demo.nine + 45000) [] (Demo.mathClass Demo.nine))
    as [Hstudent _].
  - vm_compute. reflexivity.
  - vm_compute. reflexivity.
  - apply Hstudent. reflexivity.
Defined.

(** X11 on two scans of the morning's token at 09:00:01 and 09:00:02. *)
Lemma concurrent_check_ins_run :
  exists doc1 doc2,
    Demo.interleaved [doc1; doc2] /\
    todayCount "teacher-1" Demo.midnight [doc1; doc2] = 2%nat.
Proof.
  destruct (installation concurrent_check_ins "teacher-1" Demo.midnight []
              Demo.morning None (Demo.nine + 1000) Demo.morning None (Demo.nine + 2000))
    as (doc1 & doc2 & Hreach & Hcount & _).
  - exists {| collection := []; inflight := [] |}. split; [apply rtc_refl|reflexivity].
  - reflexivity.
  - vm_compute. reflexivity.
  - vm_compute. reflexivity.
  - vm_compute. reflexivity.
  - vm_compute. reflexivity.
  - exists doc1, doc2. split; [exact Hreach|exact Hcount].
Defined.

(** X12 on a check-in at 09:00:00 and the scan of 09:00:00 the day after. *)
Lemma check_in_left_open_overnight_run :
  exists doc,
    snd (Demo.scanTeacherQR DemoMore.nextMorning None DemoMore.nextDay DemoMore.afterCheckIn)
      = DemoMore.afterCheckIn ++ [doc] /\
    Attendance.teacherCheckIn doc = Some DemoMore.nextDay /\
    Attendance.teacherCheckOut doc = None.
Proof.
  destruct (installation check_in_left_open_overnight Demo.nine DemoMore.afterCheckIn
              "teacher-1" DemoMore.nextMorning None DemoMore.nextDay)
    as (teacher & doc & _ & Hanswer & Hin & Hout & _).
  - apply served_handle with (t := Demo.nine); [apply served_empty|reflexivity].
  - vm_compute. reflexivity.
  - vm_compute. reflexivity.
  - vm_compute. reflexivity.
  - exists doc. split; [exact (f_equal snd Hanswer)|]. split; [exact Hin|exact Hout].
Defined.

(** X13 on the class token of 09:00:00 at 09:00:45. *)
Lemma mark_accepted_then_scan_accepted_run :
  code (fst (Demo.scanQR Demo.classQr "student-1" (Demo.nine + 45000) [])) = 200.
Proof.
  destruct (mark_accepted_then_scan_accepted Demo.secret Demo.hmac Demo.tz Demo.teachers
              Demo.students Demo.clockText Demo.numberText
              Demo.classQr "student-1" (Demo.nine + 45000) []) as [H200 _].
  - vm_compute. reflexivity.
  - exact H200.
Defined.

(** X14 on the teacher's token of 09:00:00, two minutes later. *)
Lemma issued_teacher_token_checks_in_run :
  Demo.scanTeacherQR Demo.morning None (Demo.nine + 120000) [] =
  (json 401 false "Invalid or expired QR code" NoData, []).
Proof.
  apply (issued_teacher_token_checks_in Demo.secret Demo.hmac Demo.tz Demo.teachers
           Demo.clockText Demo.dayText Demo.numberText
           "teacher-1" (Some "INST01") "s1" Demo.nine (Demo.selfToken "s1" Demo.nine)
           None (Demo.nine + 120000) []).
  - reflexivity.
  - reflexivity.
  - discriminate.
  - intros teacher _. reflexivity.
Defined.

(** X16 on a student's scan at 09:00:45 and a scan of the same class token
    at the teacher endpoint at 09:01:00. *)
Lemma student_record_checked_out_run :
  let answer :=
    DemoMore.scanTeacherAttendanceQR Demo.classQr (Demo.nine + 60000) DemoMore.afterScan in
  Reply.code (fst answer) = 500 /\
  exists doc,
    snd answer = [doc] /\
    Attendance.studentId doc = Some "student-1" /\
    Attendance.teacherCheckOut doc = Some (Demo.nine + 60000).
Proof.
  intros answer.
  destruct (desk student_record_checked_out
              Demo.classQr "student-1" (Demo.nine + 45000) [] (Demo.mathClass Demo.nine)
              Demo.classQr (Demo.nine + 60000) (Demo.mathClass Demo.nine) Demo.asha)
    as (doc & _ & _ & _ & Hfst & Hsnd & Hstudent & Hout & _).
  - vm_compute. reflexivity.
  - vm_compute. reflexivity.
  - vm_compute. reflexivity.
  - reflexivity.
  - discriminate.
  - reflexivity.
  - reflexivity.
  - vm_compute. reflexivity.
  - split.
    + exact (f_equal Reply.code Hfst).
    + eexists. split; [exact Hsnd|]. split; [exact Hstudent|exact Hout].
Defined.

(** X17 on the class token of 09:00:00, one second old. *)
Lemma class_token_checks_teacher_in_run :
  Reply.code (fst (DemoMore.scanTeacherAttendanceQR Demo.classQr (Demo.nine + 1000) [])) = 200.
Proof.
  destruct (desk class_token_checks_teacher_in
              (Some "Math") (Some "10A") None (Some 2) "teacher-1" (Some "INST01")
              "a1b2" Demo.nine (Demo.classToken Demo.nine) (Demo.nine + 1000) [])
    as (H200 & _).
  - reflexivity.
  - vm_compute. reflexivity.
  - discriminate.
  - reflexivity.
  - reflexivity.
  - exact H200.
Defined.

(** X18 on the check-in at 09:00:00 and a check-out at 09:30:00. *)
Lemma check_out_at_either_endpoint_run :
  success (fst (Demo.scanTeacherQR Demo.halfPast None Demo.halfPastNine
                  [Demo.checkedInAtNine])) = false /\
  Reply.success (fst (DemoMore.scanTeacherAttendanceQR Demo.halfPast Demo.halfPastNine
                        [Demo.checkedInAtNine])) = true.
Proof.
  destruct (desk check_out_at_either_endpoint
              Demo.halfPast None Demo.halfPastNine [Demo.checkedInAtNine]
              Demo.halfPastPayload Demo.asha 0%nat Demo.checkedInAtNine Demo.nine)
    as (_ & _ & Hone & Hother & _).
  - vm_compute. reflexivity.
  - reflexivity.
  - discriminate.
  - reflexivity.
  - vm_compute. reflexivity.
  - reflexivity.
  - reflexivity.
  - reflexivity.
  - reflexivity.
  - split; [exact Hone|exact Hother].
Defined.

(** X19 on a test scan at 09:00:00. *)
Lemma test_scans_pile_up_run :
  Reply.code (fst (DemoMore.testTeacherScan (Some "teacher-1") Demo.nine [])) = 200.
Proof.
  destruct (test_scans_pile_up Demo.secret Demo.hmac Demo.tz Demo.teachers
              Demo.clockText Demo.dayText Demo.numberText
              "teacher-1" Demo.asha Demo.nine [] 3%nat)
    as (H200 & _).
  - discriminate.
  - reflexivity.
  - reflexivity.
  - exact H200.
Defined.

(** X20 on scans at 09:00:01, 09:30:00 and 17:00:01. *)
Lemma other_endpoint_day_run :
  let first := DemoMore.scanTeacherAttendanceQR Demo.morning (Demo.nine + 1000) [] in
  let second := DemoMore.scanTeacherAttendanceQR Demo.halfPast Demo.halfPastNine (snd first) in
  let third :=
    DemoMore.scanTeacherAttendanceQR Demo.evening (Demo.nine + 8 * 3600000 + 1000)
      (snd second) in
  Reply.code (fst first) = 200 /\ Reply.success (fst second) = true /\
  Reply.code (fst third) = 400.
Proof.
  intros first second third.
  destruct (desk other_endpoint_day "teacher-1" Demo.asha Demo.midnight []
              Demo.morning (Demo.nine + 1000) Demo.morningPayload
              Demo.halfPast Demo.halfPastNine Demo.halfPastPayload
              Demo.evening (Demo.nine + 8 * 3600000 + 1000) DemoMore.eveningPayload)
    as (Hfirst & Hsecond & _ & _ & _ & Hthird).
  - discriminate.
  - reflexivity.
  - reflexivity.
  - vm_compute. reflexivity.
  - reflexivity.
  - vm_compute. reflexivity.
  - vm_compute. reflexivity.
  - reflexivity.
  - vm_compute. reflexivity.
  - vm_compute. reflexivity.
  - reflexivity.
  - vm_compute. reflexivity.
  - reflexivity.
  - split; [exact (f_equal (fun a => Reply.code (fst a)) Hfirst)|].
    split; [exact (f_equal (fun a => Reply.success (fst a)) Hsecond)|].
    exact (f_equal (fun a => Reply.code (fst a)) Hthird).
Defined.

(** X21 on the scan of 09:00:45, asked for at 10:00:00. *)
Lemma redemption_listed_for_the_day_run :
  exists after,
    Reply.data (DemoMore.getMyAttendance "student-1" (Demo.nine + 3600000) DemoMore.afterScan)
      = Some after /\
    attendanceReports.MyAttendance.totalClasses after = 1.
Proof.
  destruct (sorted redemption_listed_for_the_day ViaScan Demo.classQr "student-1"
              (Demo.nine + 45000) [] (Demo.nine + 3600000)) as [Hday _];
    [vm_compute; reflexivity|].
  destruct Hday as (before & after & Hbefore & Hafter & Htotal & _);
    [vm_compute; reflexivity|].
  vm_compute in Hbefore. injection Hbefore as <-.
  exists after. split; [exact Hafter|exact Htotal].
Defined.

(** X22 on a redemption on [/mark] at 09:00:45. *)
Lemma class_attendance_by_date_run :
  DemoMore.getClassAttendance "teacher-1" (Some Demo.nine) None None
    (snd (Demo.handle (PostMark Demo.classQr "student-1") (Demo.nine + 45000) []))
  = DemoMore.getClassAttendance "teacher-1" (Some Demo.nine) None None [].
Proof.
  pose proof (sorted class_attendance_by_date ViaMark Demo.classQr "student-1"
                (Demo.nine + 45000) [] (Demo.mathClass Demo.nine)) as Hdate.
  cbv beta zeta iota in Hdate.
  apply Hdate; try (vm_compute; reflexivity). vm_compute. discriminate.
Defined.

(** X23 after the teacher's check-in at 09:00:01. *)
Lemma class_attendance_fails_after_teacher_scan_run :
  Reply.code
    (DemoMore.getClassAttendance "teacher-1" None None None
       (snd (Demo.scanTeacherQR Demo.morning None (Demo.nine + 1000) []))) = 500.
Proof.
  apply (f_equal Reply.code
           (sorted class_attendance_fails_after_teacher_scan "teacher-1" Demo.midnight
              Demo.morning None (Demo.nine + 1000) [] None None
              (sequential_empty _ _ _ _ _ _ _ _) eq_refl eq_refl eq_refl eq_refl)).
Defined.

(** X24 after the scan of 09:00:45. *)
Lemma class_statistics_run :
  exists report,
    Reply.data (DemoMore.getClassAttendance "teacher-1" None None None DemoMore.afterScan)
      = Some report /\
    attendanceReports.Statistics.absent (attendanceReports.ClassAttendance.statistics report)
      <= 0.
Proof.
  destruct (Reply.data (DemoMore.getClassAttendance "teacher-1" None None None
                          DemoMore.afterScan)) as [report|] eqn:Hdata;
    [|vm_compute in Hdata; discriminate].
  exists report. split; [reflexivity|].
  pose proof (sorted class_statistics "teacher-1" None None None DemoMore.afterScan report
                sequential_afterScan Hdata) as Hstatistics.
  cbv zeta in Hstatistics. destruct Hstatistics as (_ & _ & _ & Habsent & _).
  exact Habsent.
Defined.

(** X25 after the scan of 09:00:45, asked for at 10:00:00. *)
Lemma my_attendance_counts_run :
  exists report,
    Reply.data (DemoMore.getMyAttendance "student-1" (Demo.nine + 3600000) DemoMore.afterScan)
      = Some report /\
    attendanceReports.MyAttendance.presentCount report
    + attendanceReports.MyAttendance.lateCount report
    = attendanceReports.MyAttendance.totalClasses report.
Proof.
  destruct (Reply.data (DemoMore.getMyAttendance "student-1" (Demo.nine + 3600000)
                          DemoMore.afterScan)) as [report|] eqn:Hdata;
    [|vm_compute in Hdata; discriminate].
  exists report. split; [reflexivity|].
  destruct (sorted my_attendance_counts "student-1" (Demo.nine + 3600000)
              DemoMore.afterScan report sequential_afterScan Hdata) as (_ & Hcounts & _).
  exact Hcounts.
Defined.

(** X26 after the scan of 09:00:45, asked for at 10:00:00. *)
Lemma daily_summary_adds_up_run :
  exists report,
    Reply.data (DemoMore.getDailySummary "teacher-1" None (Demo.nine + 3600000)
                  DemoMore.afterScan) = Some report /\
    sumOver attendanceReports.Item.totalStudents
      (attendanceReports.DailySummary.summary report) = 1.
Proof.
  destruct (Reply.data (DemoMore.getDailySummary "teacher-1" None (Demo.nine + 3600000)
                          DemoMore.afterScan)) as [report|] eqn:Hdata;
    [|vm_compute in Hdata; discriminate].
  exists report. split; [reflexivity|].
  pose proof (daily_summary_adds_up Demo.tz Demo.dayText Demo.numberText DemoMore.sort
                insertion_sort_Permutation "teacher-1" None (Demo.nine + 3600000)
                DemoMore.afterScan report Hdata) as Hsummary.
  cbv zeta in Hsummary. destruct Hsummary as (Hsum & _).
  exact Hsum.
Defined.

(** X27 on the teacher's check-in at 09:00:01, asked for at 10:00:00. *)
Lemma daily_summary_counts_the_teacher_run :
  exists after,
    Reply.data (DemoMore.getDailySummary "teacher-1" None (Demo.nine + 3600000)
                  (snd (Demo.scanTeacherQR Demo.morning None (Demo.nine + 1000) [])))
      = Some after /\
    sumOver attendanceReports.Item.totalStudents
      (attendanceReports.DailySummary.summary after) = 1.
Proof.
  destruct (daily_summary_counts_the_teacher Demo.secret Demo.hmac Demo.tz Demo.teachers
              Demo.clockText Demo.dayText Demo.numberText DemoMore.sort
              insertion_sort_Permutation
              "teacher-1" Demo.midnight Demo.morning None (Demo.nine + 1000) []
              (Demo.nine + 3600000))
    as (before & after & Hbefore & Hafter & Hsum).
  - vm_compute. reflexivity.
  - reflexivity.
  - vm_compute. reflexivity.
  - vm_compute. reflexivity.
  - vm_compute in Hbefore. injection Hbefore as <-.
    exists after. split; [exact Hafter|exact Hsum].
Defined.

(** X28 after the teacher's check-in at 09:00:00. *)
Lemma institution_report_fails_on_teacher_document_run :
  Reply.code (DemoMore.getInstitutionReport "INST01" None DemoMore.afterCheckIn) = 500.
Proof.
  destruct (DemoMore.afterCheckIn !! 0%nat) as [d|] eqn:Hd;
    [|vm_compute in Hd; discriminate].
  apply (f_equal Reply.code
           (sorted institution_report_fails_on_teacher_document "INST01" None
              DemoMore.afterCheckIn 0%nat d
              (sequential_handle _ _ _ _ _ _ _ _ _ _ _ (sequential_empty _ _ _ _ _ _ _ _))
              Hd
              ltac:(vm_compute in Hd; injection Hd as <-; reflexivity)
              ltac:(vm_compute in Hd; injection Hd as <-; vm_compute; reflexivity))).
Defined.

(** X29 after the scan of 09:00:45. *)
Lemma institution_statistics_run :
  exists report,
    Reply.data (DemoMore.getInstitutionReport "INST01" None DemoMore.afterScan)
      = Some report /\
    attendanceReports.InstitutionReport.totalRecords report = 1 /\
    attendanceReports.Counts.absent (attendanceReports.InstitutionReport.statistics report)
      = 0.
Proof.
  destruct (Reply.data (DemoMore.getInstitutionReport "INST01" None DemoMore.afterScan))
    as [report|] eqn:Hdata; [|vm_compute in Hdata; discriminate].
  exists report. split; [reflexivity|].
  split; [vm_compute in Hdata; now injection Hdata as <-|].
  pose proof (sorted institution_statistics "INST01" None DemoMore.afterScan report
                sequential_afterScan Hdata) as Hstatistics.
  cbv zeta in Hstatistics. destruct Hstatistics as (_ & Habsent & _).
  exact Habsent.
Defined.

End MoreRuns.
